(** * Knowledge-manager: crawl-and-index pipeline

    A shallow embedding of [servers/knowledge-manager] ([crawler.py],
    [lancedb_wrapper.py], [server.py]) and the properties of its
    specification.

    A Python string is modelled by the bytes of its UTF-8 encoding
    ([string]).  White space is all of Unicode's, as [str.strip] has it.
    Case mapping and the class of letters and digits are the ASCII ones:
    [str.lower] is used by the sources only to look for ASCII words, and
    what depends on [str.isalnum] or on the length of a string is stated
    for ASCII strings.  Python integers are [Z].
    The network, the content-extraction library, the embedding models and
    the vector store are collaborators: they appear as fields of an
    environment record and every statement quantifies over them. *)

From Stdlib Require Import Ascii ZArith Lia.
From stdpp Require Import gmap strings list fin_maps pretty.
From Equations Require Import Equations.

Local Open Scope Z_scope.

(** ** Python string primitives used by the sources *)

Module Py.

Definition startswith (s p : string) : bool := String.prefix p s.

Definition endswith (s p : string) : bool :=
  String.prefix (String.rev p) (String.rev s).

(** [s.rstrip(c)] for a one-character argument. *)
Fixpoint rstrip_char (c : ascii) (s : string) : string :=
  match s with
  | EmptyString => EmptyString
  | String a r =>
      let r' := rstrip_char c r in
      if String.eqb r' "" && Ascii.eqb a c then EmptyString else String a r'
  end.

Definition lower_char (c : ascii) : ascii :=
  let n := nat_of_ascii c in
  if (Nat.leb 65 n && Nat.leb n 90)%bool then ascii_of_nat (n + 32) else c.

Fixpoint lower (s : string) : string :=
  match s with
  | EmptyString => EmptyString
  | String a r => String (lower_char a) (lower r)
  end.

(** [needle in s] *)
Definition contains (needle s : string) : bool :=
  match String.index 0 needle s with Some _ => true | None => false end.

(** [s.split(c)] for a one-character separator. *)
Fixpoint split_on (c : ascii) (s : string) : list string :=
  match s with
  | EmptyString => [EmptyString]
  | String a r =>
      let parts := split_on c r in
      if Ascii.eqb a c then EmptyString :: parts
      else match parts with
           | [] => [String a EmptyString]
           | p :: ps => String a p :: ps
           end
  end.

(** [s.split(c, 1)[1]]; [None] stands for the IndexError. *)
Fixpoint after_first (c : ascii) (s : string) : option string :=
  match s with
  | EmptyString => None
  | String a r => if Ascii.eqb a c then Some r else after_first c r
  end.

(** White space, as [str.isspace] and [str.strip()] have it, by the bytes
    of its encoding: the ASCII characters U+0009 to U+000D and U+001C to
    U+0020 ([space1]); U+0085 and U+00A0 ([space2]); U+1680, U+2000 to
    U+200A, U+2028, U+2029, U+202F, U+205F and U+3000 ([space3]). *)
Definition space1 (c : ascii) : bool :=
  let n := nat_of_ascii c in
  ((Nat.leb 9 n && Nat.leb n 13) || (Nat.leb 28 n && Nat.leb n 32))%bool.

Definition space2 (a b : ascii) : bool :=
  let '(x, y) := (nat_of_ascii a, nat_of_ascii b) in
  (Nat.eqb x 194 && (Nat.eqb y 133 || Nat.eqb y 160))%bool.

Definition space3 (a b c : ascii) : bool :=
  let '(x, y, z) := (nat_of_ascii a, nat_of_ascii b, nat_of_ascii c) in
  ((Nat.eqb x 225 && Nat.eqb y 154 && Nat.eqb z 128)
   || (Nat.eqb x 226 && Nat.eqb y 128
       && ((Nat.leb 128 z && Nat.leb z 138) || Nat.eqb z 168 || Nat.eqb z 169
           || Nat.eqb z 175))
   || (Nat.eqb x 226 && Nat.eqb y 129 && Nat.eqb z 159)
   || (Nat.eqb x 227 && Nat.eqb y 128 && Nat.eqb z 128))%bool.

(** [s.lstrip()] *)
Fixpoint lstrip (s : string) : string :=
  match s with
  | EmptyString => EmptyString
  | String a r =>
      if space1 a then lstrip r
      else match r with
           | String b r2 =>
               if space2 a b then lstrip r2
               else match r2 with
                    | String c r3 => if space3 a b c then lstrip r3 else s
                    | EmptyString => s
                    end
           | EmptyString => s
           end
  end.

(** [s.rstrip()]: the longest suffix made of white space is cut. *)
Fixpoint rstrip (s : string) : string :=
  match s with
  | EmptyString => EmptyString
  | String a r =>
      if String.eqb (lstrip s) "" then EmptyString else String a (rstrip r)
  end.

(** [s.strip()] *)
Definition strip (s : string) : string := rstrip (lstrip s).

(** Truthiness of a string. *)
Definition truthy (s : string) : bool := negb (String.eqb s "").

Fixpoint drop_chars (n : nat) (s : string) : string :=
  match n, s with
  | O, _ => s
  | S k, String _ r => drop_chars k r
  | S _, EmptyString => EmptyString
  end.

(** The lazy group [(.*?)] followed by the literal [close]: the shortest
    run of characters other than newline after which [close] starts. *)
Fixpoint lazy_until (close : string) (s : string) : option string :=
  if String.prefix close s then Some EmptyString
  else match s with
       | EmptyString => None
       | String a r =>
           if Ascii.eqb a "010"%char then None
           else match lazy_until close r with
                | Some cap => Some (String a cap)
                | None => None
                end
       end.

(** [re.findall(open + '(.*?)' + close, s)]: leftmost matches, scanning
    resumes after each match.  [skip] counts the characters of the
    current match still to be passed over. *)
Fixpoint findall_between (open close : string) (skip : nat) (s : string)
  : list string :=
  match s with
  | EmptyString => []
  | String _ r =>
      match skip with
      | S k => findall_between open close k r
      | O =>
          if String.prefix open s then
            match lazy_until close (drop_chars (String.length open) s) with
            | Some cap =>
                cap :: findall_between open close
                         (String.length open + String.length cap
                          + String.length close - 1) r
            | None => findall_between open close 0 r
            end
          else findall_between open close 0 r
      end
  end.

(** [l[:n]] for a Python integer [n]. *)
Definition slice_to {A} (n : Z) (l : list A) : list A :=
  if 0 <=? n then take (Z.to_nat n) l
  else take (length l - Z.to_nat (- n)) l.

End Py.

(** ** Collaborators of the crawl module *)

(** Exceptions, as far as the handlers of the sources distinguish them:
    [requests.RequestException] and every other [Exception]. *)
Inductive Exn :=
| RequestException
| Exception (what : string).

Inductive Res (A : Type) :=
| Ok (a : A)
| Raise (e : Exn).
Arguments Ok {A} a.
Arguments Raise {A} e.

(** What a call of [requests.head] or [requests.get] does. *)
Inductive HttpOutcome :=
| Response (status_code : Z) (text : string)
| HttpRaises (e : Exn).

(** The fields of a crawl4ai result the crawler reads: [success],
    [markdown], [metadata.get('title')] and the [href] of every entry of
    [links.get('internal', [])]. *)
Record CrawlResult := {
  success : bool;
  markdown : string;
  metadata_title : option string;
  links_internal : list (option string)
}.

(** [await crawler.arun(url=..)] returns a result or raises an
    [Exception]. *)
Inductive FetchOutcome :=
| Fetched (r : CrawlResult)
| FetchRaises.

(** The web as the crawl module sees it.  [urljoin base path] is what
    [urllib.parse.urljoin] returns, and [urljoin_raises base path] tells
    when it raises [ValueError] instead, as it does on a base with an
    unmatched bracket.  [arun k url] is the outcome of the call of [arun]
    on [url] that follows [k] earlier calls on the same crawler session. *)
Record Web := {
  urljoin : string -> string -> string;
  urljoin_raises : string -> string -> bool;
  urlparse : string -> string * string;
  requests_head : string -> HttpOutcome;
  requests_get : string -> HttpOutcome;
  arun : nat -> string -> FetchOutcome
}.

(** ** crawler.py: strategy detection *)

Inductive Strategy := sitemap | recursive.

Definition normalize_url (url : string) : string :=
  let url :=
    if Py.startswith url "http://" || Py.startswith url "https://" then url
    else "https://" +:+ url in
  Py.rstrip_char "/" url.

Definition common_paths : list string :=
  ["/sitemap.xml"; "/sitemap_index.xml"; "/sitemap/sitemap.xml"].

(** The loop over [common_paths] of [check_sitemap].  The call of
    [urljoin] stands before the [try]: what it raises propagates. *)
Fixpoint probe_common (W : Web) (base_url : string) (paths : list string)
  : Res (option string) :=
  match paths with
  | [] => Ok None
  | path :: rest =>
      if urljoin_raises W base_url path then Raise (Exception "ValueError")
      else
        let sitemap_url := urljoin W base_url path in
        match requests_head W sitemap_url with
        | Response code _ =>
            if code =? 200 then Ok (Some sitemap_url)
            else probe_common W base_url rest
        | HttpRaises RequestException => probe_common W base_url rest
        | HttpRaises e => Raise e
        end
  end.

(** The loop over the lines of robots.txt of [check_sitemap]. *)
Fixpoint scan_robots (W : Web) (lines : list string) : Res (option string) :=
  match lines with
  | [] => Ok None
  | line :: rest =>
      if Py.startswith (Py.lower line) "sitemap:" then
        match Py.after_first ":" line with
        | None => Raise (Exception "IndexError")
        | Some value =>
            let sitemap_url := Py.strip value in
            match requests_head W sitemap_url with
            | Response code _ =>
                if code =? 200 then Ok (Some sitemap_url)
                else scan_robots W rest
            | HttpRaises RequestException => scan_robots W rest
            | HttpRaises e => Raise e
            end
        end
      else scan_robots W rest
  end.

Definition check_sitemap (W : Web) (base_url : string) : Res (bool * string) :=
  match probe_common W base_url common_paths with
  | Raise e => Raise e
  | Ok (Some sitemap_url) => Ok (true, sitemap_url)
  | Ok None =>
      if urljoin_raises W base_url "/robots.txt"
      then Raise (Exception "ValueError")
      else
        let robots_url := urljoin W base_url "/robots.txt" in
        match requests_get W robots_url with
        | Response code text =>
            if code =? 200 then
              match scan_robots W (Py.split_on "010" text) with
              | Raise RequestException => Ok (false, "")
              | Raise e => Raise e
              | Ok (Some sitemap_url) => Ok (true, sitemap_url)
              | Ok None => Ok (false, "")
              end
            else Ok (false, "")
        | HttpRaises RequestException => Ok (false, "")
        | HttpRaises e => Raise e
        end
  end.

Definition detect_strategy (W : Web) (url : string) : Res (Strategy * string) :=
  let url := normalize_url url in
  match check_sitemap W url with
  | Raise e => Raise e
  | Ok (sitemap_found, sitemap_url) =>
      if sitemap_found then Ok (sitemap, sitemap_url)
      else Ok (recursive, url)
  end.

(** ** crawler.py: sitemap resolution *)

Definition is_sub_sitemap (url : string) : bool :=
  Py.contains "sitemap" (Py.lower url) && Py.endswith url ".xml".

(** [response.raise_for_status()] raises on 4xx and 5xx. *)
Definition raises_for_status (code : Z) : bool :=
  (400 <=? code) && (code <? 600).

(** The [for url in urls] loop of [extract_sitemap_urls]; [resolve] is the
    recursive call. *)
Fixpoint splice_sitemaps (resolve : string -> option (list string))
    (urls all_urls : list string) : option (list string) :=
  match urls with
  | [] => Some all_urls
  | url :: rest =>
      if is_sub_sitemap url then
        match resolve url with
        | Some sub => splice_sitemaps resolve rest (all_urls ++ sub)
        | None => None
        end
      else splice_sitemaps resolve rest (all_urls ++ [url])
  end.

(** [extract_sitemap_urls].  The function has no bound of its own on
    the nesting of its recursive calls; the interpreter has one, the
    recursion limit.  [depth] is the number of nested calls that still
    have room for their request: in the call beyond them the request
    raises [RecursionError] inside the [try], and that call returns the
    empty list as on every other exception inside its body.  The function
    always returns a list; the result has the type of the recursive call
    in [splice_sitemaps]. *)
Fixpoint extract_sitemap_urls (W : Web) (depth : nat) (sitemap_url : string)
  : option (list string) :=
  match depth with
  | O => Some []
  | S d =>
      match requests_get W sitemap_url with
      | Response code text =>
          if raises_for_status code then Some []
          else splice_sitemaps (extract_sitemap_urls W d)
                 (Py.findall_between "<loc>" "</loc>" 0 text) []
      | HttpRaises _ => Some []
      end
  end.


(** ** crawler.py: recursive crawl *)

(** A crawled page: the dict with keys [url], [title], [markdown]. *)
Record Page := {
  page_url : string;
  page_title : string;
  page_markdown : string
}.

Definition get_base_domain (W : Web) (url : string) : string :=
  let '(scheme, netloc) := urlparse W url in
  scheme +:+ "://" +:+ netloc.

(** The page a result yields for [url], if any:
    [result.success and result.markdown]. *)
Definition page_of (url : string) (r : CrawlResult) : option Page :=
  if success r && Py.truthy (markdown r) then
    Some {| page_url := url;
            page_title := default "Untitled" (metadata_title r);
            page_markdown := markdown r |}
  else None.

(** The entries appended to [to_visit] for a page found at [depth]. *)
Definition next_level (base_domain : string) (depth : Z) (r : CrawlResult)
  : list (string * Z) :=
  omap (fun href =>
          match href with
          | Some link_url =>
              if Py.truthy link_url && Py.startswith link_url base_domain
              then Some (link_url, depth + 1) else None
          | None => None
          end) (links_internal r).

(** The variables of the loop of [crawl_recursive].  [fetch_log] is a ghost
    variable: the frontier entries on which [arun] was called, oldest
    first. *)
Record CrawlState := {
  visited : gset string;
  to_visit : list (string * Z);
  pages : list Page;
  fetch_log : list (string * Z)
}.

Definition loop_cond (max_pages : Z) (st : CrawlState) : bool :=
  negb (bool_decide (to_visit st = [])) && (Z.of_nat (length (pages st)) <? max_pages).

(** One iteration of the [while] loop. *)
Definition loop_body (W : Web) (base_domain : string) (max_depth : Z)
    (st : CrawlState) : CrawlState :=
  match to_visit st with
  | [] => st
  | (url, depth) :: rest =>
      if bool_decide (url ∈ visited st) || (max_depth <? depth) then
        {| visited := visited st; to_visit := rest;
           pages := pages st; fetch_log := fetch_log st |}
      else
        let visited' := {[url]} ∪ visited st in
        let log' := fetch_log st ++ [(url, depth)] in
        match arun W (length (fetch_log st)) url with
        | Fetched r =>
            match page_of url r with
            | Some p =>
                {| visited := visited';
                   to_visit :=
                     rest ++ (if depth <? max_depth
                              then next_level base_domain depth r else []);
                   pages := pages st ++ [p];
                   fetch_log := log' |}
            | None =>
                {| visited := visited'; to_visit := rest;
                   pages := pages st; fetch_log := log' |}
            end
        | FetchRaises =>
            {| visited := visited'; to_visit := rest;
               pages := pages st; fetch_log := log' |}
        end
  end.

Definition loop_measure (max_pages : Z) (st : CrawlState) : nat * nat :=
  (Z.to_nat (max_pages - Z.of_nat (length (pages st))), length (to_visit st)).

(** Matching on a value while keeping the equation that it is the value. *)
Definition inspect {A : Type} (x : A) : {y : A | x = y} := exist _ x eq_refl.

Equations crawl_loop (W : Web) (base_domain : string) (max_pages max_depth : Z)
    (st : CrawlState) : CrawlState
    by wf (loop_measure max_pages st) (Subterm.lexprod nat nat lt lt) :=
  crawl_loop W base_domain max_pages max_depth st
    with inspect (loop_cond max_pages st) := {
    | exist _ true Hc =>
        crawl_loop W base_domain max_pages max_depth
          (loop_body W base_domain max_depth st)
    | exist _ false _ => st }.
Next Obligation.
  unfold loop_measure, loop_body.
  destruct (to_visit st) as [|[url depth] rest] eqn:Hv.
  - exfalso. unfold loop_cond in Hc. rewrite Hv in Hc. discriminate Hc.
  - destruct (bool_decide (url ∈ visited st) || (max_depth <? depth)).
    { apply Subterm.right_lex. simpl. lia. }
    destruct (arun W (length (fetch_log st)) url) as [r|].
    2:{ apply Subterm.right_lex. simpl. lia. }
    destruct (page_of url r).
    2:{ apply Subterm.right_lex. simpl. lia. }
    apply Subterm.left_lex. simpl.
    apply andb_true_iff in Hc as [_ Hp%Z.ltb_lt].
    rewrite length_app. simpl. lia.
Defined.

(** [max_depth: int = 3] in the signature of [crawl_recursive]. *)
Definition default_max_depth : Z := 3.

Definition crawl_start (start_url : string) : CrawlState :=
  {| visited := ∅; to_visit := [(start_url, 0)]; pages := []; fetch_log := [] |}.

(** The loop of [crawl_recursive] run to its end, ghost log included. *)
Definition crawl_recursive_run (W : Web) (start_url : string)
    (max_pages max_depth : Z) : CrawlState :=
  crawl_loop W (get_base_domain W start_url) max_pages max_depth
    (crawl_start start_url).

Definition crawl_recursive (W : Web) (start_url : string)
    (max_pages max_depth : Z) : list Page :=
  pages (crawl_recursive_run W start_url max_pages max_depth).

(** ** crawler.py: batch crawl *)

Definition batch_size : nat := 10.

Fixpoint range_from (fuel start stop step : nat) : list nat :=
  match fuel with
  | O => []
  | S f =>
      if Nat.ltb start stop then start :: range_from f (start + step) stop step
      else []
  end.

(** [range(0, stop, step)] for a positive [step]. *)
Definition py_range (stop step : nat) : list nat := range_from stop 0 stop step.

(** [asyncio.gather] with [return_exceptions=True] for the batch
    that starts at position [i]: one outcome per URL, in the order of the
    batch, an exception being an outcome like any other. *)
Definition gather (W : Web) (i : nat) (batch : list string) : list FetchOutcome :=
  imap (fun j url => arun W (i + j) url) batch.

(** The loop [for url, result in zip(batch, results)]. *)
Fixpoint collect_batch (pairs : list (string * FetchOutcome)) (pages : list Page)
  : list Page :=
  match pairs with
  | [] => pages
  | (url, FetchRaises) :: rest => collect_batch rest pages
  | (url, Fetched result) :: rest =>
      match page_of url result with
      | Some p => collect_batch rest (pages ++ [p])
      | None => collect_batch rest pages
      end
  end.

(** The batch [urls[i:i+batch_size]]. *)
Definition batch_at (urls : list string) (i : nat) : list string :=
  take batch_size (drop i urls).

Definition crawl_urls (W : Web) (urls : list string) : list Page :=
  foldl (fun pages i =>
           let batch := batch_at urls i in
           collect_batch (zip batch (gather W i batch)) pages)
        [] (py_range (length urls) batch_size).

(** ** crawler.py: entry points *)

Definition crawl_from_sitemap (W : Web) (depth : nat) (sitemap_url : string)
    (max_pages : Z) : option (list Page) :=
  match extract_sitemap_urls W depth sitemap_url with
  | Some urls => Some (crawl_urls W (Py.slice_to max_pages urls))
  | None => None
  end.

(** Module-level [crawl_website]: the returned pages or the exception
    raised; [depth] is the nesting the recursion limit leaves to sitemap
    resolution. *)
Definition crawl_website (W : Web) (depth : nat) (url : string) (max_pages : Z)
  : option (Res (list Page)) :=
  match detect_strategy W url with
  | Raise e => Some (Raise e)
  | Ok (sitemap, discovered_url) =>
      match crawl_from_sitemap W depth discovered_url max_pages with
      | Some pages => Some (Ok pages)
      | None => None
      end
  | Ok (recursive, discovered_url) =>
      Some (Ok (crawl_recursive W discovered_url max_pages default_max_depth))
  end.

(** A page in the format of the knowledge-base pipeline: keys [url],
    [title], [content]. *)
Record ContentPage := {
  cpage_url : string;
  cpage_title : string;
  cpage_content : string
}.

Module WebsiteCrawler.

Record t := {
  max_pages : Z;
  max_depth : Z
}.

(** [WebsiteCrawler(max_pages=100, max_depth=3)] *)
Definition init (max_pages max_depth : option Z) : t :=
  {| max_pages := default 100 max_pages;
     max_depth := default 3 max_depth |}.

Definition convert (page : Page) : ContentPage :=
  {| cpage_url := page_url page;
     cpage_title := page_title page;
     cpage_content := page_markdown page |}.

Definition crawl_website (self : t) (W : Web) (depth : nat) (url : string)
  : option (Res (list ContentPage)) :=
  match crawl_website W depth url (max_pages self) with
  | Some (Ok pages) => Some (Ok (map convert pages))
  | Some (Raise e) => Some (Raise e)
  | None => None
  end.

End WebsiteCrawler.

(** ** The file system and the vector store *)

(** A path below [~/.mcp-global/knowledge-bases], by components, on a
    file system that tells upper case from lower case.  A knowledge-base
    name is one component: names that pass the check of [knowledge_create]
    contain no separator, and [knowledge_remove], which joins the name it
    is given to the directory without a check, is modelled for the names
    that are one component ([path_component]). *)
Abbreviation path := (list string).

Inductive JVal :=
| JStr (s : string)
| JNum (n : Z)
| JBool (b : bool).

(** What [json.load] makes of a file: a dict, or anything on which
    [json.load] or a later [.get] raises. *)
Inductive FileContent :=
| JsonObject (fields : gmap string JVal)
| Garbage.

(** Embedding vectors; their components are never inspected. *)
Abbreviation Vector := (list Z).

Inductive Cell :=
| CStr (s : string)
| CVec (v : Vector)
| CNum (n : Z).

(** A row of a LanceDB table: a dict from column names to cells. *)
Abbreviation Row := (gmap string Cell).

Inductive Node :=
| Dir
| File (c : FileContent)
| Database (tables : gmap string (list Row)).

(** The two kinds of embedding model a manager holds in
    [self.embedding_model]: the name of an OpenAI model, or a loaded
    SentenceTransformer (with its [_model_name_or_path]). *)
Inductive EmbeddingModel :=
| OpenAIModel (name : string)
| SentenceTransformer (name_or_path : string).

(** [embed_log] is a ghost variable: the embedding requests made so far,
    oldest first, each with the model that served it.  [uuid_count] counts
    the calls of [uuid.uuid4]. *)
Record World := {
  fs : gmap path Node;
  servers : gset string;
  uuid_count : nat;
  embed_log : list (EmbeddingModel * string)
}.

(** Operations of the operating system and of LanceDB that can fail. *)
Inductive Op :=
| OpMkdir (p : path)
| OpConnect (p : path)
| OpWrite (p : path)
| OpCreateTable (p : path)
| OpAddRows (p : path)
| OpOpenTable (p : path)
| OpRmtree (p : path).

(** How a file write ends. *)
Inductive WriteOutcome :=
| Written
| NotWritten
| PartlyWritten.

(** The collaborators of the wrapper and of the server.
    [vector_search v rows limit] is what
    [table.search(v).limit(limit).to_pandas()] gives on a table with
    [rows], [None] when it raises. *)
Record Backend := {
  load_model : string -> bool;
  env_openai_api_key : option string;
  encode_text : EmbeddingModel -> string -> option Vector;
  uuid4 : nat -> string;
  timestamp_now : string;
  cwd_absolute : string;
  fails : Op -> bool;
  write_outcome : path -> WriteOutcome;
  vector_search : Vector -> list Row -> Z -> option (list Row);
  generate_kb_mcp : string -> gset string -> bool * gset string
}.

Definition set_fs (w : World) (f : gmap path Node) : World :=
  {| fs := f; servers := servers w; uuid_count := uuid_count w;
     embed_log := embed_log w |}.

Definition path_exists (w : World) (p : path) : bool :=
  bool_decide (is_Some (fs w !! p)).

Definition is_dir (w : World) (p : path) : bool :=
  match fs w !! p with
  | Some Dir | Some (Database _) => true
  | _ => false
  end.

(** The proper, non-empty prefixes of [p] and [p] itself, shortest first. *)
Definition ancestors_and_self (p : path) : list path :=
  map (fun n => take n p) (seq 1 (length p)).

Fixpoint make_dirs (dirs : list path) (f : gmap path Node) : option (gmap path Node) :=
  match dirs with
  | [] => Some f
  | d :: rest =>
      match f !! d with
      | None => make_dirs rest (<[d := Dir]> f)
      | Some (File _) => None
      | Some _ => make_dirs rest f
      end
  end.

(** [p.mkdir(parents=True, exist_ok=True)] *)
Definition mkdir (B : Backend) (p : path) (w : World) : World * Res unit :=
  if fails B (OpMkdir p) then (w, Raise (Exception "OSError"))
  else match make_dirs (ancestors_and_self p) (fs w) with
       | Some f => (set_fs w f, Ok tt)
       | None => (w, Raise (Exception "FileExistsError"))
       end.

(** Writing [c] to the file [p], whose directory must exist. *)
Definition write_file (B : Backend) (p : path) (c : FileContent) (w : World)
  : World * Res unit :=
  if negb (is_dir w (removelast p))
  then (w, Raise (Exception "FileNotFoundError"))
  else match fs w !! p with
       | Some Dir | Some (Database _) =>
           (w, Raise (Exception "IsADirectoryError"))
       | _ =>
           match write_outcome B p with
           | Written => (set_fs w (<[p := File c]> (fs w)), Ok tt)
           | NotWritten => (w, Raise (Exception "OSError"))
           | PartlyWritten =>
               (set_fs w (<[p := File Garbage]> (fs w)), Raise (Exception "OSError"))
           end
       end.

(** [shutil.rmtree(p)] *)
Definition rmtree (B : Backend) (p : path) (w : World) : World * Res unit :=
  if fails B (OpRmtree p) then (w, Raise (Exception "OSError"))
  else (set_fs w (filter (fun kv => ¬ p `prefix_of` kv.1) (fs w)), Ok tt).

(** [lancedb.connect(p)]: opens the database directory, creating it when
    it is absent. *)
Definition connect (B : Backend) (p : path) (w : World) : World * Res unit :=
  if fails B (OpConnect p) then (w, Raise (Exception "lancedb"))
  else match fs w !! p with
       | Some (Database _) => (w, Ok tt)
       | Some (File _) => (w, Raise (Exception "lancedb"))
       | Some Dir => (set_fs w (<[p := Database ∅]> (fs w)), Ok tt)
       | None =>
           if is_dir w (removelast p)
           then (set_fs w (<[p := Database ∅]> (fs w)), Ok tt)
           else (w, Raise (Exception "lancedb"))
       end.

(** [db.table_names()] for the database at [p]. *)
Definition tables_at (w : World) (p : path) : gmap string (list Row) :=
  match fs w !! p with
  | Some (Database tables) => tables
  | _ => ∅
  end.

(** ** lancedb_wrapper.py *)

(** A document handed to [add_documents]: a dict whose values are strings
    or, under the key [metadata], a dict of strings. *)
Inductive DocValue :=
| DStr (s : string)
| DDict (d : gmap string string).

Abbreviation Document := (gmap string DocValue).

Module LanceDBManager.

Record t := {
  use_openai_embeddings : bool;
  openai_api_key : option string;
  openai_model : string;
  embedding_model : EmbeddingModel;
  db : option path
}.

(** [LanceDBManager(embedding_model, use_openai_embeddings,
    openai_api_key, openai_model)] *)
Definition init (B : Backend) (embedding_model : string)
    (use_openai_embeddings : bool) (openai_api_key : option string)
    (openai_model : string) : Res t :=
  if use_openai_embeddings then
    match (match openai_api_key with
           | Some k => if Py.truthy k then Some k else env_openai_api_key B
           | None => env_openai_api_key B
           end) with
    | Some k =>
        if Py.truthy k then
          Ok {| use_openai_embeddings := true;
                openai_api_key := openai_api_key;
                openai_model := openai_model;
                embedding_model := OpenAIModel openai_model;
                db := None |}
        else Raise (Exception "ValueError")
    | None => Raise (Exception "ValueError")
    end
  else if load_model B embedding_model then
    Ok {| use_openai_embeddings := false;
          openai_api_key := openai_api_key;
          openai_model := openai_model;
          embedding_model := SentenceTransformer embedding_model;
          db := None |}
  else Raise (Exception "SentenceTransformer").

Definition default_embedding_model : string := "all-MiniLM-L6-v2".
Definition default_openai_model : string := "text-embedding-3-small".

(** [LanceDBManager()] *)
Definition init_default (B : Backend) : Res t :=
  init B default_embedding_model false None default_openai_model.

Definition with_db (self : t) (p : path) : t :=
  {| use_openai_embeddings := use_openai_embeddings self;
     openai_api_key := openai_api_key self;
     openai_model := openai_model self;
     embedding_model := embedding_model self;
     db := Some p |}.

(** The model that serves an embedding request of [self]: the OpenAI
    model [self.openai_model] or the loaded [self.embedding_model]. *)
Definition embedder (self : t) : EmbeddingModel :=
  if use_openai_embeddings self then OpenAIModel (openai_model self)
  else embedding_model self.

(** The name [init_kb] writes under [embedding_model]: the attribute
    itself for OpenAI embeddings, else its [_model_name_or_path] with the
    default [unknown-model]. *)
Definition embedding_model_name (self : t) : string :=
  match use_openai_embeddings self, embedding_model self with
  | true, OpenAIModel name => name
  | true, SentenceTransformer name_or_path => name_or_path
  | false, SentenceTransformer name_or_path => name_or_path
  | false, OpenAIModel _ => "unknown-model"
  end.

(** [self.db] as a condition: [None] counts as false, and so does a
    connection to a database without tables, whose [len] is 0.  The path
    of the database when the condition holds. *)
Definition truthy_db (self : t) (w : World) : option path :=
  match db self with
  | Some p => if bool_decide (tables_at w p = ∅) then None else Some p
  | None => None
  end.

(** One embedding request: [_get_openai_embedding(text)] or
    [self.embedding_model.encode(text)]. *)
Definition embed (B : Backend) (self : t) (text : string) (w : World)
  : World * Res Vector :=
  let w' := {| fs := fs w; servers := servers w; uuid_count := uuid_count w;
               embed_log := embed_log w ++ [(embedder self, text)] |} in
  match encode_text B (embedder self) text with
  | Some v => (w', Ok v)
  | None => (w', Raise (Exception "embedding"))
  end.

Definition init_kb (B : Backend) (self : t) (kb_path : path) (w : World)
  : World * t * Res bool :=
  match mkdir B kb_path w with
  | (w1, Raise e) => (w1, self, Raise e)
  | (w1, Ok _) =>
      let db_path := kb_path ++ ["lancedb"] in
      match connect B db_path w1 with
      | (w2, Raise _) => (w2, self, Ok false)
      | (w2, Ok _) =>
          let self' := with_db self db_path in
          let metadata : gmap string JVal :=
            <["created_at" := JStr (timestamp_now B)]>
            (<["embedding_model" := JStr (embedding_model_name self)]>
            (<["use_openai_embeddings" := JBool (use_openai_embeddings self)]>
            (<["version" := JStr "2.0"]> ∅))) in
          match write_file B (kb_path ++ ["metadata.json"]) (JsonObject metadata) w2 with
          | (w3, Raise _) => (w3, self', Ok false)
          | (w3, Ok _) => (w3, self', Ok true)
          end
      end
  end.

(** [row = {'id': .., 'content': .., 'embedding': .., **metadata}] followed
    by [row['vector'] = row.pop('embedding')]. *)
Definition make_row (doc_id content : string) (embedding : Vector)
    (metadata : gmap string string) : Row :=
  let row : Row :=
    (CStr <$> metadata) ∪
    (<["id" := CStr doc_id]> (<["content" := CStr content]>
      (<["embedding" := CVec embedding]> ∅))) in
  match row !! "embedding" with
  | Some cell => <["vector" := cell]> (delete "embedding" row)
  | None => row
  end.

(** The loop [for i, doc in enumerate(documents)] of [add_documents]: the
    rows built so far, or the exception that ends the loop. *)
Fixpoint build_rows (B : Backend) (self : t) (documents : list Document)
    (table_data : list Row) (w : World) : World * Res (list Row) :=
  match documents with
  | [] => (w, Ok table_data)
  | doc :: rest =>
      match default (DStr "") (doc !! "content") with
      | DDict _ => (w, Raise (Exception "AttributeError"))
      | DStr content =>
          if negb (Py.truthy (Py.strip content))
          then build_rows B self rest table_data w
          else
            let doc_id := uuid4 B (uuid_count w) in
            let w1 := {| fs := fs w; servers := servers w;
                         uuid_count := S (uuid_count w);
                         embed_log := embed_log w |} in
            match embed B self content w1 with
            | (w2, Raise e) => (w2, Raise e)
            | (w2, Ok embedding) =>
                match default (DDict ∅) (doc !! "metadata") with
                | DStr _ => (w2, Raise (Exception "TypeError"))
                | DDict metadata =>
                    build_rows B self rest
                      (table_data ++ [make_row doc_id content embedding metadata])
                      w2
                end
            end
      end
  end.

(** Storing [table_data] in the table [documents] of the database at
    [db_path]: [create_table] when the table is absent, else
    [open_table(..).add]. *)
Definition store_rows (B : Backend) (db_path : path) (table_data : list Row)
    (w : World) : World * Res unit :=
  let tables := tables_at w db_path in
  match tables !! "documents" with
  | None =>
      if fails B (OpCreateTable db_path) then (w, Raise (Exception "lancedb"))
      else (set_fs w (<[db_path := Database (<["documents" := table_data]> tables)]> (fs w)),
            Ok tt)
  | Some rows =>
      if fails B (OpAddRows db_path) then (w, Raise (Exception "lancedb"))
      else (set_fs w (<[db_path := Database (<["documents" := rows ++ table_data]> tables)]> (fs w)),
            Ok tt)
  end.

(** The [try] block of [add_documents]. *)
Definition add_rows (B : Backend) (self : t) (documents : list Document)
    (w : World) : World * t * Res bool :=
  match build_rows B self documents [] w with
  | (w2, Raise _) => (w2, self, Ok false)
  | (w2, Ok []) => (w2, self, Ok false)
  | (w2, Ok table_data) =>
      match db self with
      | None => (w2, self, Ok false)
      | Some db_path =>
          match store_rows B db_path table_data w2 with
          | (w3, Raise _) => (w3, self, Ok false)
          | (w3, Ok _) => (w3, self, Ok true)
          end
      end
  end.

(** [add_documents]: [if not self.db] holds also on a connection to a
    database without tables, so [init_kb] runs again, at the [kb_path] of
    this call and before the [try]. *)
Definition add_documents (B : Backend) (self : t) (kb_path : path)
    (documents : list Document) (w : World) : World * t * Res bool :=
  match truthy_db self w with
  | Some _ => add_rows B self documents w
  | None =>
      match init_kb B self kb_path w with
      | (w1, self1, Raise e) => (w1, self1, Raise e)
      | (w1, self1, Ok false) => (w1, self1, Ok false)
      | (w1, self1, Ok true) => add_rows B self1 documents w1
      end
  end.

Record SearchResult := {
  result_id : Cell;
  result_content : Cell;
  result_score : Cell;
  result_metadata : Row
}.

Record SearchOutput := {
  out_query : string;
  out_results : list SearchResult;
  out_total : nat
}.

Definition format_result (row : Row) : SearchResult :=
  {| result_id := default (CStr "") (row !! "id");
     result_content := default (CStr "") (row !! "content");
     result_score := default (CNum 0) (row !! "_distance");
     result_metadata :=
       delete "id" (delete "content" (delete "embedding" (delete "_distance" row))) |}.

(** [search]: [None] is the [None] of the source, returned also when
    [open_table] or the search of the table raises.  As in
    [add_documents], a connection to a database without tables counts as
    none, and the database of [kb_path] is opened in its place. *)
Definition search (B : Backend) (self : t) (kb_path : path) (query : string)
    (limit : Z) (w : World) : World * t * option SearchOutput :=
  let opened :=
    match truthy_db self w with
    | Some p => Some (w, self, p)
    | None =>
        let db_path := kb_path ++ ["lancedb"] in
        if negb (path_exists w db_path) then None
        else match connect B db_path w with
             | (w1, Ok _) => Some (w1, with_db self db_path, db_path)
             | (w1, Raise _) => None
             end
    end in
  match opened with
  | None => (w, self, None)
  | Some (w1, self1, db_path) =>
      match tables_at w1 db_path !! "documents" with
      | None => (w1, self1, None)
      | Some rows =>
          if fails B (OpOpenTable db_path) then (w1, self1, None)
          else
            match embed B self1 query w1 with
            | (w2, Raise _) => (w2, self1, None)
            | (w2, Ok query_embedding) =>
                match vector_search B query_embedding rows limit with
                | None => (w2, self1, None)
                | Some results =>
                    (w2, self1,
                     Some {| out_query := query;
                             out_results := map format_result results;
                             out_total := length results |})
                end
            end
      end
  end.

Definition delete_kb (B : Backend) (kb_path : path) (w : World) : World * bool :=
  if path_exists w kb_path then
    match rmtree B kb_path w with
    | (w1, Ok _) => (w1, true)
    | (w1, Raise _) => (w1, false)
    end
  else (w, true).

End LanceDBManager.

(** ** server.py *)

(** The ASCII letters and digits.  [str.isalnum] and [c.isalnum()] also
    accept the letters and digits outside ASCII, which this model does not
    tell from other characters: [isalnum] is [s.isalnum()] on the strings
    of ASCII characters ([is_ascii]), and the properties of what is built
    on it are stated for those. *)
Definition isalnum_char (c : ascii) : bool :=
  let n := nat_of_ascii c in
  ((Nat.leb 48 n && Nat.leb n 57) || (Nat.leb 65 n && Nat.leb n 90)
   || (Nat.leb 97 n && Nat.leb n 122))%bool.

Fixpoint all_chars (f : ascii -> bool) (s : string) : bool :=
  match s with
  | EmptyString => true
  | String a r => f a && all_chars f r
  end.

(** Every character of [s] is an ASCII character. *)
Definition is_ascii (s : string) : bool :=
  all_chars (fun c => Nat.ltb (nat_of_ascii c) 128) s.

(** [s.isalnum()], for an ASCII string [s]. *)
Definition isalnum (s : string) : bool := Py.truthy s && all_chars isalnum_char s.

(** [s.replace(c, "")] for a one-character [c]. *)
Fixpoint remove_char (c : ascii) (s : string) : string :=
  match s with
  | EmptyString => EmptyString
  | String a r => if Ascii.eqb a c then remove_char c r else String a (remove_char c r)
  end.

Definition valid_kb_name (kb_name : string) : bool :=
  isalnum (remove_char "_" (remove_char "-" kb_name)).

(** [baml-kb-data] gives [baml-kb]; any other name [n] gives [kb-n]. *)
Definition server_display_name (kb_name : string) : string :=
  if Py.endswith kb_name "-kb-data"
  then String.substring 0 (String.length kb_name - 8) kb_name +:+ "-kb"
  else "kb-" +:+ kb_name.

Record CreateArgs := {
  arg_url : string;
  arg_kb_name : string;
  arg_max_pages : Z;
  arg_use_openai_embeddings : bool;
  arg_embedding_model : string
}.

(** The arguments with the defaults of [args.get]. *)
Definition create_args (url kb_name : string) : CreateArgs :=
  {| arg_url := url; arg_kb_name := kb_name; arg_max_pages := 100;
     arg_use_openai_embeddings := false;
     arg_embedding_model := "all-MiniLM-L6-v2" |}.

(** The answers of [knowledge_create], one per [return]. *)
Inductive CreateResponse :=
| InvalidName
| AlreadyExists
| NoPagesCrawled
| InitFailed
| AddDocumentsFailed
| Created (documents : nat) (display_name : string)
| CreateFailed (e : Exn).

(** Step 4: the dict built for the page of ordinal [i]. *)
Definition make_document (kb_name : string) (i : nat) (page : ContentPage) : Document :=
  <["id" := DStr (kb_name +:+ "_page_" +:+ pretty i)]>
  (<["content" := DStr (cpage_content page)]>
  (<["title" := DStr (cpage_title page)]>
  (<["url" := DStr (cpage_url page)]> ∅))).

Definition assemble_documents (kb_name : string) (pages : list ContentPage)
  : list Document :=
  omap (fun '(i, page) =>
          if Py.truthy (cpage_content page)
          then Some (make_document kb_name i page) else None)
       (imap (fun i page => (i, page)) pages).

Definition kb_metadata (args : CreateArgs) (B : Backend) (documents : nat)
  : gmap string JVal :=
  <["created_at" := JStr (cwd_absolute B)]>
  (<["embedding_model" := JStr (arg_embedding_model args)]>
  (<["use_openai_embeddings" := JBool (arg_use_openai_embeddings args)]>
  (<["version" := JStr "2.0"]>
  (<["documents" := JNum (Z.of_nat documents)]>
  (<["source_url" := JStr (arg_url args)]>
  (<["max_pages" := JNum (arg_max_pages args)]> ∅)))))).

(** Steps 5 to 7 of [_handle_knowledge_create]: the metadata write, then
    the generation of the query server, whose failure is only printed. *)
Definition commit_kb (B : Backend) (args : CreateArgs) (documents : nat)
    (w : World) : World * CreateResponse :=
  let kb_name := arg_kb_name args in
  match write_file B [kb_name; "metadata.json"]
          (JsonObject (kb_metadata args B documents)) w with
  | (w1, Raise e) => (w1, CreateFailed e)
  | (w1, Ok _) =>
      let '(_, servers') := generate_kb_mcp B kb_name (servers w1) in
      ({| fs := fs w1; servers := servers'; uuid_count := uuid_count w1;
          embed_log := embed_log w1 |},
       Created documents (server_display_name kb_name))
  end.

(** [_handle_knowledge_create] from the point where the crawl has returned
    [pages]. *)
Definition create_from_pages (B : Backend) (args : CreateArgs)
    (pages : list ContentPage) (w : World) : World * CreateResponse :=
  let kb_name := arg_kb_name args in
  let kb_path : path := [kb_name] in
  match pages with
  | [] => (w, NoPagesCrawled)
  | _ :: _ =>
      match mkdir B kb_path w with
      | (w1, Raise e) => (w1, CreateFailed e)
      | (w1, Ok _) =>
          match LanceDBManager.init B (arg_embedding_model args)
                  (arg_use_openai_embeddings args) None
                  LanceDBManager.default_openai_model with
          | Raise e => (w1, CreateFailed e)
          | Ok lancedb =>
              match LanceDBManager.init_kb B lancedb (kb_path ++ ["lancedb"]) w1 with
              | (w2, _, Raise e) => (w2, CreateFailed e)
              | (w2, _, Ok false) => (w2, InitFailed)
              | (w2, lancedb, Ok true) =>
                  let documents := assemble_documents kb_name pages in
                  match documents with
                  | [] => commit_kb B args 0 w2
                  | _ :: _ =>
                      match LanceDBManager.add_documents B lancedb
                              (kb_path ++ ["lancedb"]) documents w2 with
                      | (w3, _, Raise e) => (w3, CreateFailed e)
                      | (w3, _, Ok false) => (w3, AddDocumentsFailed)
                      | (w3, _, Ok true) =>
                          commit_kb B args (length documents) w3
                      end
                  end
              end
          end
      end
  end.

(** [_handle_knowledge_create]; [depth] is the nesting the recursion
    limit leaves to sitemap resolution. *)
Definition handle_knowledge_create (B : Backend) (W : Web) (depth : nat)
    (args : CreateArgs) (w : World) : option (World * CreateResponse) :=
  let kb_name := arg_kb_name args in
  if negb (valid_kb_name kb_name) then Some (w, InvalidName)
  else if path_exists w [kb_name] then Some (w, AlreadyExists)
  else
    let crawler := WebsiteCrawler.init (Some (arg_max_pages args)) None in
    match WebsiteCrawler.crawl_website crawler W depth (arg_url args) with
    | None => None
    | Some (Raise e) => Some (w, CreateFailed e)
    | Some (Ok pages) => Some (create_from_pages B args pages w)
    end.

(** One entry of the listing. *)
Record KbEntry := {
  kb_name : string;
  kb_path : path;
  kb_documents : JVal;
  kb_embedding_model : JVal;
  kb_created_at : JVal;
  kb_source_url : JVal;
  kb_has_server : bool
}.

(** The body of the loop of [_handle_knowledge_list] for the directory
    entry [name]: the appended entry, if any.  A missing metadata file and
    one that does not load are both skipped. *)
Definition list_entry (w : World) (name : string) : option KbEntry :=
  if is_dir w [name] then
    match fs w !! [name; "metadata.json"] with
    | Some (File (JsonObject metadata)) =>
        Some {| kb_name := name;
                kb_path := [name];
                kb_documents := default (JNum 0) (metadata !! "documents");
                kb_embedding_model := default (JStr "unknown") (metadata !! "embedding_model");
                kb_created_at := default (JStr "unknown") (metadata !! "created_at");
                kb_source_url := default (JStr "unknown") (metadata !! "source_url");
                kb_has_server := bool_decide (server_display_name name ∈ servers w) |}
    | _ => None
    end
  else None.

(** [knowledge_bases_dir.iterdir()]: the names directly below the root, in
    the order of the map. *)
Definition iterdir (w : World) : list string :=
  omap (fun kv => match kv.1 with [name] => Some name | _ => None end)
       (map_to_list (fs w)).

(** The list [kbs] when the loop ends. *)
Definition list_entries (w : World) : list KbEntry :=
  omap (list_entry w) (iterdir w).

(** [a < b] on JSON values; [None] is the TypeError. *)
Definition jval_lt (a b : JVal) : option bool :=
  match a, b with
  | JStr x, JStr y => Some (String.ltb x y)
  | JStr _, _ | _, JStr _ => None
  | JNum x, JNum y => Some (x <? y)
  | JNum x, JBool y => Some (x <? Z.b2z y)
  | JBool x, JNum y => Some (Z.b2z x <? y)
  | JBool x, JBool y => Some (Z.b2z x <? Z.b2z y)
  end.

Definition same_kind (a b : JVal) : bool :=
  match jval_lt a b with Some _ => true | None => false end.

Fixpoint insert_desc (x : KbEntry) (l : list KbEntry) : list KbEntry :=
  match l with
  | [] => [x]
  | y :: r =>
      match jval_lt (kb_created_at x) (kb_created_at y) with
      | Some true => y :: insert_desc x r
      | _ => x :: l
      end
  end.

(** [kbs.sort(key=lambda x: x["created_at"], reverse=True)]: stable, and a
    TypeError when two keys cannot be compared. *)
Definition sort_by_created_desc (kbs : list KbEntry) : option (list KbEntry) :=
  match kbs with
  | [] => Some []
  | k :: rest =>
      if forallb (fun k' => same_kind (kb_created_at k) (kb_created_at k')) rest
      then Some (foldr insert_desc [] kbs)
      else None
  end.

Inductive ListResponse :=
| NoKnowledgeBases
| Listing (kbs : list KbEntry)
| ListFailed.

Definition handle_knowledge_list (w : World) : ListResponse :=
  match list_entries w with
  | [] => NoKnowledgeBases
  | kbs =>
      match sort_by_created_desc kbs with
      | Some sorted => Listing sorted
      | None => ListFailed
      end
  end.

(** The knowledge bases a call of [knowledge_list] shows. *)
Definition shown_by_list (w : World) (name : string) : Prop :=
  match handle_knowledge_list w with
  | Listing kbs => name ∈ map kb_name kbs
  | _ => False
  end.

Inductive RemoveResponse :=
| RemoveNotFound
| Removed
| RemoveFailed (e : Exn).

(** A name that is one component of a path: not empty, neither [.] nor
    [..], without separator.  For such a name, and for no other,
    [knowledge_bases_dir / name] is the entry [name] of the directory. *)
Definition path_component (name : string) : bool :=
  Py.truthy name && negb (String.eqb name ".") && negb (String.eqb name "..")
  && all_chars (fun c => negb (Ascii.eqb c "/")) name.

(** [_handle_knowledge_remove], for a name that is one component of a
    path. *)
Definition handle_knowledge_remove (B : Backend) (name : string) (w : World)
  : World * RemoveResponse :=
  let kb_path : path := [name] in
  let server := server_display_name name in
  if negb (path_exists w kb_path) then (w, RemoveNotFound)
  else match rmtree B kb_path w with
       | (w1, Raise e) => (w1, RemoveFailed e)
       | (w1, Ok _) =>
           if bool_decide (server ∈ servers w1) then
             if fails B (OpRmtree ["servers"; server])
             then (w1, RemoveFailed (Exception "OSError"))
             else ({| fs := fs w1; servers := servers w1 ∖ {[server]};
                      uuid_count := uuid_count w1; embed_log := embed_log w1 |},
                   Removed)
           else (w1, Removed)
       end.


Definition create_succeeded (r : CreateResponse) : bool :=
  match r with Created _ _ => true | _ => false end.

(** The file system keeps every entry below a directory. *)
Definition fs_wf (w : World) : Prop :=
  forall p, is_Some (fs w !! p) -> p <> [] -> removelast p <> [] ->
            is_dir w (removelast p) = true.

(** ** Concrete webs and backends of the examples *)

(** A site whose [/sitemap.xml] answers a HEAD request and nothing else
    does. *)
Definition sitemap_web : Web := {|
  urljoin := fun base path => base +:+ path;
  urljoin_raises := fun _ _ => false;
  urlparse := fun _ => ("https", "example.com");
  requests_head := fun u =>
    if String.eqb u "https://example.com/sitemap.xml" then Response 200 ""
    else HttpRaises RequestException;
  requests_get := fun _ => HttpRaises RequestException;
  arun := fun _ _ => FetchRaises
|}.

(** A web on which [urljoin] rejects the canonical form of the seed that
    is one opening bracket, as [urllib] does, and nothing answers. *)
Definition bracket_web : Web := {|
  urljoin := fun base path => base +:+ path;
  urljoin_raises := fun base _ => String.eqb base "https://[";
  urlparse := fun _ => ("https", "");
  requests_head := fun _ => HttpRaises RequestException;
  requests_get := fun _ => HttpRaises RequestException;
  arun := fun _ _ => FetchRaises
|}.

(** [child] is listed as a nested sitemap by the sitemap at [parent]: an
    edge of the sitemap graph that [extract_sitemap_urls] follows. *)
Definition sub_sitemap_of (W : Web) (parent child : string) : Prop :=
  exists code text,
    requests_get W parent = Response code text /\
    raises_for_status code = false /\
    child ∈ Py.findall_between "<loc>" "</loc>" 0 text /\
    is_sub_sitemap child = true.



(** An index with one nested sitemap and one page; the nested sitemap
    lists two pages, a third nested sitemap is missing. *)
Definition nested_web : Web := {|
  urljoin := fun base path => base +:+ path;
  urljoin_raises := fun _ _ => false;
  urlparse := fun _ => ("https", "example.com");
  requests_head := fun _ => HttpRaises RequestException;
  requests_get := fun u =>
    if String.eqb u "https://example.com/sitemap.xml" then
      Response 200
        "<loc>https://example.com/sitemap-posts.xml</loc><loc>https://example.com/about</loc><loc>https://example.com/sitemap-gone.xml</loc>"
    else if String.eqb u "https://example.com/sitemap-posts.xml" then
      Response 200 "<loc>https://example.com/p1</loc><loc>https://example.com/p2</loc>"
    else if String.eqb u "https://example.com/sitemap-gone.xml" then
      Response 404 ""
    else HttpRaises RequestException;
  arun := fun _ _ => FetchRaises
|}.

(** The invariant of the loop of [crawl_recursive]. *)
Record crawl_inv (max_pages max_depth : Z) (st : CrawlState) : Prop := {
  inv_budget : Z.of_nat (length (pages st)) <= max_pages;
  inv_queue : Forall (fun e => 0 <= e.2) (to_visit st);
  inv_depth : Forall (fun e => 0 <= e.2 <= max_depth) (fetch_log st);
  inv_visited : forall u, u ∈ visited st <-> u ∈ (fetch_log st).*1;
  inv_nodup : NoDup (fetch_log st).*1;
  inv_pages : map page_url (pages st) `sublist_of` (fetch_log st).*1
}.

(** A site of four pages: the home page links to [/1], [/2], itself and
    another site; fetching [/1] raises; the other pages link to [/1] and
    [/3]. *)
Definition small_site_web : Web := {|
  urljoin := fun base path => base +:+ path;
  urljoin_raises := fun _ _ => false;
  urlparse := fun _ => ("https", "a.com");
  requests_head := fun _ => HttpRaises RequestException;
  requests_get := fun _ => HttpRaises RequestException;
  arun := fun _ u =>
    if String.eqb u "https://a.com" then
      Fetched {| success := true; markdown := "home"; metadata_title := Some "Home";
                 links_internal := [Some "https://a.com/1"; Some "https://a.com/2";
                                    Some "https://a.com"; None;
                                    Some "https://b.com/x"] |}
    else if String.eqb u "https://a.com/1" then FetchRaises
    else
      Fetched {| success := true; markdown := "page"; metadata_title := None;
                 links_internal := [Some "https://a.com/1"; Some "https://a.com/3"] |}
|}.

(** The page the specification lets an outcome of [arun] contribute to
    the result of a batch crawl: none for an exception, an unsuccessful
    result or an empty text; else the page with the URL, the title of the
    result ([Untitled] when it has none) and its text. *)
Definition outcome_page (url : string) (outcome : FetchOutcome) : option Page :=
  match outcome with
  | Fetched result =>
      match success result, markdown result with
      | true, String _ _ =>
          Some {| page_url := url;
                  page_title := default "Untitled" (metadata_title result);
                  page_markdown := markdown result |}
      | _, _ => None
      end
  | FetchRaises => None
  end.

(** The pages of [urls] taken one by one, the URL at position [j] being
    fetched by the call of [arun] number [i + j]. *)
Definition pages_pointwise (W : Web) (i : nat) (urls : list string) : list Page :=
  omap id (imap (fun j url => outcome_page url (arun W (i + j) url)) urls).

(** Twelve URLs, of which the second raises and the fourth has no text. *)
Definition batch_web : Web := {|
  urljoin := fun base path => base +:+ path;
  urljoin_raises := fun _ _ => false;
  urlparse := fun _ => ("https", "example.com");
  requests_head := fun _ => HttpRaises RequestException;
  requests_get := fun _ => HttpRaises RequestException;
  arun := fun _ u =>
    if String.eqb u "u1" then FetchRaises
    else Fetched {| success := true;
                    markdown := if String.eqb u "u3" then "" else "text of " +:+ u;
                    metadata_title := None; links_internal := [] |}
|}.

Definition batch_urls : list string :=
  ["u0"; "u1"; "u2"; "u3"; "u4"; "u5"; "u6"; "u7"; "u8"; "u9"; "u10"; "u11"].

(** A chain of pages: [https://c.com/0] links to [https://c.com/1], and so
    on up to [https://c.com/6]; no sitemap. *)
Definition chain_web : Web := {|
  urljoin := fun base path => base +:+ path;
  urljoin_raises := fun _ _ => false;
  urlparse := fun _ => ("https", "c.com");
  requests_head := fun _ => HttpRaises RequestException;
  requests_get := fun _ => HttpRaises RequestException;
  arun := fun _ u =>
    let next :=
      if String.eqb u "https://c.com/0" then [Some "https://c.com/1"]
      else if String.eqb u "https://c.com/1" then [Some "https://c.com/2"]
      else if String.eqb u "https://c.com/2" then [Some "https://c.com/3"]
      else if String.eqb u "https://c.com/3" then [Some "https://c.com/4"]
      else if String.eqb u "https://c.com/4" then [Some "https://c.com/5"]
      else if String.eqb u "https://c.com/5" then [Some "https://c.com/6"]
      else [] in
    Fetched {| success := true; markdown := "text"; metadata_title := None;
               links_internal := next |}
|}.

(** A backend on which nothing fails. *)
Definition quiet_backend : Backend := {|
  load_model := fun _ => true;
  env_openai_api_key := None;
  encode_text := fun model text =>
    match model with
    | OpenAIModel _ => Some [1; Z.of_nat (String.length text)]
    | SentenceTransformer _ => Some [2; Z.of_nat (String.length text)]
    end;
  uuid4 := fun n => "6f1c2d3e-0000-4000-8000-00000000000" +:+ pretty n;
  timestamp_now := "2025-10-18T12:00:00";
  cwd_absolute := "/home/user/.mcp-global/servers/knowledge-manager";
  fails := fun _ => false;
  write_outcome := fun _ => Written;
  vector_search := fun _ rows limit => Some (take (Z.to_nat limit) rows);
  generate_kb_mcp := fun name existing => (true, {[server_display_name name]} ∪ existing)
|}.

(** No knowledge base, no generated server. *)
Definition empty_world : World :=
  {| fs := ∅; servers := ∅; uuid_count := 0; embed_log := [] |}.

(** A creation request that names an embedding model of its own. *)
Definition docs_args : CreateArgs :=
  {| arg_url := "a.com"; arg_kb_name := "docs"; arg_max_pages := 5;
     arg_use_openai_embeddings := false;
     arg_embedding_model := "paraphrase-MiniLM-L3-v2" |}.

(** The world after the knowledge base [docs] has been created from
    [small_site_web]. *)
Definition docs_world : World :=
  match handle_knowledge_create quiet_backend small_site_web 0 docs_args empty_world with
  | Some (w, _) => w
  | None => empty_world
  end.

(** The value recorded under [key] in the metadata file of the knowledge
    base [name]. *)
Definition recorded (w : World) (name key : string) : option JVal :=
  match fs w !! [name; "metadata.json"] with
  | Some (File (JsonObject metadata)) => metadata !! key
  | _ => None
  end.

(** The answers of [knowledge_create] that report an aborted creation:
    no page crawled, storage initialization failed, documents not added,
    or an exception anywhere in the handler. *)
Definition creation_aborted (r : CreateResponse) : bool :=
  match r with
  | NoPagesCrawled | InitFailed | AddDocumentsFailed | CreateFailed _ => true
  | InvalidName | AlreadyExists | Created _ _ => false
  end.

(** A backend whose embedding model fails on every text. *)
Definition no_embedding_backend : Backend := {|
  load_model := fun _ => true;
  env_openai_api_key := None;
  encode_text := fun _ _ => None;
  uuid4 := fun n => "6f1c2d3e-0000-4000-8000-00000000000" +:+ pretty n;
  timestamp_now := "2025-10-18T12:00:00";
  cwd_absolute := "/home/user/.mcp-global/servers/knowledge-manager";
  fails := fun _ => false;
  write_outcome := fun _ => Written;
  vector_search := fun _ rows limit => Some (take (Z.to_nat limit) rows);
  generate_kb_mcp := fun name existing => (true, {[server_display_name name]} ∪ existing)
|}.

(** The world after a creation of [docs] that fails while the documents
    are embedded. *)
Definition failed_docs_world : World :=
  match handle_knowledge_create no_embedding_backend small_site_web 0 docs_args
          empty_world with
  | Some (w, _) => w
  | None => empty_world
  end.

(** Two pages without text. *)
Definition blank_pages : list ContentPage :=
  [ {| cpage_url := "https://a.com"; cpage_title := "Home"; cpage_content := "" |};
    {| cpage_url := "https://a.com/2"; cpage_title := "Two"; cpage_content := "" |} ].

(** The documents [add_documents] does not skip: those whose content has
    something other than white space. *)
Definition has_text (doc : Document) : bool :=
  match default (DStr "") (doc !! "content") with
  | DStr content => Py.truthy (Py.strip content)
  | DDict _ => true
  end.

(** The row [add_documents] builds for [doc] on the manager [self]. *)
Definition built_row (B : Backend) (self : LanceDBManager.t) (doc : Document)
    (row : Row) : Prop :=
  exists content metadata embedding k,
    default (DStr "") (doc !! "content") = DStr content /\
    default (DDict ∅) (doc !! "metadata") = DDict metadata /\
    encode_text B (LanceDBManager.embedder self) content = Some embedding /\
    row = LanceDBManager.make_row (uuid4 B k) content embedding metadata.

(** What a stored row keeps of a submitted document: its content, the
    vector the manager's model gives for that content, and an identifier
    drawn by the store. *)
Definition stored_row (B : Backend) (self : LanceDBManager.t) (doc : Document)
    (row : Row) : Prop :=
  exists content embedding k,
    doc !! "content" = Some (DStr content) /\
    row !! "content" = Some (CStr content) /\
    encode_text B (LanceDBManager.embedder self) content = Some embedding /\
    row !! "vector" = Some (CVec embedding) /\
    row !! "id" = Some (CStr (uuid4 B k)).

(** What [knowledge_create] submits for the page of ordinal [i]. *)
Definition submitted (name : string) (pages : list ContentPage) (doc : Document)
  : Prop :=
  exists i page,
    pages !! i = Some page /\ cpage_content page <> "" /\
    doc !! "id" = Some (DStr (name +:+ "_page_" +:+ pretty i)) /\
    doc !! "content" = Some (DStr (cpage_content page)) /\
    doc !! "title" = Some (DStr (cpage_title page)) /\
    doc !! "url" = Some (DStr (cpage_url page)) /\
    doc !! "metadata" = None.

(** The pages [knowledge_create] obtains for [docs_args]. *)
Definition docs_pages : list ContentPage :=
  match WebsiteCrawler.crawl_website
          (WebsiteCrawler.init (Some (arg_max_pages docs_args)) None)
          small_site_web 0 (arg_url docs_args) with
  | Some (Ok pages) => pages
  | _ => []
  end.

(** The string under [key] in a document or in a row. *)
Definition doc_field (key : string) (doc : Document) : option string :=
  match doc !! key with Some (DStr s) => Some s | _ => None end.

Definition row_field (key : string) (row : Row) : option string :=
  match row !! key with Some (CStr s) => Some s | _ => None end.

(** What [probe_common] and [scan_robots] return when nothing propagates:
    no URL, or a sitemap URL that answered 200 to a HEAD request. *)
Definition accepted (W : Web) (r : Res (option string)) : Prop :=
  exists o, r = Ok o /\
    forall u, o = Some u -> exists text, requests_head W u = Response 200 text.

(** ** mcp_generator.py: names of the generated servers *)

(** [get_server_name]: [baml-kb-data] gives [baml-kb]; any other name [n]
    gives [kb-n].  The handlers of [server.py] compute the same name
    inline ([server_display_name]). *)
Definition get_server_name (kb_name : string) : string :=
  if Py.endswith kb_name "-kb-data"
  then String.substring 0 (String.length kb_name - 8) kb_name +:+ "-kb"
  else "kb-" +:+ kb_name.

(** The body of the loop of [list_generated_mcp_servers] for the directory
    [name] of the servers directory: the knowledge-base name appended, if
    any ([item.name[:-3] + "-kb-data"]). *)
Definition kb_name_of_server (name : string) : option string :=
  if Py.endswith name "-kb"
  then Some (String.substring 0 (String.length name - 3) name +:+ "-kb-data")
  else None.

Definition list_generated_mcp_servers (w : World) : list string :=
  omap kb_name_of_server (elements (servers w)).

(** ** crawler.py: saving pages as text files *)

(** [''.join(c for c in s if f(c))] *)
Fixpoint filter_chars (f : ascii -> bool) (s : string) : string :=
  match s with
  | EmptyString => EmptyString
  | String a r => if f a then String a (filter_chars f r) else filter_chars f r
  end.

(** [s.replace(c, d)] for one-character [c] and [d]. *)
Fixpoint replace_char (c d : ascii) (s : string) : string :=
  match s with
  | EmptyString => EmptyString
  | String a r => String (if Ascii.eqb a c then d else a) (replace_char c d r)
  end.

(** [s[:n]] on a string, for a Python integer [n]. *)
Definition str_slice_to (n : Z) (s : string) : string :=
  if 0 <=? n then String.substring 0 (Z.to_nat n) s
  else String.substring 0 (String.length s - Z.to_nat (- n)) s.

(** [s.lstrip(c)] and [s.strip(c)] for a one-character argument. *)
Fixpoint lstrip_char (c : ascii) (s : string) : string :=
  match s with
  | EmptyString => EmptyString
  | String a r => if Ascii.eqb a c then lstrip_char c r else s
  end.

Definition strip_char (c : ascii) (s : string) : string :=
  Py.rstrip_char c (lstrip_char c s).

(** The characters [safe_filename] keeps. *)
Definition filename_char (c : ascii) : bool :=
  isalnum_char c || Ascii.eqb c " " || Ascii.eqb c "-" || Ascii.eqb c "_".

Definition default_max_length : Z := 50.

Definition safe_filename (name : string) (max_length : Z) : string :=
  let safe := filter_chars filename_char name in
  let safe := replace_char " " "_" safe in
  let safe := str_slice_to max_length safe in
  let safe := strip_char "_" safe in
  if Py.truthy safe then safe else "untitled".

(** [f"{i:04d}"]: the decimal digits of [i], padded with zeros on the left
    to four characters. *)
Fixpoint zeros (n : nat) : string :=
  match n with
  | O => EmptyString
  | S k => String "0" (zeros k)
  end.

Definition format_04d (i : nat) : string :=
  let digits := pretty i in
  zeros (4 - String.length digits) +:+ digits.

(** The name and the text of the file written for the page of ordinal
    [i]. *)
Definition input_file_name (i : nat) (page : Page) : string :=
  format_04d i +:+ "_" +:+ safe_filename (page_title page) default_max_length
  +:+ ".txt".

Definition input_file_text (page : Page) : string :=
  "# " +:+ page_title page +:+ String "010" (String "010" "")
  +:+ "Source: " +:+ page_url page +:+ String "010" (String "010" "")
  +:+ "---" +:+ String "010" (String "010" "")
  +:+ page_markdown page.

(** Module-level [save_to_input_dir], on the content of the directory
    [kb_path/input] (file name to text), failures of the operating system
    apart: the pages are written in order, a later write to the same name
    replacing the earlier one. *)
Definition save_to_input_dir (pages : list Page) (input_dir : gmap string string)
  : gmap string string :=
  foldl (fun dir '(i, page) => <[input_file_name i page := input_file_text page]> dir)
        input_dir (imap (fun i page => (i, page)) pages).

(** [WebsiteCrawler.save_to_input_dir]: the pages are converted back to
    the [markdown] format first. *)
Definition unconvert (page : ContentPage) : Page :=
  {| page_url := cpage_url page;
     page_title := cpage_title page;
     page_markdown := cpage_content page |}.

Definition crawler_save_to_input_dir (pages : list ContentPage)
    (input_dir : gmap string string) : gmap string string :=
  save_to_input_dir (map unconvert pages) input_dir.

(** The decimal number a string starts with. *)
Definition is_digit (c : ascii) : bool :=
  let n := nat_of_ascii c in (Nat.leb 48 n && Nat.leb n 57)%bool.

Fixpoint leading_number (acc : N) (s : string) : N :=
  match s with
  | EmptyString => acc
  | String c r =>
      if is_digit c
      then leading_number (acc * 10 + N.of_nat (nat_of_ascii c - 48)) r
      else acc
  end.

(** The characters of a string. *)
Fixpoint chars (s : string) : list ascii :=
  match s with
  | EmptyString => []
  | String a r => a :: chars r
  end.

(** ** Worlds of the examples *)

(** Two knowledge bases, [docs-kb] and [kb-docs-kb-data], and the server
    directory [kb-docs-kb]. *)
Definition two_kb_world : World :=
  {| fs := <[["docs-kb"] := Dir]>
           (<[["docs-kb"; "metadata.json"] := File (JsonObject ∅)]>
           (<[["kb-docs-kb-data"] := Dir]>
           (<[["kb-docs-kb-data"; "metadata.json"] := File (JsonObject ∅)]> ∅)));
     servers := {["kb-docs-kb"]};
     uuid_count := 0;
     embed_log := [] |}.

(** ** Invariants of the recursive crawl *)

(** A frontier entry is the seed at depth 0 or a link into the seed's site
    found at depth 1 or more. *)
Definition on_site (base_domain start_url : string) (e : string * Z) : Prop :=
  e = (start_url, 0) \/ (Py.startswith e.1 base_domain = true /\ 1 <= e.2).

Record site_inv (base_domain start_url : string) (st : CrawlState) : Prop := {
  site_queue : Forall (on_site base_domain start_url) (to_visit st);
  site_log : Forall (on_site base_domain start_url) (fetch_log st);
  site_pages : map page_url (pages st) `sublist_of` (fetch_log st).*1
}.

(** Before the first fetch, or with the seed fetched first. *)
Definition seed_first (start_url : string) (st : CrawlState) : Prop :=
  st = crawl_start start_url \/ head (fetch_log st) = Some (start_url, 0).

(** The rank of the sitemaps of [nested_web]: the index above the sitemaps
    it lists. *)
Definition nested_rank (url : string) : nat :=
  if String.eqb url "https://example.com/sitemap.xml" then 1 else 0.

(** What an entry of a sitemap contributes to the result of
    [extract_sitemap_urls] at nesting depth [d]: the URLs of the nested
    sitemap it names, or itself. *)
Definition contributes (W : Web) (d : nat) (url : string) (sub : list string)
  : Prop :=
  if is_sub_sitemap url then extract_sitemap_urls W d url = Some sub
  else sub = [url].

(** ** The layout of a created knowledge base *)

(** The metadata [init_kb] writes for the manager [self]. *)
Definition init_kb_metadata (B : Backend) (self : LanceDBManager.t)
  : gmap string JVal :=
  <["created_at" := JStr (timestamp_now B)]>
  (<["embedding_model" := JStr (LanceDBManager.embedding_model_name self)]>
  (<["use_openai_embeddings" := JBool (LanceDBManager.use_openai_embeddings self)]>
  (<["version" := JStr "2.0"]> ∅))).

(** The file system [knowledge_create] leaves for the knowledge base
    [name] over the file system [f]: the directory, the directory
    [lancedb] in it with the database and the metadata file of [init_kb],
    and the metadata file of the knowledge base. *)
Definition kb_layout (name : string) (tables : gmap string (list Row))
    (init_metadata metadata : gmap string JVal) (f : gmap path Node)
  : gmap path Node :=
  <[[name; "metadata.json"] := File (JsonObject metadata)]>
  (<[[name; "lancedb"; "metadata.json"] := File (JsonObject init_metadata)]>
  (<[[name; "lancedb"; "lancedb"] := Database tables]>
  (<[[name; "lancedb"] := Dir]>
  (<[[name] := Dir]> f)))).

(** A manager with the default configuration, connected to the database
    of the knowledge base [docs]. *)
Definition docs_manager : LanceDBManager.t :=
  {| LanceDBManager.use_openai_embeddings := false;
     LanceDBManager.openai_api_key := None;
     LanceDBManager.openai_model := LanceDBManager.default_openai_model;
     LanceDBManager.embedding_model :=
       SentenceTransformer LanceDBManager.default_embedding_model;
     LanceDBManager.db := Some ["docs"; "lancedb"; "lancedb"] |}.

(** Two documents, the second without text. *)
Definition two_documents : list Document :=
  [ <["content" := DStr "install with pip"]>
      (<["metadata" := DDict (<["source" := "readme"]> ∅)]> ∅);
    <["content" := DStr "   "]> ∅ ].

(** ** The order of the listing *)

(** Newest first: no entry is older than the one that follows it. *)
Fixpoint descending (kbs : list KbEntry) : Prop :=
  match kbs with
  | x :: ((y :: _) as rest) =>
      jval_lt (kb_created_at x) (kb_created_at y) = Some false /\ descending rest
  | _ => True
  end.

(** Two knowledge bases, of which the second records a number as its
    creation time. *)
Definition mixed_world : World :=
  {| fs := <[["a"] := Dir]>
           (<[["a"; "metadata.json"] :=
                File (JsonObject (<["created_at" := JStr "2025-10-18"]> ∅))]>
           (<[["b"] := Dir]>
           (<[["b"; "metadata.json"] :=
                File (JsonObject (<["created_at" := JNum 1760000000]> ∅))]> ∅)));
     servers := ∅;
     uuid_count := 0;
     embed_log := [] |}.

(** ** Where a detected sitemap comes from *)

(** The URL answers a HEAD request with status 200. *)
Definition answers_200 (W : Web) (url : string) : Prop :=
  exists text, requests_head W url = Response 200 text.

(** The sitemap URL a line of robots.txt names, if it is a [Sitemap:]
    line: the text after the first colon, stripped. *)
Definition robots_sitemap (line : string) : option string :=
  if Py.startswith (Py.lower line) "sitemap:"
  then Py.strip <$> Py.after_first ":" line
  else None.

(** A site without sitemap files whose robots.txt names two sitemaps, of
    which the first does not answer. *)
Definition robots_web : Web := {|
  urljoin := fun base path => base +:+ path;
  urljoin_raises := fun _ _ => false;
  urlparse := fun _ => ("https", "r.org");
  requests_head := fun u =>
    if String.eqb u "https://cdn.r.org/map.xml" then Response 200 ""
    else if String.eqb u "https://r.org/old.xml" then Response 404 ""
    else HttpRaises RequestException;
  requests_get := fun u =>
    if String.eqb u "https://r.org/robots.txt" then
      Response 200
        ("User-agent: *" +:+ String "010"
           ("Sitemap: https://r.org/old.xml" +:+ String "010"
              "SITEMAP:  https://cdn.r.org/map.xml "))
    else HttpRaises RequestException;
  arun := fun _ _ => FetchRaises
|}.

(** * Properties *)

(** ** The string primitives on examples *)

Example rstrip_char_ex : Py.rstrip_char "/" "https://a.b//" = "https://a.b".
Proof. reflexivity. Qed.

Example split_on_ex : Py.split_on "010" ("a" +:+ String "010" "b") = ["a"; "b"].
Proof. reflexivity. Qed.

Example strip_ex : Py.strip "  x y  " = "x y".
Proof. reflexivity. Qed.

Example findall_ex :
  Py.findall_between "<loc>" "</loc>" 0
    "<url><loc>u1</loc></url><loc>bad" = ["u1"].
Proof. reflexivity. Qed.

Example findall_ex2 :
  Py.findall_between "<loc>" "</loc>" 0
    "<loc>a<loc>b</loc><loc></loc>x<loc>c</loc>" = ["a<loc>b"; ""; "c"].
Proof. reflexivity. Qed.

Example slice_to_ex : Py.slice_to (-1) [1;2;3] = [1;2] /\ Py.slice_to 2 [1;2;3] = [1;2].
Proof. split; reflexivity. Qed.

(** ** Strategy detection *)

Lemma lower_char_colon (a : ascii) : Py.lower_char a = ":"%char -> a = ":"%char.
Proof.
  destruct a as [[] [] [] [] [] [] [] []]; vm_compute; congruence.
Qed.

Lemma after_first_skip (c a : ascii) (r : string) :
  is_Some (Py.after_first c r) -> is_Some (Py.after_first c (String a r)).
Proof. simpl. destruct (Ascii.eqb a c); eauto. Qed.

Lemma prefix_lower_has_sep (c : ascii) (p s : string) :
  (forall a, Py.lower_char a = c -> a = c) ->
  is_Some (Py.after_first c p) ->
  String.prefix p (Py.lower s) = true ->
  is_Some (Py.after_first c s).
Proof.
  intros Hc. revert s.
  induction p as [|b p IH]; intros s Hp Hpre.
  - simpl in Hp. by destruct Hp.
  - destruct s as [|a r]; [discriminate|].
    simpl in Hpre. destruct (ascii_dec b (Py.lower_char a)) as [->|]; [|discriminate].
    simpl in Hp. destruct (Ascii.eqb (Py.lower_char a) c) eqn:Hb.
    + apply Ascii.eqb_eq in Hb. apply Hc in Hb. subst a.
      simpl. rewrite Ascii.eqb_refl. eauto.
    + apply after_first_skip. eauto.
Qed.

(** A line whose lower-case form starts with [sitemap:] contains a colon,
    so [line.split(':', 1)[1]] is defined. *)
Lemma sitemap_line_has_value (line : string) :
  Py.startswith (Py.lower line) "sitemap:" = true ->
  is_Some (Py.after_first ":" line).
Proof.
  apply prefix_lower_has_sep; [apply lower_char_colon|].
  vm_compute. eauto.
Qed.

Lemma rstrip_char_idem (c : ascii) (s : string) :
  Py.rstrip_char c (Py.rstrip_char c s) = Py.rstrip_char c s.
Proof.
  induction s as [|a r IH]; [done|].
  simpl. destruct (String.eqb (Py.rstrip_char c r) "") eqn:He; simpl.
  - destruct (Ascii.eqb a c) eqn:Ha; [done|].
    apply String.eqb_eq in He. rewrite He. simpl. by rewrite Ha.
  - rewrite IH, He. done.
Qed.

Lemma rstrip_char_keeps_head (c a : ascii) (r : string) :
  a <> c -> exists r', Py.rstrip_char c (String a r) = String a r'.
Proof.
  intros Hne. simpl.
  destruct (Ascii.eqb a c) eqn:Ha; [apply Ascii.eqb_eq in Ha; done|].
  rewrite andb_false_r. eauto.
Qed.

Lemma prefix_head (a : ascii) (p s : string) :
  String.prefix (String a p) s = true -> exists r, s = String a r.
Proof.
  destruct s as [|b r]; [discriminate|]. simpl.
  destruct (ascii_dec a b); [subst; eauto | discriminate].
Qed.

(** The canonical seed is never empty, starts with [h] and has no slash
    left to strip. *)
Lemma normalize_url_shape (url : string) :
  (exists r, normalize_url url = String "h" r) /\
  Py.rstrip_char "/" (normalize_url url) = normalize_url url.
Proof.
  unfold normalize_url. split; [|apply rstrip_char_idem].
  assert (H : exists r,
    (if Py.startswith url "http://" || Py.startswith url "https://"
     then url else "https://" +:+ url) = String "h" r).
  { destruct (Py.startswith url "http://") eqn:H1; simpl.
    - apply prefix_head in H1. done.
    - destruct (Py.startswith url "https://") eqn:H2.
      + apply prefix_head in H2. done.
      + simpl. eauto. }
  destruct H as [r ->]. apply rstrip_char_keeps_head. done.
Qed.

Example strip_unicode_ex :
  Py.strip (String "194" (String "160" ("x" +:+ String "226" (String "128" (String "131" " ")))))
  = "x" /\
  Py.strip (String "194" (String "160" "")) = "" /\
  Py.strip (String "195" (String "160" "")) = String "195" (String "160" "").
Proof. repeat split; reflexivity. Qed.

Section StrategyDetection.

Variable W : Web.

(** The calls of [requests] raise nothing but [RequestException], the base
    class of every exception the library raises. *)
Hypothesis head_raises : forall u e,
  requests_head W u = HttpRaises e -> e = RequestException.
Hypothesis get_raises : forall u e,
  requests_get W u = HttpRaises e -> e = RequestException.

(** What [probe_common] raises is the [ValueError] of [urljoin]. *)
Lemma probe_common_accepted base_url paths :
  accepted W (probe_common W base_url paths) \/
  (probe_common W base_url paths = Raise (Exception "ValueError") /\
   exists path, path ∈ paths /\ urljoin_raises W base_url path = true).
Proof.
  induction paths as [|p rest IH]; simpl.
  - left. exists None. split; [done|]. congruence.
  - assert (IH' : accepted W (probe_common W base_url rest) \/
      (probe_common W base_url rest = Raise (Exception "ValueError") /\
       exists path, path ∈ p :: rest /\ urljoin_raises W base_url path = true)).
    { destruct IH as [IH|(IH & path & Hin & Hr)]; [by left|right].
      split; [done|]. exists path. split; [by apply list_elem_of_further|done]. }
    destruct (urljoin_raises W base_url p) eqn:Hj.
    { right. split; [done|]. exists p. split; [apply list_elem_of_here|done]. }
    destruct (requests_head W (urljoin W base_url p)) as [code text|e] eqn:Hh.
    + destruct (code =? 200) eqn:Hc; [|exact IH'].
      apply Z.eqb_eq in Hc. subst. left.
      eexists. split; [done|]. intros u [= <-]. eauto.
    + apply head_raises in Hh. subst. exact IH'.
Qed.

Lemma scan_robots_accepted lines : accepted W (scan_robots W lines).
Proof.
  induction lines as [|line rest IH]; simpl.
  - exists None. split; [done|]. congruence.
  - destruct (Py.startswith (Py.lower line) "sitemap:") eqn:Hs; [|exact IH].
    destruct (sitemap_line_has_value line Hs) as [v ->].
    destruct (requests_head W (Py.strip v)) as [code text|e] eqn:Hh.
    + destruct (code =? 200) eqn:Hc; [|exact IH].
      apply Z.eqb_eq in Hc. subst.
      eexists. split; [done|]. intros u [= <-]. eauto.
    + apply head_raises in Hh. subst. exact IH.
Qed.

(** [check_sitemap] returns, with a sitemap URL that answered 200 when it
    reports one, or raises the [ValueError] of one of its calls of
    [urljoin]. *)
Lemma check_sitemap_returns base_url :
  match check_sitemap W base_url with
  | Ok (found, u) =>
      found = true -> exists text, requests_head W u = Response 200 text
  | Raise e =>
      e = Exception "ValueError" /\
      exists path, path ∈ common_paths ++ ["/robots.txt"] /\
                   urljoin_raises W base_url path = true
  end.
Proof.
  unfold check_sitemap.
  destruct (probe_common_accepted base_url common_paths)
    as [(o & -> & Ho)|(-> & path & Hin & Hr)].
  2:{ split; [done|]. exists path. split; [|done].
      apply elem_of_app. by left. }
  destruct o as [u|]; [eauto|].
  destruct (urljoin_raises W base_url "/robots.txt") eqn:Hj.
  { split; [done|]. exists "/robots.txt". split; [|done].
    apply elem_of_app. right. apply list_elem_of_here. }
  destruct (requests_get W (urljoin W base_url "/robots.txt"))
    as [code text|e] eqn:Hg.
  - destruct (code =? 200); [|done].
    destruct (scan_robots_accepted (Py.split_on "010" text)) as (o & -> & Ho').
    destruct o as [u|]; [eauto | done].
  - apply get_raises in Hg. subst. done.
Qed.

End StrategyDetection.

(** C7 (as amended).  For every seed string, strategy detection ends,
    provided the calls of [requests] raise nothing but [RequestException]
    and reject the empty URL.  It raises only the [ValueError] of a call of
    [urljoin] on the canonical seed, which stands outside the [try]
    blocks.  Otherwise it returns a non-empty URL with a strategy: with
    [recursive], the canonical seed (prefixed with https:// when it has no
    scheme, no trailing slash left); with [sitemap], the sitemap URL that
    answered 200 to a HEAD request. *)
Theorem detect_strategy_returns (W : Web) (seed : string) :
  (forall u e, requests_head W u = HttpRaises e -> e = RequestException) ->
  (forall u e, requests_get W u = HttpRaises e -> e = RequestException) ->
  (forall code text, requests_head W "" <> Response code text) ->
  match detect_strategy W seed with
  | Ok (strategy, url) =>
      url <> "" /\
      match strategy with
      | recursive => url = normalize_url seed /\ Py.rstrip_char "/" url = url
      | sitemap => exists text, requests_head W url = Response 200 text
      end
  | Raise e =>
      e = Exception "ValueError" /\
      exists path, path ∈ common_paths ++ ["/robots.txt"] /\
                   urljoin_raises W (normalize_url seed) path = true
  end.
Proof.
  intros Hhead Hget Hempty. unfold detect_strategy.
  pose proof (check_sitemap_returns W Hhead Hget (normalize_url seed)) as Hc.
  destruct (check_sitemap W (normalize_url seed)) as [[found u]|e]; [|exact Hc].
  destruct found.
  - destruct (Hc eq_refl) as [text Ht]. split; [|eauto].
    intros ->. by apply (Hempty 200 text).
  - destruct (normalize_url_shape seed) as [[r Hr] Hidem].
    split; [|done]. rewrite Hr. done.
Qed.

Lemma detect_strategy_returns_witness :
  match detect_strategy sitemap_web "example.com/" with
  | Ok (strategy, url) =>
      url <> "" /\
      match strategy with
      | recursive => url = normalize_url "example.com/" /\ Py.rstrip_char "/" url = url
      | sitemap => exists text, requests_head sitemap_web url = Response 200 text
      end
  | Raise e =>
      e = Exception "ValueError" /\
      exists path, path ∈ common_paths ++ ["/robots.txt"] /\
                   urljoin_raises sitemap_web (normalize_url "example.com/") path = true
  end.
Proof.
  apply (detect_strategy_returns sitemap_web "example.com/").
  - intros u e. simpl. destruct (String.eqb u _); congruence.
  - intros u e. simpl. congruence.
  - intros code text. simpl. congruence.
Defined.

(** Where [urljoin] accepts the canonical seed, detection never raises. *)
Lemma detect_strategy_never_raises (W : Web) (seed : string) :
  (forall u e, requests_head W u = HttpRaises e -> e = RequestException) ->
  (forall u e, requests_get W u = HttpRaises e -> e = RequestException) ->
  (forall path, urljoin_raises W (normalize_url seed) path = false) ->
  exists strategy url, detect_strategy W seed = Ok (strategy, url).
Proof.
  intros Hhead Hget Hjoin. unfold detect_strategy.
  pose proof (check_sitemap_returns W Hhead Hget (normalize_url seed)) as Hc.
  destruct (check_sitemap W (normalize_url seed)) as [[found u]|e].
  - destruct found; eauto.
  - destruct Hc as (_ & path & _ & Hr). rewrite Hjoin in Hr. done.
Qed.

(** C7 (as stated) fails twice: when a sitemap is found, the URL returned
    is the sitemap URL, not the canonical seed; and on the seed that is
    one opening bracket, whose canonical form [urljoin] rejects, detection
    raises. *)
Lemma detect_strategy_sitemap_url_not_canonical :
  detect_strategy sitemap_web "example.com"
    = Ok (sitemap, "https://example.com/sitemap.xml") /\
  ~ (exists strategy,
       detect_strategy sitemap_web "example.com"
         = Ok (strategy, normalize_url "example.com")) /\
  detect_strategy bracket_web "[" = Raise (Exception "ValueError").
Proof.
  split; [reflexivity|]. split; [|reflexivity].
  intros [strategy H]. vm_compute in H. congruence.
Qed.

Example detect_strategy_fallback :
  detect_strategy sitemap_web "http://other.org//" = Ok (recursive, "http://other.org").
Proof. reflexivity. Qed.

(** ** Sitemap resolution *)

Lemma splice_sitemaps_total resolve urls all_urls :
  (forall u, u ∈ urls -> is_sub_sitemap u = true -> is_Some (resolve u)) ->
  is_Some (splice_sitemaps resolve urls all_urls).
Proof.
  revert all_urls. induction urls as [|url rest IH]; intros all_urls H; simpl; [eauto|].
  assert (Hrest : forall u, u ∈ rest -> is_sub_sitemap u = true -> is_Some (resolve u))
    by (intros u Hu; apply H; by apply list_elem_of_further).
  destruct (is_sub_sitemap url) eqn:Hs; [|by apply IH].
  destruct (H url (list_elem_of_here _ _) Hs) as [sub ->]. by apply IH.
Qed.

Lemma splice_sitemaps_ext resolve resolve' urls all_urls :
  (forall u, u ∈ urls -> is_sub_sitemap u = true -> resolve u = resolve' u) ->
  splice_sitemaps resolve urls all_urls = splice_sitemaps resolve' urls all_urls.
Proof.
  revert all_urls. induction urls as [|url rest IH]; intros all_urls H; simpl; [done|].
  assert (Hrest : forall u, u ∈ rest -> is_sub_sitemap u = true -> resolve u = resolve' u)
    by (intros u Hu; apply H; by apply list_elem_of_further).
  destruct (is_sub_sitemap url) eqn:Hs; [|by apply IH].
  rewrite <- (H url (list_elem_of_here _ _) Hs).
  destruct (resolve url); [by apply IH | done].
Qed.

(** Resolution returns, on every web and at every recursion limit. *)
Lemma extract_sitemap_urls_total W depth url :
  is_Some (extract_sitemap_urls W depth url).
Proof.
  revert url. induction depth as [|d IH]; intros url; simpl; [eauto|].
  destruct (requests_get W url) as [code text|]; [|eauto].
  destruct (raises_for_status code); [eauto|].
  apply splice_sitemaps_total. intros u _ _. apply IH.
Qed.






(** Above the rank of a graph without infinite paths, here given by a rank
    that decreases along every edge, the recursion limit is not reached
    and the result does not depend on it. *)
Lemma extract_sitemap_urls_above_rank W (rank : string -> nat) :
  (forall a b, sub_sitemap_of W a b -> (rank b < rank a)%nat) ->
  forall depth depth' url, (rank url < depth)%nat -> (rank url < depth')%nat ->
    extract_sitemap_urls W depth url = extract_sitemap_urls W depth' url.
Proof.
  intros Hrank depth.
  induction depth as [|d IH]; intros depth' url Hlt Hlt'; [lia|].
  destruct depth' as [|d']; [lia|].
  simpl. destruct (requests_get W url) as [code text|] eqn:Hget; [|done].
  destruct (raises_for_status code) eqn:Hst; [done|].
  apply splice_sitemaps_ext. intros u Hu Hsub.
  assert (rank u < rank url)%nat by (apply Hrank; by exists code, text).
  apply IH; lia.
Qed.

Lemma extract_sitemap_urls_ranked W (rank : string -> nat) :
  (forall a b, sub_sitemap_of W a b -> (rank b < rank a)%nat) ->
  forall depth url, (rank url < depth)%nat ->
    is_Some (extract_sitemap_urls W depth url).
Proof. intros _ depth url _. apply extract_sitemap_urls_total. Qed.

Example nested_sitemap_resolves :
  extract_sitemap_urls nested_web 2 "https://example.com/sitemap.xml"
  = Some ["https://example.com/p1"; "https://example.com/p2";
          "https://example.com/about"].
Proof. reflexivity. Qed.

(** ** Recursive crawl *)

Lemma page_of_url url r p : page_of url r = Some p -> page_url p = url.
Proof. unfold page_of. destruct (_ && _); [|done]. by intros [= <-]. Qed.

Lemma next_level_depth base_domain depth r :
  0 <= depth ->
  Forall (fun e : string * Z => 0 <= e.2) (next_level base_domain depth r).
Proof.
  intros Hd. unfold next_level. apply Forall_forall. intros [u d] Hin.
  apply list_elem_of_omap in Hin as (href & _ & Hhref).
  destruct href as [link|]; [|done].
  destruct (_ && _); [|done]. injection Hhref as <- <-. simpl. lia.
Qed.

Lemma crawl_start_inv max_pages max_depth start_url :
  0 <= max_pages -> crawl_inv max_pages max_depth (crawl_start start_url).
Proof.
  intros Hn. split; simpl.
  - done.
  - by repeat constructor.
  - constructor.
  - intros u. set_solver.
  - constructor.
  - done.
Qed.

Lemma loop_body_inv W base_domain max_pages max_depth st :
  loop_cond max_pages st = true ->
  crawl_inv max_pages max_depth st ->
  crawl_inv max_pages max_depth (loop_body W base_domain max_depth st).
Proof.
  intros [_ Hlt%Z.ltb_lt]%andb_true_iff Hinv.
  unfold loop_body.
  destruct (to_visit st) as [|[url depth] rest] eqn:Hto; [done|].
  destruct Hinv as [Hb Hq Hd Hv Hn Hp]. rewrite Hto in Hq.
  apply Forall_cons in Hq as [Hd0 Hq]. simpl in Hd0.
  destruct (bool_decide (url ∈ visited st) || (max_depth <? depth)) eqn:Hskip;
    [by split|].
  apply orb_false_iff in Hskip as [Hnv%bool_decide_eq_false Hdepth%Z.ltb_ge].
  assert (Hfresh : url ∉ (fetch_log st).*1) by (by rewrite <- Hv).
  assert (Hd' : Forall (fun e : string * Z => 0 <= e.2 <= max_depth)
                  (fetch_log st ++ [(url, depth)])).
  { apply Forall_app. split; [done|]. by repeat constructor. }
  assert (Hv' : forall u, u ∈ ({[url]} ∪ visited st : gset string)
                  <-> u ∈ (fetch_log st ++ [(url, depth)]).*1).
  { intros u. rewrite fmap_app, elem_of_app, elem_of_union, Hv. simpl.
    rewrite list_elem_of_singleton, elem_of_singleton. tauto. }
  assert (Hn' : NoDup (fetch_log st ++ [(url, depth)]).*1).
  { rewrite fmap_app. apply NoDup_app. split; [done|].
    split; [|apply NoDup_singleton].
    intros u Hu Hu'. simpl in Hu'. apply list_elem_of_singleton in Hu'. by subst. }
  assert (Hp' : map page_url (pages st)
                  `sublist_of` (fetch_log st ++ [(url, depth)]).*1).
  { rewrite fmap_app. by apply sublist_inserts_r. }
  destruct (arun W (length (fetch_log st)) url) as [r|]; [|by split].
  destruct (page_of url r) as [p|] eqn:Hpage; [|by split].
  split; simpl; try done.
  - rewrite length_app. simpl. lia.
  - apply Forall_app. split; [done|].
    destruct (depth <? max_depth); [by apply next_level_depth | constructor].
  - rewrite map_app, fmap_app. simpl. rewrite (page_of_url _ _ _ Hpage).
    by apply sublist_app.
Qed.

(** The loop rule: a property kept by every iteration holds when the loop
    ends, and the loop ends with its condition false. *)
Lemma crawl_loop_rule (W : Web) (base_domain : string) (max_pages max_depth : Z)
    (P : CrawlState -> Prop) (st : CrawlState) :
  (forall s, loop_cond max_pages s = true -> P s ->
             P (loop_body W base_domain max_depth s)) ->
  P st ->
  P (crawl_loop W base_domain max_pages max_depth st) /\
  loop_cond max_pages (crawl_loop W base_domain max_pages max_depth st) = false.
Proof.
  intros Hstep.
  funelim (crawl_loop W base_domain max_pages max_depth st); intros HP.
  - apply H; [done | by apply Hstep].
  - split; [done | assumption].
Qed.

Lemma crawl_recursive_run_inv W start_url max_pages max_depth :
  0 <= max_pages ->
  crawl_inv max_pages max_depth
    (crawl_recursive_run W start_url max_pages max_depth).
Proof.
  intros Hn. unfold crawl_recursive_run.
  apply crawl_loop_rule.
  - intros s. apply loop_body_inv.
  - by apply crawl_start_inv.
Qed.

(** C5.  For positive budgets N and D, a recursive crawl returns at most N
    pages, no URL twice; [arun] is called at most once per URL; and every
    page of the result comes from a frontier entry dequeued at a depth
    between 0 and D. *)
Theorem crawl_recursive_bounded (W : Web) (start_url : string) (N D : Z) :
  0 < N -> 0 < D ->
  let st := crawl_recursive_run W start_url N D in
  let result := crawl_recursive W start_url N D in
  Z.of_nat (length result) <= N /\
  NoDup (map page_url result) /\
  NoDup (fetch_log st).*1 /\
  (forall u, u ∈ (fetch_log st).*1 <-> u ∈ visited st) /\
  (forall p, p ∈ result ->
     exists depth, (page_url p, depth) ∈ fetch_log st /\ 0 <= depth <= D).
Proof.
  intros HN HD st result.
  destruct (crawl_recursive_run_inv W start_url N D) as [Hb Hq Hd Hv Hn Hp]; [lia|].
  fold st in Hb, Hd, Hv, Hn, Hp. fold result in Hb, Hp.
  split; [done|]. split; [by eapply sublist_NoDup|]. split; [done|].
  split; [intros u; by rewrite Hv|].
  intros p Hin.
  assert (Hu : page_url p ∈ (fetch_log st).*1).
  { eapply elem_of_sublist; [|exact Hp]. by apply (list_elem_of_fmap_2 page_url). }
  apply list_elem_of_fmap in Hu as ([u depth] & Hu & Hlog). simpl in Hu. subst u.
  exists depth. split; [done|].
  by apply (proj1 (Forall_forall _ _) Hd (page_url p, depth)).
Qed.

Lemma crawl_recursive_bounded_witness :
  let st := crawl_recursive_run small_site_web "https://a.com" 3 1 in
  let result := crawl_recursive small_site_web "https://a.com" 3 1 in
  Z.of_nat (length result) <= 3 /\
  NoDup (map page_url result) /\
  NoDup (fetch_log st).*1 /\
  (forall u, u ∈ (fetch_log st).*1 <-> u ∈ visited st) /\
  (forall p, p ∈ result ->
     exists depth, (page_url p, depth) ∈ fetch_log st /\ 0 <= depth <= 1).
Proof.
  apply (crawl_recursive_bounded small_site_web "https://a.com" 3 1); lia.
Defined.

Example crawl_recursive_small_site :
  map page_url (crawl_recursive small_site_web "https://a.com" 5 3)
  = ["https://a.com"; "https://a.com/2"; "https://a.com/3"] /\
  fetch_log (crawl_recursive_run small_site_web "https://a.com" 5 3)
  = [("https://a.com", 0); ("https://a.com/1", 1); ("https://a.com/2", 1);
     ("https://a.com/3", 2)] /\
  map page_url (crawl_recursive small_site_web "https://a.com" 2 3)
  = ["https://a.com"; "https://a.com/2"] /\
  map page_url (crawl_recursive small_site_web "https://a.com" 5 0)
  = ["https://a.com"].
Proof. repeat split; vm_compute; reflexivity. Qed.

(** ** Batch crawl *)

(** What [page_of] makes of a result is the page the specification
    names. *)
Lemma page_of_outcome url r : page_of url r = outcome_page url (Fetched r).
Proof.
  unfold page_of, outcome_page, Py.truthy.
  destruct (success r); [|done]. by destruct (markdown r).
Qed.

Lemma collect_batch_app pairs pages :
  collect_batch pairs pages
  = pages ++ omap (fun '(url, outcome) => outcome_page url outcome) pairs.
Proof.
  revert pages. induction pairs as [|[url outcome] rest IH]; intros pages; simpl.
  - by rewrite app_nil_r.
  - destruct outcome as [result|]; simpl; [|apply IH].
    unfold page_of, Py.truthy.
    destruct (success result); simpl; [|apply IH].
    destruct (markdown result); simpl; [apply IH|].
    rewrite IH, <- app_assoc. done.
Qed.

Lemma collect_gather W i batch pages :
  collect_batch (zip batch (gather W i batch)) pages
  = pages ++ pages_pointwise W i batch.
Proof.
  rewrite collect_batch_app. f_equal. unfold gather, pages_pointwise.
  revert i. induction batch as [|url rest IH]; intros i; [done|].
  simpl. rewrite Nat.add_0_r.
  assert (Hshift : forall l,
    imap ((fun j u => arun W (i + j) u) ∘ S) l = imap (fun j u => arun W (S i + j) u) l).
  { intros l. apply imap_ext. intros j u _. simpl. f_equal. lia. }
  assert (Hshift' : forall l,
    imap ((fun j u => outcome_page u (arun W (i + j) u)) ∘ S) l
    = imap (fun j u => outcome_page u (arun W (S i + j) u)) l).
  { intros l. apply imap_ext. intros j u _. simpl. do 2 f_equal. lia. }
  rewrite Hshift, Hshift', IH. by destruct (outcome_page _ _).
Qed.

Lemma pages_pointwise_app W i l1 l2 :
  pages_pointwise W i (l1 ++ l2)
  = pages_pointwise W i l1 ++ pages_pointwise W (i + length l1) l2.
Proof.
  unfold pages_pointwise. rewrite imap_app, omap_app. do 2 f_equal.
  apply imap_ext. intros j u _. simpl. do 2 f_equal. lia.
Qed.


Lemma batches_pointwise W (urls : list string) fuel start acc :
  (length urls <= start + fuel)%nat ->
  foldl (fun pages i =>
           let batch := batch_at urls i in
           collect_batch (zip batch (gather W i batch)) pages)
        acc (range_from fuel start (length urls) batch_size)
  = acc ++ pages_pointwise W start (drop start urls).
Proof.
  revert start acc. induction fuel as [|f IH]; intros start acc Hle; simpl.
  - rewrite drop_ge by lia. by rewrite app_nil_r.
  - destruct (Nat.ltb_spec start (length urls)) as [Hlt|Hge].
    + simpl. rewrite IH by (unfold batch_size; lia).
      rewrite collect_gather, <- app_assoc. f_equal.
      rewrite <- (take_drop batch_size (drop start urls)) at 1.
      rewrite pages_pointwise_app. unfold batch_at. f_equal.
      rewrite drop_drop.
      destruct (decide (start + batch_size <= length urls)%nat) as [Hfull|Hpart].
      * rewrite length_take, length_drop.
        replace (batch_size `min` (length urls - start))%nat with batch_size by lia.
        done.
      * rewrite (drop_ge urls) by lia. done.
    + rewrite drop_ge by lia. by rewrite app_nil_r.
Qed.

(** The result of a batch crawl is that of its URLs taken one by one. *)
Lemma crawl_urls_pointwise W urls :
  crawl_urls W urls = pages_pointwise W 0 urls.
Proof.
  unfold crawl_urls, py_range.
  rewrite batches_pointwise by lia. done.
Qed.







(** One raising URL in a batch of ten: the other fetchable ones yield
    their pages, and the next batch is crawled. *)
Example crawl_urls_batch :
  py_range (length batch_urls) batch_size = [0; 10]%nat /\
  map (batch_at batch_urls) [0; 10]%nat
  = [["u0"; "u1"; "u2"; "u3"; "u4"; "u5"; "u6"; "u7"; "u8"; "u9"]; ["u10"; "u11"]] /\
  crawl_urls batch_web batch_urls
  = map (fun u => {| page_url := u; page_title := "Untitled";
                     page_markdown := "text of " +:+ u |})
        ["u0"; "u2"; "u4"; "u5"; "u6"; "u7"; "u8"; "u9"; "u10"; "u11"].
Proof. repeat split; vm_compute; reflexivity. Qed.

(** ** The crawler class *)

(** C9.  The [max_depth] given to the constructor of [WebsiteCrawler] has
    no effect: two crawlers that differ only in it return the same result
    on every web and URL, and a recursive crawl runs with the depth limit
    3 of the signature of [crawl_recursive]. *)
Theorem max_depth_has_no_effect (W : Web) (depth : nat) (url : string)
    (pages_budget d1 d2 : Z) :
  WebsiteCrawler.crawl_website
    (WebsiteCrawler.init (Some pages_budget) (Some d1)) W depth url
  = WebsiteCrawler.crawl_website
      (WebsiteCrawler.init (Some pages_budget) (Some d2)) W depth url /\
  forall discovered_url,
    detect_strategy W url = Ok (recursive, discovered_url) ->
    WebsiteCrawler.crawl_website
      (WebsiteCrawler.init (Some pages_budget) (Some d1)) W depth url
    = Some (Ok (map WebsiteCrawler.convert
                  (crawl_recursive W discovered_url pages_budget 3))).
Proof.
  split; [reflexivity|].
  intros discovered_url Hd.
  unfold WebsiteCrawler.crawl_website, crawl_website. rewrite Hd. done.
Qed.

(** A crawler built with depth 1 follows the chain down to depth 3, as one
    built with depth 10 does; [crawl_recursive] with depth 1 would stop
    after two pages. *)
Example max_depth_chain :
  WebsiteCrawler.crawl_website (WebsiteCrawler.init (Some 100) (Some 1))
    chain_web 0 "c.com/0"
  = Some (Ok (map (fun u => {| cpage_url := u; cpage_title := "Untitled";
                               cpage_content := "text" |})
                ["https://c.com/0"; "https://c.com/1"; "https://c.com/2";
                 "https://c.com/3"])) /\
  map page_url (crawl_recursive chain_web "https://c.com/0" 100 1)
  = ["https://c.com/0"; "https://c.com/1"].
Proof. split; vm_compute; reflexivity. Qed.

(** ** Deleting a knowledge base *)




(** The wrapper's [delete_kb] is idempotent on every path. *)
Lemma delete_kb_absent (B : Backend) (w : World) (p : path) :
  path_exists w p = false -> LanceDBManager.delete_kb B p w = (w, true).
Proof. intros H. unfold LanceDBManager.delete_kb. by rewrite H. Qed.

(** ** Search *)

Lemma embed_log_spec B self text w :
  embed_log (LanceDBManager.embed B self text w).1
  = embed_log w ++ [(LanceDBManager.embedder self, text)] /\
  fs (LanceDBManager.embed B self text w).1 = fs w.
Proof.
  unfold LanceDBManager.embed. by destruct (encode_text _ _ _).
Qed.

Lemma connect_embed_log B p w : embed_log (connect B p w).1 = embed_log w.
Proof.
  unfold connect. destruct (fails _ _); [done|].
  destruct (fs w !! p) as [[| |]|]; try done.
  by destruct (is_dir _ _).
Qed.

(** C1 (as amended).  A search call produces the query embedding with the
    embedding identity of the manager it is made on, which the arguments of
    the manager's constructor fix, whatever the metadata of the knowledge
    base records: the only embedding request a call makes is the one for
    the query, served by [embedder self], and a call that returns results
    has made it. *)
Theorem search_embeds_with_manager_identity (B : Backend)
    (self : LanceDBManager.t) (kb_path : path) (query : string) (limit : Z)
    (w : World) :
  let r := LanceDBManager.search B self kb_path query limit w in
  match r.2 with
  | Some _ =>
      embed_log r.1.1 = embed_log w ++ [(LanceDBManager.embedder self, query)]
  | None =>
      embed_log r.1.1 = embed_log w \/
      embed_log r.1.1 = embed_log w ++ [(LanceDBManager.embedder self, query)]
  end.
Proof.
  unfold LanceDBManager.search.
  assert (Hembed : forall self1 w1,
    LanceDBManager.embedder self1 = LanceDBManager.embedder self ->
    embed_log w1 = embed_log w ->
    forall db_path,
    let r :=
      match tables_at w1 db_path !! "documents" with
      | None => (w1, self1, None)
      | Some rows =>
          if fails B (OpOpenTable db_path) then (w1, self1, None)
          else
            match LanceDBManager.embed B self1 query w1 with
            | (w2, Raise _) => (w2, self1, None)
            | (w2, Ok query_embedding) =>
                match vector_search B query_embedding rows limit with
                | None => (w2, self1, None)
                | Some results =>
                    (w2, self1,
                     Some {| LanceDBManager.out_query := query;
                             LanceDBManager.out_results :=
                               map LanceDBManager.format_result results;
                             LanceDBManager.out_total := length results |})
                end
            end
      end in
    match r.2 with
    | Some _ =>
        embed_log r.1.1 = embed_log w ++ [(LanceDBManager.embedder self, query)]
    | None =>
        embed_log r.1.1 = embed_log w \/
        embed_log r.1.1 = embed_log w ++ [(LanceDBManager.embedder self, query)]
    end).
  { intros self1 w1 Hid Hlog db_path.
    destruct (tables_at w1 db_path !! "documents") as [rows|]; simpl; [|by left].
    destruct (fails B (OpOpenTable db_path)); simpl; [by left|].
    pose proof (embed_log_spec B self1 query w1) as [Hl _].
    destruct (LanceDBManager.embed B self1 query w1) as [w2 [v|e]]; simpl in *;
      rewrite Hid, Hlog in Hl; [|by right].
    destruct (vector_search B v rows limit); simpl; [done | by right]. }
  destruct (LanceDBManager.truthy_db self w) as [p|] eqn:Hdb.
  - by apply Hembed.
  - destruct (path_exists w (kb_path ++ ["lancedb"])); simpl; [|by left].
    pose proof (connect_embed_log B (kb_path ++ ["lancedb"]) w) as Hc.
    destruct (connect B (kb_path ++ ["lancedb"]) w) as [w1 [[]|e]];
      simpl in *; [|by left].
    by apply Hembed.
Qed.

(** The identity of a manager comes from the arguments of its
    constructor. *)
Lemma init_embedder B model use_openai key openai_model self :
  LanceDBManager.init B model use_openai key openai_model = Ok self ->
  LanceDBManager.embedder self
  = if use_openai then OpenAIModel openai_model else SentenceTransformer model.
Proof.
  unfold LanceDBManager.init, LanceDBManager.embedder.
  destruct use_openai.
  - destruct (match key with Some k => _ | None => _ end) as [k|]; [|done].
    destruct (Py.truthy k); [|done]. by intros [= <-].
  - destruct (load_model B model); [|done]. by intros [= <-].
Qed.

(** C1 (as stated) fails: the knowledge base [docs] records the model
    named at its creation and its documents were embedded with it, while a
    search through a manager with the default configuration embeds the
    query with the default model. *)
Lemma search_identity_differs_from_recorded :
  recorded docs_world "docs" "embedding_model" = Some (JStr "paraphrase-MiniLM-L3-v2") /\
  Forall (fun request => request.1 = SentenceTransformer "paraphrase-MiniLM-L3-v2")
         (embed_log docs_world) /\
  exists manager,
    LanceDBManager.init_default quiet_backend = Ok manager /\
    let r := LanceDBManager.search quiet_backend manager ["docs"; "lancedb"]
               "how to install" 5 docs_world in
    is_Some r.2 /\
    last (embed_log r.1.1)
    = Some (SentenceTransformer "all-MiniLM-L6-v2", "how to install").
Proof.
  split; [vm_compute; reflexivity|].
  split; [vm_compute; repeat constructor|].
  eexists. split; [reflexivity|].
  split; [vm_compute; eauto | vm_compute; reflexivity].
Qed.

(** ** Knowledge-base creation: what each step writes *)

Lemma make_dirs_frame dirs f f' q :
  make_dirs dirs f = Some f' -> q ∉ dirs -> f' !! q = f !! q.
Proof.
  revert f. induction dirs as [|d rest IH]; intros f Hm Hq; simpl in Hm.
  - by injection Hm as <-.
  - apply not_elem_of_cons in Hq as [Hne Hq].
    destruct (f !! d) as [[| |]|] eqn:Hd; try done; try by apply IH.
    rewrite (IH _ Hm Hq). by rewrite lookup_insert_ne.
Qed.

Lemma mkdir_frame B p w q :
  q ∉ ancestors_and_self p -> fs (mkdir B p w).1 !! q = fs w !! q.
Proof.
  intros Hq. unfold mkdir. destruct (fails _ _); [done|].
  destruct (make_dirs _ _) as [f|] eqn:Hm; [|done].
  simpl. by eapply make_dirs_frame.
Qed.

Lemma connect_frame B p w q :
  q <> p -> fs (connect B p w).1 !! q = fs w !! q.
Proof.
  intros Hq. unfold connect. destruct (fails _ _); [done|].
  destruct (fs w !! p) as [[| |]|]; try done; simpl.
  - by rewrite lookup_insert_ne.
  - destruct (is_dir _ _); [|done]. simpl. by rewrite lookup_insert_ne.
Qed.

Lemma write_file_frame B p c w q :
  q <> p -> fs (write_file B p c w).1 !! q = fs w !! q.
Proof.
  intros Hq. unfold write_file. destruct (negb _); [done|].
  destruct (fs w !! p) as [[| |]|]; try done;
    destruct (write_outcome B p); simpl; try done; by rewrite lookup_insert_ne.
Qed.

(** A write leaves at its path what was there, the content written, or a
    partial file. *)
Lemma write_file_at B p c w :
  let r := write_file B p c w in
  match r.2 with
  | Ok _ => fs r.1 !! p = Some (File c)
  | Raise _ => fs r.1 !! p = fs w !! p \/ fs r.1 !! p = Some (File Garbage)
  end.
Proof.
  unfold write_file. destruct (negb _); simpl; [by left|].
  destruct (fs w !! p) as [[| |]|] eqn:Hp; simpl; try (by left);
    destruct (write_outcome B p); simpl;
    rewrite ?lookup_insert_eq; auto.
Qed.

Lemma embed_frame B self text w :
  fs (LanceDBManager.embed B self text w).1 = fs w.
Proof. apply embed_log_spec. Qed.

Lemma build_rows_frame B self documents table_data w :
  fs (LanceDBManager.build_rows B self documents table_data w).1 = fs w.
Proof.
  revert table_data w. induction documents as [|doc rest IH]; intros table_data w; [done|].
  simpl. destruct (default _ (doc !! "content")) as [content|]; [|done].
  destruct (negb _); [apply IH|].
  match goal with |- context [LanceDBManager.embed B self content ?w1] =>
    pose proof (embed_frame B self content w1) as He;
    destruct (LanceDBManager.embed B self content w1) as [w2 [v|e]] end;
    simpl in He; [|done].
  destruct (default _ (doc !! "metadata")); [done|].
  rewrite IH. done.
Qed.

Lemma store_rows_frame B db_path table_data w q :
  q <> db_path ->
  fs (LanceDBManager.store_rows B db_path table_data w).1 !! q = fs w !! q.
Proof.
  intros Hq. unfold LanceDBManager.store_rows.
  destruct (tables_at w db_path !! "documents");
    destruct (fails _ _); simpl; try done; by rewrite lookup_insert_ne.
Qed.

Lemma init_kb_frame B self p w q :
  q ∉ ancestors_and_self p -> q <> p ++ ["lancedb"] -> q <> p ++ ["metadata.json"] ->
  fs (LanceDBManager.init_kb B self p w).1.1 !! q = fs w !! q.
Proof.
  intros Hq1 Hq2 Hq3. unfold LanceDBManager.init_kb.
  pose proof (mkdir_frame B p w q Hq1) as Hm.
  destruct (mkdir B p w) as [w1 [[]|e]]; simpl in *; [|done].
  pose proof (connect_frame B (p ++ ["lancedb"]) w1 q Hq2) as Hc.
  destruct (connect B (p ++ ["lancedb"]) w1) as [w2 [[]|e]]; simpl in *;
    [|congruence].
  match goal with |- context [write_file B ?f ?c w2] =>
    pose proof (write_file_frame B f c w2 q Hq3) as Hw;
    destruct (write_file B f c w2) as [w3 [[]|e]] end; simpl in *; congruence.
Qed.

(** A manager that [init_kb] has connected keeps its database path. *)
Lemma init_kb_db B self p w :
  (LanceDBManager.init_kb B self p w).2 = Ok true ->
  LanceDBManager.db (LanceDBManager.init_kb B self p w).1.2 = Some (p ++ ["lancedb"]).
Proof.
  unfold LanceDBManager.init_kb.
  destruct (mkdir B p w) as [w1 [[]|e]]; [|done].
  destruct (connect B (p ++ ["lancedb"]) w1) as [w2 [[]|e]]; [|done].
  by destruct (write_file B _ _ w2) as [w3 [[]|e]].
Qed.

Lemma add_rows_frame B self documents db_path w q :
  LanceDBManager.db self = Some db_path -> q <> db_path ->
  fs (LanceDBManager.add_rows B self documents w).1.1 !! q = fs w !! q.
Proof.
  intros Hdb Hq. unfold LanceDBManager.add_rows.
  pose proof (build_rows_frame B self documents [] w) as Hb.
  destruct (LanceDBManager.build_rows B self documents [] w) as [w2 [rows|e]];
    simpl in *; [|by rewrite Hb].
  destruct rows as [|row rows]; simpl; [by rewrite Hb|].
  rewrite Hdb.
  pose proof (store_rows_frame B db_path (row :: rows) w2 q Hq) as Hs.
  destruct (LanceDBManager.store_rows B db_path (row :: rows) w2) as [w3 [[]|e]];
    simpl in *; congruence.
Qed.

(** A connection that counts as true is the connection of the manager. *)
Lemma truthy_db_db self w p :
  LanceDBManager.truthy_db self w = Some p -> LanceDBManager.db self = Some p.
Proof.
  unfold LanceDBManager.truthy_db.
  destruct (LanceDBManager.db self) as [p'|]; [|done].
  destruct (bool_decide _); [done|]. by intros [= <-].
Qed.

(** [add_documents] writes to the database of the manager and, when it
    runs [init_kb] again, to what [init_kb] writes at [kb_path]. *)
Lemma add_documents_frame B self kb_path documents w q :
  q ∉ ancestors_and_self kb_path ->
  q <> kb_path ++ ["lancedb"] -> q <> kb_path ++ ["metadata.json"] ->
  (forall p, LanceDBManager.db self = Some p -> q <> p) ->
  fs (LanceDBManager.add_documents B self kb_path documents w).1.1 !! q = fs w !! q.
Proof.
  intros Hq1 Hq2 Hq3 Hq. unfold LanceDBManager.add_documents.
  destruct (LanceDBManager.truthy_db self w) as [p|] eqn:Hdb.
  - apply truthy_db_db in Hdb.
    apply (add_rows_frame B self documents p); [done | by apply Hq].
  - pose proof (init_kb_frame B self kb_path w q Hq1 Hq2 Hq3) as Hi.
    pose proof (init_kb_db B self kb_path w) as Hd.
    destruct (LanceDBManager.init_kb B self kb_path w) as [[w1 self1] [[]|e]];
      simpl in Hi, Hd |- *; try done.
    rewrite <- Hi.
    by apply (add_rows_frame B self1 documents (kb_path ++ ["lancedb"]) w1 q (Hd eq_refl)).
Qed.

(** ** Listing *)

Lemma list_entry_name w name e : list_entry w name = Some e -> kb_name e = name.
Proof.
  unfold list_entry. destruct (is_dir _ _); [|done].
  destruct (fs w !! _) as [[|[]|]|]; try done. by intros [= <-].
Qed.

Lemma list_entry_metadata w name e :
  list_entry w name = Some e ->
  exists metadata, fs w !! [name; "metadata.json"] = Some (File (JsonObject metadata)).
Proof.
  unfold list_entry. destruct (is_dir _ _); [|done].
  destruct (fs w !! _) as [[|[]|]|]; try done. eauto.
Qed.

Lemma insert_desc_perm x l : insert_desc x l ≡ₚ x :: l.
Proof.
  induction l as [|y r IH]; [done|]. simpl.
  destruct (jval_lt _ _) as [[]|]; try done.
  rewrite IH. apply Permutation_swap.
Qed.

Lemma foldr_insert_desc_perm l : foldr insert_desc [] l ≡ₚ l.
Proof.
  induction l as [|x l IH]; [reflexivity|].
  simpl. by rewrite insert_desc_perm, IH.
Qed.

Lemma sort_by_created_desc_perm kbs sorted :
  sort_by_created_desc kbs = Some sorted -> sorted ≡ₚ kbs.
Proof.
  destruct kbs as [|k rest]; [simpl; by intros [= <-]|].
  unfold sort_by_created_desc.
  destruct (forallb _ _); [|done]. intros [= <-].
  apply (foldr_insert_desc_perm (k :: rest)).
Qed.

(** [knowledge_list] shows only names whose metadata file exists and loads. *)
Lemma shown_by_list_metadata w name :
  shown_by_list w name ->
  exists metadata, fs w !! [name; "metadata.json"] = Some (File (JsonObject metadata)).
Proof.
  unfold shown_by_list, handle_knowledge_list.
  destruct (list_entries w) as [|e0 es] eqn:Hes; [done|].
  destruct (sort_by_created_desc (e0 :: es)) as [sorted|] eqn:Hs; [|done].
  intros Hin. apply sort_by_created_desc_perm in Hs. rewrite Hs, <- Hes in Hin.
  apply list_elem_of_fmap in Hin as (e & -> & He).
  apply list_elem_of_omap in He as (n & _ & He).
  rewrite (list_entry_name _ _ _ He). by eapply list_entry_metadata.
Qed.

(** ** Knowledge-base creation: the commit point *)

Lemma wf_absent_below w name rest :
  fs_wf w -> fs w !! [name] = None -> fs w !! ([name] ++ rest) = None.
Proof.
  intros Hwf Hroot. induction rest as [|x rest IH] using rev_ind; [done|].
  destruct (fs w !! ([name] ++ rest ++ [x])) as [node|] eqn:Hq; [|done].
  exfalso. specialize (Hwf ([name] ++ rest ++ [x])).
  rewrite app_assoc, removelast_last in Hwf.
  unfold is_dir in Hwf. rewrite IH in Hwf.
  rewrite <- app_assoc in Hwf. rewrite Hq in Hwf.
  assert (false = true); [|done].
  apply Hwf; [eauto | by destruct rest | by destruct rest].
Qed.

Lemma commit_kb_metadata B args documents w :
  let r := commit_kb B args documents w in
  let m := [arg_kb_name args; "metadata.json"] in
  match r.2 with
  | Created _ _ => fs r.1 !! m = Some (File (JsonObject (kb_metadata args B documents)))
  | _ => fs r.1 !! m = fs w !! m \/ fs r.1 !! m = Some (File Garbage)
  end.
Proof.
  unfold commit_kb.
  pose proof (write_file_at B [arg_kb_name args; "metadata.json"]
                (JsonObject (kb_metadata args B documents)) w) as Hw.
  destruct (write_file B _ _ w) as [w1 [[]|e]]; simpl in *; [|done].
  by destruct (generate_kb_mcp B _ _).
Qed.

(** The metadata file of the knowledge base appears only with the answer
    [Created]: before it the file is untouched, and a failed write leaves it
    absent or unreadable. *)
Lemma create_from_pages_commit B args pages w :
  let r := create_from_pages B args pages w in
  let m := [arg_kb_name args; "metadata.json"] in
  create_succeeded r.2 = true \/
  fs r.1 !! m = fs w !! m \/ fs r.1 !! m = Some (File Garbage).
Proof.
  unfold create_from_pages. set (name := arg_kb_name args).
  set (m := [name; "metadata.json"]).
  destruct pages as [|page pages]; simpl; [auto|].
  assert (Hm1 : m ∉ ancestors_and_self [name]).
  { unfold ancestors_and_self, m. simpl. rewrite list_elem_of_singleton. done. }
  assert (Hm2 : m ∉ ancestors_and_self [name; "lancedb"]).
  { unfold ancestors_and_self, m. simpl. rewrite !not_elem_of_cons.
    split_and!; [done..|apply not_elem_of_nil]. }
  assert (Hm3 : m <> [name; "lancedb"] ++ ["lancedb"]) by done.
  assert (Hm4 : m <> [name; "lancedb"] ++ ["metadata.json"]) by done.
  pose proof (mkdir_frame B [name] w m Hm1) as H1.
  destruct (mkdir B [name] w) as [w1 [[]|e]]; simpl in H1 |- *; [|auto].
  destruct (LanceDBManager.init B _ _ _ _) as [mgr|e]; simpl; [|auto].
  pose proof (init_kb_frame B mgr [name; "lancedb"] w1 m Hm2 Hm3 Hm4) as H2.
  pose proof (init_kb_db B mgr [name; "lancedb"] w1) as Hdb.
  destruct (LanceDBManager.init_kb B mgr [name; "lancedb"] w1)
    as [[w2 mgr2] [[]|e]]; simpl in H2, Hdb |- *;
    try (right; left; congruence).
  specialize (Hdb eq_refl).
  pose proof (commit_kb_metadata B args) as Hc. simpl in Hc. fold name m in Hc.
  destruct (assemble_documents name (page :: pages)) as [|doc docs] eqn:Hdocs.
  - specialize (Hc 0%nat w2).
    destruct (commit_kb B args 0 w2) as [w3 []]; simpl in Hc |- *;
      first [ by left
            | destruct Hc as [Hc|Hc]; [right; left; congruence | by right; right] ].
  - assert (Hm5 : forall p, LanceDBManager.db mgr2 = Some p -> m <> p).
    { intros p Hp. rewrite Hdb in Hp. by injection Hp as <-. }
    pose proof (add_documents_frame B mgr2 [name; "lancedb"] (doc :: docs) w2 m
                  Hm2 Hm3 Hm4 Hm5) as H3.
    destruct (LanceDBManager.add_documents B mgr2 _ (doc :: docs) w2)
      as [[w3 mgr3] [[]|e]]; simpl in H3 |- *;
      try (right; left; congruence).
    specialize (Hc (length (doc :: docs)) w3).
    destruct (commit_kb B args _ w3) as [w4 []]; simpl in Hc |- *;
      first [ by left
            | destruct Hc as [Hc|Hc]; [right; left; congruence | by right; right] ].
Qed.

Lemma empty_world_wf : fs_wf empty_world.
Proof. intros p [node Hp]. simpl in Hp. by rewrite lookup_empty in Hp. Qed.

Lemma path_exists_false w p : path_exists w p = false -> fs w !! p = None.
Proof.
  unfold path_exists. intros H%bool_decide_eq_false.
  destruct (fs w !! p); [|done]. exfalso. eauto.
Qed.

(** C2.  Creation is all-or-nothing for the registry: when it aborts (no
    page crawled, storage initialization failed, documents not added, or an
    exception in any step), the metadata file of the knowledge base is
    absent or does not load, so a subsequent [knowledge_list] does not show
    the knowledge base. *)
Theorem failed_creation_not_listed (B : Backend) (W : Web) (depth : nat)
    (args : CreateArgs) (w w' : World) (resp : CreateResponse) :
  fs_wf w ->
  handle_knowledge_create B W depth args w = Some (w', resp) ->
  creation_aborted resp = true ->
  ~ shown_by_list w' (arg_kb_name args) /\
  list_entry w' (arg_kb_name args) = None /\
  forall metadata,
    fs w' !! [arg_kb_name args; "metadata.json"] <> Some (File (JsonObject metadata)).
Proof.
  intros Hwf Hrun Habort.
  assert (Hmeta : forall metadata,
    fs w' !! [arg_kb_name args; "metadata.json"] <> Some (File (JsonObject metadata))).
  { unfold handle_knowledge_create in Hrun.
    destruct (negb (valid_kb_name _)); [by injection Hrun as <- <-|].
    destruct (path_exists w [arg_kb_name args]) eqn:Hex; [by injection Hrun as <- <-|].
    apply path_exists_false in Hex.
    pose proof (wf_absent_below w _ ["metadata.json"] Hwf Hex) as Hnone.
    simpl in Hnone.
    destruct (WebsiteCrawler.crawl_website _ _ _ _) as [[pages|e]|]; [| |done].
    - pose proof (create_from_pages_commit B args pages w) as Hc. simpl in Hc.
      destruct (create_from_pages B args pages w) as [w1 resp1].
      injection Hrun as <- <-. simpl in Hc.
      intros metadata. destruct Hc as [Hc|[Hc|Hc]].
      + by destruct resp1.
      + rewrite Hc, Hnone. done.
      + rewrite Hc. done.
    - injection Hrun as <- <-. intros metadata. by rewrite Hnone. }
  split; [|split; [|done]].
  - intros [metadata Hm]%shown_by_list_metadata. by apply (Hmeta metadata).
  - unfold list_entry. destruct (is_dir _ _); [|done].
    destruct (fs w' !! _) as [[|[metadata|]|]|] eqn:Hm; try done.
    by destruct (Hmeta metadata).
Qed.

Lemma failed_creation_not_listed_witness :
  ~ shown_by_list failed_docs_world "docs" /\
  list_entry failed_docs_world "docs" = None /\
  forall metadata,
    fs failed_docs_world !! ["docs"; "metadata.json"]
    <> Some (File (JsonObject metadata)).
Proof.
  apply (failed_creation_not_listed no_embedding_backend small_site_web 0 docs_args
           empty_world failed_docs_world AddDocumentsFailed).
  - intros p [node Hp]. simpl in Hp. by rewrite lookup_empty in Hp.
  - vm_compute. reflexivity.
  - reflexivity.
Defined.

(** The aborted creation leaves the directory and the store's own files
    behind, which the listing skips. *)
Example failed_creation_leaves_directory :
  is_dir failed_docs_world ["docs"] = true /\
  path_exists failed_docs_world ["docs"; "lancedb"; "metadata.json"] = true /\
  handle_knowledge_list failed_docs_world = NoKnowledgeBases.
Proof. repeat split; vm_compute; reflexivity. Qed.

(** ** Knowledge-base creation from pages without text *)



Lemma iterdir_elem w name node :
  fs w !! [name] = Some node -> name ∈ iterdir w.
Proof.
  intros H. unfold iterdir. apply list_elem_of_omap.
  exists ([name], node). split; [|done]. by apply elem_of_map_to_list.
Qed.




(** The pages the crawler of this repository returns always have text, so
    the handler meets pages without text only behind another crawler. *)
Lemma page_of_has_text url r p : page_of url r = Some p -> page_markdown p <> "".
Proof.
  unfold page_of. destruct (success r); [|done]. simpl.
  destruct (Py.truthy (markdown r)) eqn:Ht; [|done].
  intros [= <-]. simpl. unfold Py.truthy in Ht.
  intros He. rewrite He in Ht. done.
Qed.

Lemma crawl_recursive_has_text W start_url max_pages max_depth :
  Forall (fun p => page_markdown p <> "")
         (crawl_recursive W start_url max_pages max_depth).
Proof.
  unfold crawl_recursive, crawl_recursive_run.
  apply (crawl_loop_rule W _ max_pages max_depth
           (fun st => Forall (fun p => page_markdown p <> "") (pages st)));
    [|constructor].
  intros s _ Hs. unfold loop_body.
  destruct (to_visit s) as [|[url depth] rest]; [done|].
  destruct (_ || _); [done|].
  destruct (arun W _ url) as [r|]; [|done].
  destruct (page_of url r) as [p|] eqn:Hp; [|done].
  simpl. apply Forall_app. split; [done|].
  constructor; [|constructor]. by eapply page_of_has_text.
Qed.

Lemma crawl_urls_has_text W urls :
  Forall (fun p => page_markdown p <> "") (crawl_urls W urls).
Proof.
  rewrite crawl_urls_pointwise. unfold pages_pointwise.
  apply Forall_forall. intros p (o & [j Hj]%list_elem_of_lookup & Ho)%list_elem_of_omap.
  simpl in Ho. subst o. rewrite list_lookup_imap in Hj.
  destruct (urls !! j) as [url|]; [|done]. simpl in Hj.
  assert (Hp : outcome_page url (arun W j url) = Some p) by congruence.
  destruct (arun W j url) as [r|]; [|done].
  rewrite <- page_of_outcome in Hp.
  by eapply page_of_has_text.
Qed.

Lemma crawled_pages_have_text (W : Web) (depth : nat) (url : string)
    (crawler : WebsiteCrawler.t) (pages : list ContentPage) :
  WebsiteCrawler.crawl_website crawler W depth url = Some (Ok pages) ->
  Forall (fun page => cpage_content page <> "") pages.
Proof.
  unfold WebsiteCrawler.crawl_website, crawl_website.
  destruct (detect_strategy W url) as [[[] u]|e]; [| |done].
  - unfold crawl_from_sitemap.
    destruct (extract_sitemap_urls W depth u) as [urls|]; [|done].
    intros [= <-]. apply Forall_fmap.
    eapply Forall_impl; [apply crawl_urls_has_text|done].
  - intros [= <-]. apply Forall_fmap.
    eapply Forall_impl; [apply crawl_recursive_has_text|done].
Qed.

(** ** Knowledge-base creation: documents and rows *)

Lemma assemble_documents_submitted name pages :
  Forall (submitted name pages) (assemble_documents name pages).
Proof.
  apply Forall_forall. unfold assemble_documents.
  intros doc ([i page] & [j Hj]%list_elem_of_lookup & Hdoc)%list_elem_of_omap.
  rewrite list_lookup_imap in Hj.
  destruct (pages !! j) as [page'|] eqn:Hpage; [|done].
  injection Hj as <- <-.
  destruct (Py.truthy (cpage_content page')) eqn:Ht; [|done].
  injection Hdoc as <-. exists j, page'. split; [done|].
  split. { intros He. unfold Py.truthy in Ht. by rewrite He in Ht. }
  unfold make_document. by simplify_map_eq.
Qed.

Lemma build_rows_spec B self documents table_data w w' rows :
  LanceDBManager.build_rows B self documents table_data w = (w', Ok rows) ->
  exists new,
    rows = table_data ++ new /\
    Forall2 (built_row B self) (filter (fun doc => has_text doc = true) documents) new.
Proof.
  revert table_data w.
  induction documents as [|doc rest IH]; intros table_data w Hb; simpl in Hb.
  - injection Hb as _ <-. exists []. by rewrite app_nil_r.
  - destruct (default (DStr "") (doc !! "content")) as [content|] eqn:Hc; [|done].
    assert (Hhas : has_text doc = Py.truthy (Py.strip content)).
    { unfold has_text. by rewrite Hc. }
    rewrite filter_cons.
    destruct (Py.truthy (Py.strip content)) eqn:Ht; simpl in Hb.
    + unfold LanceDBManager.embed in Hb.
      destruct (encode_text B _ content) as [v|] eqn:He; [|done].
      destruct (default (DDict ∅) (doc !! "metadata")) as [|metadata] eqn:Hm; [done|].
      apply IH in Hb as (new & -> & Hnew).
      rewrite decide_True by done.
      eexists (_ :: new). split; [by rewrite <- app_assoc|].
      constructor; [|done]. by eexists content, metadata, v, _.
    + apply IH in Hb as (new & -> & Hnew).
      rewrite decide_False by (rewrite Hhas; done). eauto.
Qed.

Lemma make_row_plain doc_id content embedding :
  let row := LanceDBManager.make_row doc_id content embedding ∅ in
  row !! "id" = Some (CStr doc_id) /\
  row !! "content" = Some (CStr content) /\
  row !! "vector" = Some (CVec embedding) /\
  row !! "title" = None /\ row !! "url" = None.
Proof.
  unfold LanceDBManager.make_row. rewrite fmap_empty, (left_id_L ∅ (∪)).
  rewrite !lookup_insert_ne, lookup_insert_eq by done.
  by simplify_map_eq.
Qed.

Lemma built_row_stored B self name pages doc row :
  submitted name pages doc -> built_row B self doc row -> stored_row B self doc row.
Proof.
  intros (i & page & _ & _ & _ & Hcontent & _ & _ & Hmeta)
         (content & metadata & embedding & k & Hc & Hm & He & ->).
  rewrite Hcontent in Hc. rewrite Hmeta in Hm. simpl in Hc, Hm.
  injection Hc as <-. injection Hm as <-.
  destruct (make_row_plain (uuid4 B k) (cpage_content page) embedding)
    as (Hid & Hrc & Hv & _).
  by exists (cpage_content page), embedding, k.
Qed.

Lemma init_kb_fresh_db B self name w w' self' :
  fs w !! [name; "lancedb"; "lancedb"] = None ->
  LanceDBManager.init_kb B self [name; "lancedb"] w = (w', self', Ok true) ->
  fs w' !! [name; "lancedb"; "lancedb"] = Some (Database ∅) /\
  self' = LanceDBManager.with_db self [name; "lancedb"; "lancedb"].
Proof.
  intros Hfresh. unfold LanceDBManager.init_kb. simpl app.
  assert (Hanc : [name; "lancedb"; "lancedb"] ∉ ancestors_and_self [name; "lancedb"]).
  { unfold ancestors_and_self. simpl. rewrite !not_elem_of_cons.
    split_and!; [done..|apply not_elem_of_nil]. }
  pose proof (mkdir_frame B [name; "lancedb"] w _ Hanc) as Hm.
  destruct (mkdir B [name; "lancedb"] w) as [w1 [[]|e]]; simpl in Hm; [|done].
  rewrite Hfresh in Hm.
  assert (Hc : forall w2, connect B [name; "lancedb"; "lancedb"] w1 = (w2, Ok tt) ->
                 fs w2 !! [name; "lancedb"; "lancedb"] = Some (Database ∅)).
  { intros w2. unfold connect. destruct (fails _ _); [done|]. rewrite Hm.
    destruct (is_dir _ _); [|done]. intros [= <-]. simpl.
    by rewrite lookup_insert_eq. }
  destruct (connect B [name; "lancedb"; "lancedb"] w1) as [w2 [[]|e]]; [|done].
  specialize (Hc w2 eq_refl).
  match goal with |- context [write_file B ?f ?c w2] =>
    pose proof (write_file_frame B f c w2 [name; "lancedb"; "lancedb"]) as Hw;
    destruct (write_file B f c w2) as [w3 [[]|e]] end; [|done].
  simpl in Hw. intros [= <- <-]. split; [|done].
  rewrite Hw by done. done.
Qed.

(** On a database that is there, [init_kb] leaves its tables as they
    are. *)
Lemma init_kb_keeps_db B self name tables w w' self' :
  fs w !! [name; "lancedb"; "lancedb"] = Some (Database tables) ->
  LanceDBManager.init_kb B self [name; "lancedb"] w = (w', self', Ok true) ->
  fs w' !! [name; "lancedb"; "lancedb"] = Some (Database tables) /\
  self' = LanceDBManager.with_db self [name; "lancedb"; "lancedb"].
Proof.
  intros Hthere. unfold LanceDBManager.init_kb. simpl app.
  assert (Hanc : [name; "lancedb"; "lancedb"] ∉ ancestors_and_self [name; "lancedb"]).
  { unfold ancestors_and_self. simpl. rewrite !not_elem_of_cons.
    split_and!; [done..|apply not_elem_of_nil]. }
  pose proof (mkdir_frame B [name; "lancedb"] w _ Hanc) as Hm.
  destruct (mkdir B [name; "lancedb"] w) as [w1 [[]|e]]; simpl in Hm; [|done].
  rewrite Hthere in Hm.
  assert (Hc : forall w2, connect B [name; "lancedb"; "lancedb"] w1 = (w2, Ok tt) ->
                 fs w2 !! [name; "lancedb"; "lancedb"] = Some (Database tables)).
  { intros w2. unfold connect. destruct (fails _ _); [done|]. rewrite Hm.
    by intros [= <-]. }
  destruct (connect B [name; "lancedb"; "lancedb"] w1) as [w2 [[]|e]]; [|done].
  specialize (Hc w2 eq_refl).
  match goal with |- context [write_file B ?f ?c w2] =>
    pose proof (write_file_frame B f c w2 [name; "lancedb"; "lancedb"]) as Hw;
    destruct (write_file B f c w2) as [w3 [[]|e]] end; [|done].
  simpl in Hw. intros [= <- <-]. split; [|done].
  rewrite Hw by done. done.
Qed.

Lemma with_db_same self p :
  LanceDBManager.db self = Some p -> LanceDBManager.with_db self p = self.
Proof. destruct self. simpl. by intros ->. Qed.

Lemma truthy_db_empty self w p :
  LanceDBManager.db self = Some p -> fs w !! p = Some (Database ∅) ->
  LanceDBManager.truthy_db self w = None.
Proof.
  intros Hdb Hp. unfold LanceDBManager.truthy_db, tables_at.
  rewrite Hdb, Hp. by rewrite bool_decide_eq_true_2.
Qed.

Lemma add_rows_stores B self documents db_path w w' self' :
  LanceDBManager.db self = Some db_path ->
  fs w !! db_path = Some (Database ∅) ->
  LanceDBManager.add_rows B self documents w = (w', self', Ok true) ->
  exists rows,
    Forall2 (built_row B self) (filter (fun doc => has_text doc = true) documents) rows /\
    fs w' !! db_path = Some (Database (<["documents" := rows]> ∅)).
Proof.
  intros Hdb Hfresh. unfold LanceDBManager.add_rows.
  pose proof (build_rows_frame B self documents [] w) as Hframe.
  destruct (LanceDBManager.build_rows B self documents [] w) as [w2 [rows|e]] eqn:Hb;
    [|done].
  simpl in Hframe. apply build_rows_spec in Hb as (new & -> & Hnew). simpl.
  destruct new as [|row new]; [done|]. rewrite Hdb.
  unfold LanceDBManager.store_rows, tables_at. rewrite Hframe, Hfresh.
  rewrite lookup_empty. destruct (fails _ _); [done|].
  intros [= <- <-]. exists (row :: new). split; [done|].
  simpl. by rewrite lookup_insert_eq.
Qed.

(** In the creation of a knowledge base the database has no table when
    [add_documents] is called: [init_kb] runs a second time, on the paths
    of the first, and the rows go to the same database. *)
Lemma add_documents_stores B self name documents w w' self' :
  LanceDBManager.db self = Some [name; "lancedb"; "lancedb"] ->
  fs w !! [name; "lancedb"; "lancedb"] = Some (Database ∅) ->
  LanceDBManager.add_documents B self [name; "lancedb"] documents w
  = (w', self', Ok true) ->
  exists rows,
    Forall2 (built_row B self) (filter (fun doc => has_text doc = true) documents) rows /\
    fs w' !! [name; "lancedb"; "lancedb"] = Some (Database (<["documents" := rows]> ∅)).
Proof.
  intros Hdb Hfresh. unfold LanceDBManager.add_documents.
  rewrite (truthy_db_empty self w _ Hdb Hfresh).
  destruct (LanceDBManager.init_kb B self [name; "lancedb"] w)
    as [[w1 self1] [[]|e]] eqn:Hkb; try done.
  apply (init_kb_keeps_db B self name ∅) in Hkb as [Hfresh1 ->]; [|done].
  rewrite (with_db_same self _ Hdb).
  by apply add_rows_stores.
Qed.

Lemma commit_kb_frame B args documents w q :
  q <> [arg_kb_name args; "metadata.json"] ->
  fs (commit_kb B args documents w).1 !! q = fs w !! q.
Proof.
  intros Hq. unfold commit_kb.
  match goal with |- context [write_file B ?f ?c w] =>
    pose proof (write_file_frame B f c w q Hq) as Hw;
    destruct (write_file B f c w) as [w1 [[]|e]] end; simpl in *; [|done].
  by destruct (generate_kb_mcp B _ _).
Qed.

Lemma commit_kb_created B args documents w w' n display :
  commit_kb B args documents w = (w', Created n display) -> n = documents.
Proof.
  unfold commit_kb. destruct (write_file B _ _ w) as [w1 [[]|e]]; [|done].
  destruct (generate_kb_mcp B _ _). by intros [= _ <- _].
Qed.

Lemma Forall2_impl_Forall {A B} (P Q : A -> B -> Prop) (R : A -> Prop) l k :
  Forall2 P l k -> Forall R l -> (forall x y, R x -> P x y -> Q x y) ->
  Forall2 Q l k.
Proof.
  intros HP HR Himpl. revert HR.
  induction HP as [|x y l k Hxy _ IH]; intros HR; [constructor|].
  apply Forall_cons in HR as [Hx HR]. constructor; eauto.
Qed.

Lemma Forall_filter_keep {A} (R : A -> Prop) (P : A -> Prop)
    `{forall x, Decision (P x)} (l : list A) :
  Forall R l -> Forall R (filter P l).
Proof.
  intros HR. apply Forall_forall. intros x [_ Hx]%list_elem_of_filter.
  by apply (proj1 (Forall_forall _ _) HR).
Qed.

(** C3 (as amended).  For every successfully created knowledge base, each
    document submitted to the vector store carries its id derived from the
    knowledge-base name and the page ordinal, its content equal to the
    page's text, and its title and source URL; and the store persists, for
    each submitted document whose content is not blank, a row with that
    content and the vector the manager's model gives for it, under an
    identifier the store draws itself. *)
Theorem created_kb_documents_and_rows (B : Backend) (args : CreateArgs)
    (pages : list ContentPage) (w w' : World) (n : nat) (display : string) :
  fs_wf w ->
  path_exists w [arg_kb_name args] = false ->
  create_from_pages B args pages w = (w', Created n display) ->
  let name := arg_kb_name args in
  let documents := assemble_documents name pages in
  n = length documents /\
  Forall (submitted name pages) documents /\
  exists manager,
    LanceDBManager.init B (arg_embedding_model args)
      (arg_use_openai_embeddings args) None LanceDBManager.default_openai_model
    = Ok manager /\
    match documents with
    | [] => tables_at w' [name; "lancedb"; "lancedb"] !! "documents" = None
    | _ :: _ =>
        exists rows,
          tables_at w' [name; "lancedb"; "lancedb"] !! "documents" = Some rows /\
          Forall2 (stored_row B manager)
                  (filter (fun doc => has_text doc = true) documents) rows
    end.
Proof.
  intros Hwf Hex Hrun name documents.
  apply path_exists_false in Hex. fold name in Hex.
  pose proof (wf_absent_below w name ["lancedb"; "lancedb"] Hwf Hex) as Hfresh.
  simpl in Hfresh.
  pose proof (assemble_documents_submitted name pages) as Hsub. fold documents in Hsub.
  unfold create_from_pages in Hrun. fold name documents in Hrun.
  destruct pages as [|page pages]; [done|].
  assert (Hanc : [name; "lancedb"; "lancedb"] ∉ ancestors_and_self [name]).
  { unfold ancestors_and_self. simpl. rewrite list_elem_of_singleton. done. }
  pose proof (mkdir_frame B [name] w _ Hanc) as Hm.
  destruct (mkdir B [name] w) as [w1 [[]|e]]; [|done]. simpl in Hm.
  rewrite Hfresh in Hm.
  destruct (LanceDBManager.init B _ _ _ _) as [mgr|e] eqn:Hinit; [|done].
  simpl app in Hrun.
  destruct (LanceDBManager.init_kb B mgr [name; "lancedb"] w1)
    as [[w2 mgr2] [[]|e]] eqn:Hkb; try done.
  apply init_kb_fresh_db in Hkb as [Hdb ->]; [|done].
  assert (Hq : [name; "lancedb"; "lancedb"] <> [arg_kb_name args; "metadata.json"])
    by done.
  destruct documents as [|doc docs] eqn:Hdocs.
  - pose proof (commit_kb_frame B args 0 w2 _ Hq) as Hc.
    pose proof (commit_kb_created B args 0 w2) as Hn.
    destruct (commit_kb B args 0 w2) as [w3 resp]. injection Hrun as -> ->.
    simpl in Hc. split; [by eapply Hn|]. split; [done|].
    exists mgr. split; [done|].
    unfold tables_at. fold name in Hc. by rewrite Hc, Hdb.
  - destruct (LanceDBManager.add_documents B _ [name; "lancedb"] (doc :: docs) w2)
      as [[w3 mgr3] [[]|e]] eqn:Hadd; try done.
    apply (add_documents_stores B _ name) in Hadd
      as (rows & Hrows & Htable); [|done..].
    pose proof (commit_kb_frame B args (length (doc :: docs)) w3 _ Hq) as Hc.
    pose proof (commit_kb_created B args (length (doc :: docs)) w3) as Hn.
    destruct (commit_kb B args (length (doc :: docs)) w3) as [w4 resp].
    injection Hrun as -> ->. simpl in Hc.
    split; [by eapply Hn|]. split; [done|].
    exists mgr. split; [done|]. exists rows. split.
    + unfold tables_at. fold name in Hc. rewrite Hc, Htable.
      by rewrite lookup_insert_eq.
    + eapply Forall2_impl_Forall; [exact Hrows| |].
      * apply Forall_filter_keep. exact Hsub.
      * intros d row Hd Hrow.
        apply (built_row_stored B _ name (page :: pages) d row Hd Hrow).
Qed.

Lemma created_kb_documents_and_rows_witness :
  let documents := assemble_documents "docs" docs_pages in
  3%nat = length documents /\
  Forall (submitted "docs" docs_pages) documents /\
  exists manager,
    LanceDBManager.init quiet_backend "paraphrase-MiniLM-L3-v2" false None
      LanceDBManager.default_openai_model
    = Ok manager /\
    match documents with
    | [] => tables_at docs_world ["docs"; "lancedb"; "lancedb"] !! "documents" = None
    | _ :: _ =>
        exists rows,
          tables_at docs_world ["docs"; "lancedb"; "lancedb"] !! "documents"
          = Some rows /\
          Forall2 (stored_row quiet_backend manager)
                  (filter (fun doc => has_text doc = true) documents) rows
    end.
Proof.
  apply (created_kb_documents_and_rows quiet_backend docs_args docs_pages
           empty_world docs_world 3 "kb-docs").
  - intros p [node Hp]. simpl in Hp. by rewrite lookup_empty in Hp.
  - reflexivity.
  - vm_compute. reflexivity.
Defined.

(** C3 (as stated) fails on the stored rows: the knowledge base [docs] is
    created from three pages, the documents submitted carry the assembled
    ids, the titles and the source URLs, and the rows of its table have the
    store's own identifiers and neither a title nor a URL column. *)
Lemma stored_rows_lose_id_title_url :
  create_from_pages quiet_backend docs_args docs_pages empty_world
  = (docs_world, Created 3 "kb-docs") /\
  map (doc_field "id") (assemble_documents "docs" docs_pages)
  = [Some "docs_page_0"; Some "docs_page_1"; Some "docs_page_2"] /\
  map (doc_field "title") (assemble_documents "docs" docs_pages)
  = [Some "Home"; Some "Untitled"; Some "Untitled"] /\
  map (doc_field "url") (assemble_documents "docs" docs_pages)
  = [Some "https://a.com"; Some "https://a.com/2"; Some "https://a.com/3"] /\
  exists rows,
    tables_at docs_world ["docs"; "lancedb"; "lancedb"] !! "documents" = Some rows /\
    map (row_field "content") rows = [Some "home"; Some "page"; Some "page"] /\
    map (row_field "id") rows
    = [Some "6f1c2d3e-0000-4000-8000-000000000000";
       Some "6f1c2d3e-0000-4000-8000-000000000001";
       Some "6f1c2d3e-0000-4000-8000-000000000002"] /\
    map (row_field "title") rows = [None; None; None] /\
    map (row_field "url") rows = [None; None; None] /\
    map (fun row : Row => map fst (map_to_list row)) rows
    = [["content"; "id"; "vector"]; ["content"; "id"; "vector"];
       ["content"; "id"; "vector"]].
Proof.
  split; [vm_compute; reflexivity|].
  split; [vm_compute; reflexivity|].
  split; [vm_compute; reflexivity|].
  split; [vm_compute; reflexivity|].
  eexists. split; [vm_compute; reflexivity|].
  repeat split; vm_compute; reflexivity.
Qed.

(** A document whose content is only white space is submitted by
    [knowledge_create] and skipped by [add_documents]. *)
Example blank_document_is_skipped :
  let page := {| cpage_url := "u"; cpage_title := "t"; cpage_content := "  " |} in
  map has_text (assemble_documents "kb" [page]) = [false].
Proof. vm_compute. reflexivity. Qed.

(** So is a document whose content is a no-break space (U+00A0, the bytes
    194 and 160): of a page with text and such a page one row is stored,
    and such a page alone gives a creation that fails in [add_documents]. *)
Example no_break_space_is_skipped :
  let text := {| cpage_url := "u"; cpage_title := "t"; cpage_content := "text" |} in
  let nbsp := {| cpage_url := "v"; cpage_title := "t";
                 cpage_content := String "194" (String "160" "") |} in
  let r := create_from_pages quiet_backend (create_args "a.com" "kb") [text; nbsp]
             empty_world in
  map has_text (assemble_documents "kb" [text; nbsp]) = [true; false] /\
  r.2 = Created 2 "kb-kb" /\
  length <$> tables_at r.1 ["kb"; "lancedb"; "lancedb"] !! "documents" = Some 1%nat /\
  (create_from_pages quiet_backend (create_args "a.com" "kb") [nbsp] empty_world).2
  = AddDocumentsFailed.
Proof. repeat split; vm_compute; reflexivity. Qed.
(** * Further properties of the sources *)

(** ** Strings as lists of characters *)

Lemma chars_app (s t : string) : chars (s +:+ t) = chars s ++ chars t.
Proof. induction s as [|a s IH]; simpl; [done|]. by rewrite <- IH. Qed.

Lemma chars_inj (s t : string) : chars s = chars t -> s = t.
Proof.
  revert t. induction s as [|a s IH]; intros [|b t] H; simplify_eq/=; [done|].
  f_equal. by apply IH.
Qed.

Lemma chars_length (s : string) : length (chars s) = String.length s.
Proof. induction s; simpl; congruence. Qed.

Lemma chars_rev_app (s t : string) :
  chars (String.rev_app s t) = rev (chars s) ++ chars t.
Proof.
  revert t. induction s as [|a s IH]; intros t; simpl; [done|].
  rewrite IH. simpl. by rewrite <- app_assoc.
Qed.

Lemma chars_rev (s : string) : chars (String.rev s) = rev (chars s).
Proof. unfold String.rev. rewrite chars_rev_app. simpl. by rewrite app_nil_r. Qed.

Lemma prefix_chars (p s : string) :
  String.prefix p s = true <-> chars p `prefix_of` chars s.
Proof.
  revert s. induction p as [|a p IH]; intros s; simpl.
  - split; [intros _; apply prefix_nil | by destruct s].
  - destruct s as [|b s]; simpl.
    + split; [done|]. intros [k Hk]. discriminate.
    + destruct (ascii_dec a b) as [->|Hab].
      * rewrite IH. split; [apply prefix_cons | apply prefix_cons_inv_2].
      * split; [done|]. intros H. by apply prefix_cons_inv_1 in H.
Qed.

Lemma endswith_chars (s p : string) :
  Py.endswith s p = true <-> chars p `suffix_of` chars s.
Proof.
  unfold Py.endswith. rewrite prefix_chars, !chars_rev. split.
  - intros [k Hk]. exists (rev k).
    rewrite <- (rev_involutive (chars s)), Hk, rev_app_distr.
    by rewrite rev_involutive.
  - intros [k ->]. exists (rev k). by rewrite rev_app_distr.
Qed.

Lemma endswith_app (s p : string) :
  Py.endswith s p = true <-> exists x, s = x +:+ p.
Proof.
  rewrite endswith_chars. split.
  - intros [k Hk]. exists (String.string_of_list_ascii k).
    apply chars_inj. rewrite chars_app, Hk. f_equal.
    clear. induction k as [|a k IH]; simpl; congruence.
  - intros [x ->]. rewrite chars_app. by apply suffix_app_r.
Qed.

Lemma substring_app_l (x y : string) :
  String.substring 0 (String.length x) (x +:+ y) = x.
Proof.
  induction x as [|a x IH]; simpl; [by destruct y|]. by rewrite IH.
Qed.

Lemma string_app_length (x y : string) :
  String.length (x +:+ y) = (String.length x + String.length y)%nat.
Proof. induction x as [|a x IH]; simpl; [done|]. by rewrite IH. Qed.

Lemma string_app_assoc (x y z : string) : (x +:+ y) +:+ z = x +:+ y +:+ z.
Proof. apply chars_inj. by rewrite !chars_app, app_assoc. Qed.

Lemma drop_suffix (x p : string) :
  String.substring 0 (String.length (x +:+ p) - String.length p) (x +:+ p) = x.
Proof.
  rewrite string_app_length.
  replace (String.length x + String.length p - String.length p)%nat
    with (String.length x) by lia.
  apply substring_app_l.
Qed.


(** ** Knowledge-base names and server names *)

Lemma chars_remove_char (c : ascii) (s : string) :
  chars (remove_char c s) = filter (fun a => a <> c) (chars s).
Proof.
  induction s as [|a s IH]; simpl; [done|].
  destruct (Ascii.eqb_spec a c) as [->|Hne].
  - rewrite filter_cons_False by (intros H; by apply H). done.
  - rewrite filter_cons_True by done. simpl. by rewrite IH.
Qed.

Lemma all_chars_Forall (f : ascii -> bool) (s : string) :
  all_chars f s = true <-> Forall (fun a => f a = true) (chars s).
Proof.
  induction s as [|a s IH]; simpl; [by split; [constructor|]|].
  rewrite andb_true_iff, IH, Forall_cons. done.
Qed.

Lemma truthy_chars (s : string) : Py.truthy s = true <-> chars s <> [].
Proof. destruct s; simpl; [by split|]. by split. Qed.

Lemma isalnum_char_not_sep (c : ascii) :
  isalnum_char c = true -> c <> "-"%char /\ c <> "_"%char.
Proof. intros H. split; intros ->; discriminate H. Qed.

Lemma valid_kb_name_spec (kb_name : string) :
  valid_kb_name kb_name = true <->
  Forall (fun c => isalnum_char c = true \/ c = "-"%char \/ c = "_"%char)
         (chars kb_name) /\
  Exists (fun c => isalnum_char c = true) (chars kb_name).
Proof.
  unfold valid_kb_name, isalnum.
  rewrite andb_true_iff, truthy_chars, all_chars_Forall, !chars_remove_char.
  induction (chars kb_name) as [|a l IH]; simpl.
  - split; [by intros [? _]|]. intros [_ H]. by apply Exists_nil in H.
  - destruct (decide (a = "-"%char)) as [->|Hd].
    { rewrite filter_cons_False by (intros H; by apply H).
      rewrite IH, Forall_cons, Exists_cons. simpl. intuition (auto; discriminate). }
    rewrite (filter_cons_True _ a) by done.
    destruct (decide (a = "_"%char)) as [->|Hu].
    { rewrite filter_cons_False by (intros H; by apply H).
      rewrite IH, Forall_cons, Exists_cons. simpl. intuition (auto; discriminate). }
    rewrite filter_cons_True by done.
    rewrite !Forall_cons, Exists_cons. split.
    + intros [_ [Ha Hl]]. split; [|by left]. split; [by left|].
      clear IH. induction l as [|b l IHl]; [constructor|].
      destruct (decide (b = "-"%char)) as [->|Hbd].
      { rewrite filter_cons_False in Hl by (intros H; by apply H).
        constructor; auto. }
      rewrite (filter_cons_True _ b) in Hl by done.
      destruct (decide (b = "_"%char)) as [->|Hbu].
      { rewrite filter_cons_False in Hl by (intros H; by apply H).
        constructor; auto. }
      rewrite filter_cons_True in Hl by done.
      apply Forall_cons in Hl as [Hb Hl]. constructor; auto.
    + intros [[Ha Hl] _]. split; [done|]. split; [by destruct Ha as [Ha|[Ha|Ha]]|].
      clear IH. induction Hl as [|b l Hb Hl IHl]; [constructor|].
      destruct (decide (b = "-"%char)) as [->|Hbd].
      { by rewrite filter_cons_False by (intros H; by apply H). }
      rewrite (filter_cons_True _ b) by done.
      destruct (decide (b = "_"%char)) as [->|Hbu].
      { by rewrite filter_cons_False by (intros H; by apply H). }
      rewrite filter_cons_True by done. constructor; [by destruct Hb as [Hb|[Hb|Hb]]|done].
Qed.

(** X1.  Among the names of ASCII characters, [knowledge_create] accepts
    exactly those made of letters, digits, hyphens and underscores that
    hold at least one letter or digit; so the empty name and a name of
    hyphens only are refused, and an accepted name holds no path
    separator, no dot and no space: it is one path component. *)
Theorem valid_kb_name_chars (kb_name : string) :
  is_ascii kb_name = true ->
  (valid_kb_name kb_name = true <->
     Forall (fun c => isalnum_char c = true \/ c = "-"%char \/ c = "_"%char)
            (chars kb_name) /\
     Exists (fun c => isalnum_char c = true) (chars kb_name)) /\
  (valid_kb_name kb_name = true ->
     ("/"%char ∉ chars kb_name) /\ ("."%char ∉ chars kb_name) /\
     (" "%char ∉ chars kb_name) /\ kb_name <> "" /\
     path_component kb_name = true).
Proof.
  intros _. split; [apply valid_kb_name_spec|].
  intros [Hall Hex]%valid_kb_name_spec. rewrite Forall_forall in Hall.
  repeat split.
  - intros Hin. destruct (Hall _ Hin) as [H|[H|H]]; discriminate H.
  - intros Hin. destruct (Hall _ Hin) as [H|[H|H]]; discriminate H.
  - intros Hin. destruct (Hall _ Hin) as [H|[H|H]]; discriminate H.
  - intros ->. by apply Exists_nil in Hex.
  - unfold path_component. rewrite !andb_true_iff, !negb_true_iff.
    split_and!.
    + apply truthy_chars. intros He. rewrite He in Hex. by apply Exists_nil in Hex.
    + apply String.eqb_neq. intros ->.
      destruct (Hall "."%char) as [H|[H|H]]; [apply list_elem_of_here|discriminate H..].
    + apply String.eqb_neq. intros ->.
      destruct (Hall "."%char) as [H|[H|H]]; [apply list_elem_of_here|discriminate H..].
    + apply all_chars_Forall, Forall_forall. intros c Hc.
      apply negb_true_iff, Ascii.eqb_neq. intros ->.
      destruct (Hall _ Hc) as [H|[H|H]]; discriminate H.
Qed.

Lemma valid_kb_name_chars_witness :
  (valid_kb_name "docs-kb_2" = true <->
     Forall (fun c => isalnum_char c = true \/ c = "-"%char \/ c = "_"%char)
            (chars "docs-kb_2") /\
     Exists (fun c => isalnum_char c = true) (chars "docs-kb_2")) /\
  (valid_kb_name "docs-kb_2" = true ->
     ("/"%char ∉ chars "docs-kb_2") /\ ("."%char ∉ chars "docs-kb_2") /\
     (" "%char ∉ chars "docs-kb_2") /\ "docs-kb_2" <> "" /\
     path_component "docs-kb_2" = true).
Proof. apply (valid_kb_name_chars "docs-kb_2"). reflexivity. Defined.


Lemma get_server_name_suffixed (x : string) :
  get_server_name (x +:+ "-kb-data") = x +:+ "-kb".
Proof.
  unfold get_server_name.
  assert (Py.endswith (x +:+ "-kb-data") "-kb-data" = true) as ->
    by (apply endswith_app; eauto).
  pose proof (drop_suffix x "-kb-data") as H.
  change (String.length "-kb-data") with 8%nat in H. by rewrite H.
Qed.

Lemma kb_name_of_server_suffixed (x : string) :
  kb_name_of_server (x +:+ "-kb") = Some (x +:+ "-kb-data").
Proof.
  unfold kb_name_of_server.
  assert (Py.endswith (x +:+ "-kb") "-kb" = true) as ->
    by (apply endswith_app; eauto).
  pose proof (drop_suffix x "-kb") as H.
  change (String.length "-kb") with 3%nat in H. by rewrite H.
Qed.

Lemma kb_name_of_server_ends (name kb_name : string) :
  kb_name_of_server name = Some kb_name -> Py.endswith kb_name "-kb-data" = true.
Proof.
  unfold kb_name_of_server. destruct (Py.endswith name "-kb"); [|done].
  intros [= <-]. apply endswith_app. eauto.
Qed.

(** X2.  [list_generated_mcp_servers] recovers the name of a knowledge
    base from the directory [get_server_name] gives its server exactly
    when that name ends in [-kb-data]: every name it lists ends in
    [-kb-data], so the server of a knowledge base named otherwise is
    skipped or listed under another name. *)
Theorem generated_server_listing (w : World) (kb_name : string) :
  (kb_name_of_server (get_server_name kb_name) = Some kb_name <->
     Py.endswith kb_name "-kb-data" = true) /\
  (kb_name ∈ list_generated_mcp_servers w ->
     Py.endswith kb_name "-kb-data" = true) /\
  (Py.endswith kb_name "-kb-data" = true ->
     get_server_name kb_name ∈ servers w ->
     kb_name ∈ list_generated_mcp_servers w).
Proof.
  assert (Hback : Py.endswith kb_name "-kb-data" = true ->
                  kb_name_of_server (get_server_name kb_name) = Some kb_name).
  { intros [x ->]%endswith_app.
    by rewrite get_server_name_suffixed, kb_name_of_server_suffixed. }
  split; [split; [apply kb_name_of_server_ends | exact Hback]|].
  split.
  - unfold list_generated_mcp_servers.
    intros (name & _ & Hname)%list_elem_of_omap.
    by apply kb_name_of_server_ends in Hname.
  - intros Hends Hin. unfold list_generated_mcp_servers.
    apply list_elem_of_omap. exists (get_server_name kb_name).
    split; [by apply elem_of_elements | by apply Hback].
Qed.

Lemma valid_kb_name_app (x y : string) :
  valid_kb_name x = true -> valid_kb_name y = true ->
  valid_kb_name (x +:+ y) = true.
Proof.
  intros [Hx Ex]%valid_kb_name_spec [Hy Ey]%valid_kb_name_spec.
  apply valid_kb_name_spec. rewrite chars_app. split.
  - by apply Forall_app.
  - apply Exists_app. by left.
Qed.

(** X3.  [get_server_name] is not injective on the names
    [knowledge_create] accepts: for every [m], the knowledge bases
    [m-kb] and [kb-m-kb-data] are different, both accepted when [m] is, and
    get the same server directory [kb-m-kb]; the handlers of [server.py]
    compute the same server name. *)
Theorem server_names_collide (m : string) :
  let a := m +:+ "-kb" in
  let b := "kb-" +:+ m +:+ "-kb-data" in
  a <> b /\
  get_server_name a = "kb-" +:+ m +:+ "-kb" /\
  get_server_name b = "kb-" +:+ m +:+ "-kb" /\
  server_display_name a = get_server_name a /\
  server_display_name b = get_server_name b /\
  (valid_kb_name m = true -> valid_kb_name a = true /\ valid_kb_name b = true).
Proof.
  intros a b. subst a b. repeat split.
  - intros H. apply (f_equal String.length) in H.
    rewrite !string_app_length in H. simpl in H. lia.
  - unfold get_server_name.
    destruct (Py.endswith (m +:+ "-kb") "-kb-data") eqn:He; [|done].
    apply endswith_chars in He. rewrite chars_app in He.
    destruct He as [k Hk]. apply (f_equal (@rev ascii)) in Hk.
    rewrite !rev_app_distr in Hk. simpl in Hk. discriminate Hk.
  - rewrite <- (string_app_assoc "kb-" m "-kb-data").
    rewrite get_server_name_suffixed. by rewrite string_app_assoc.
  - apply valid_kb_name_app; [done|reflexivity].
  - apply (valid_kb_name_app "kb-"); [reflexivity|].
    apply valid_kb_name_app; [done|reflexivity].
Qed.


(** ** Removal *)

Lemma rmtree_lookup B p w w' r q :
  rmtree B p w = (w', Ok r) ->
  fs w' !! q = (if decide (p `prefix_of` q) then None else fs w !! q).
Proof.
  unfold rmtree. destruct (fails _ _); [done|]. intros [= <- _]. simpl.
  destruct (decide (p `prefix_of` q)) as [Hp|Hp].
  - apply map_lookup_filter_None. right. intros node _ Hn. by apply Hn.
  - destruct (fs w !! q) as [node|] eqn:Hq.
    + by apply map_lookup_filter_Some.
    + apply map_lookup_filter_None. by left.
Qed.

Lemma rmtree_rest B p w w' r :
  rmtree B p w = (w', r) ->
  servers w' = servers w /\ uuid_count w' = uuid_count w /\
  embed_log w' = embed_log w.
Proof.
  unfold rmtree. destruct (fails _ _); by intros [= <- _].
Qed.

(** What a successful [knowledge_remove] leaves. *)
Lemma handle_knowledge_remove_removed B name w w' :
  handle_knowledge_remove B name w = (w', Removed) ->
  path_exists w [name] = true /\
  (forall q, fs w' !! q = (if decide ([name] `prefix_of` q) then None else fs w !! q)) /\
  (forall s, s ∈ servers w' <-> s ∈ servers w /\ s <> server_display_name name).
Proof.
  unfold handle_knowledge_remove.
  destruct (path_exists w [name]); simpl; [|done].
  destruct (rmtree B [name] w) as [w1 [[]|e]] eqn:Hrm; [|done].
  pose proof (rmtree_rest _ _ _ _ _ Hrm) as (Hs & _ & _).
  pose proof (fun q => rmtree_lookup _ _ _ _ _ q Hrm) as Hfs.
  case_bool_decide as Hin.
  - destruct (fails _ _); [done|]. intros [= <-]. simpl.
    split; [done|]. split; [done|]. intros s.
    by rewrite Hs, elem_of_difference, elem_of_singleton.
  - intros [= <-]. split; [done|]. split; [done|].
    intros s. rewrite Hs in Hin |- *.
    split; [intros H; split; [done|by intros ->] | tauto].
Qed.

Lemma prefix_of_singleton (a : string) (q : path) :
  [a] `prefix_of` q <-> exists rest, q = a :: rest.
Proof. split; intros [k ->]; by exists k. Qed.

(** X4.  When the directory of a knowledge base exists and the two
    deletions succeed, [knowledge_remove] answers success, deletes the
    directory with everything below it and the directory of its server,
    and leaves every other path and every other server as it was; a
    following [knowledge_list] does not show the name. *)
Theorem knowledge_remove_removes (B : Backend) (name : string) (w : World) :
  path_exists w [name] = true ->
  fails B (OpRmtree [name]) = false ->
  fails B (OpRmtree ["servers"; server_display_name name]) = false ->
  exists w',
    handle_knowledge_remove B name w = (w', Removed) /\
    (forall rest, fs w' !! (name :: rest) = None) /\
    (forall other rest, other <> name ->
       fs w' !! (other :: rest) = fs w !! (other :: rest)) /\
    (server_display_name name ∉ servers w') /\
    (forall s, s <> server_display_name name -> s ∈ servers w' <-> s ∈ servers w) /\
    ~ shown_by_list w' name.
Proof.
  intros Hex Hf1 Hf2.
  destruct (handle_knowledge_remove B name w) as [w' r] eqn:Hr.
  assert (r = Removed) as ->.
  { revert Hr. unfold handle_knowledge_remove. rewrite Hex. simpl.
    unfold rmtree. rewrite Hf1. case_bool_decide; [rewrite Hf2|]; by intros [= _ <-]. }
  apply handle_knowledge_remove_removed in Hr as (_ & Hfs & Hs).
  exists w'. split; [done|]. split_and!.
  - intros rest. rewrite Hfs. rewrite decide_True; [done|].
    apply prefix_of_singleton. eauto.
  - intros other rest Hne. rewrite Hfs. rewrite decide_False; [done|].
    intros [k [= ? _]]%prefix_of_singleton. done.
  - rewrite Hs. tauto.
  - intros s Hne. rewrite Hs. tauto.
  - intros (metadata & Hm)%shown_by_list_metadata.
    rewrite Hfs in Hm. rewrite decide_True in Hm; [done|].
    apply prefix_of_singleton. eauto.
Qed.

Lemma knowledge_remove_removes_witness :
  exists w',
    handle_knowledge_remove quiet_backend "docs-kb" two_kb_world = (w', Removed) /\
    (forall rest, fs w' !! ("docs-kb" :: rest) = None) /\
    (forall other rest, other <> "docs-kb" ->
       fs w' !! (other :: rest) = fs two_kb_world !! (other :: rest)) /\
    (server_display_name "docs-kb" ∉ servers w') /\
    (forall s, s <> server_display_name "docs-kb" ->
               s ∈ servers w' <-> s ∈ servers two_kb_world) /\
    ~ shown_by_list w' "docs-kb".
Proof.
  apply (knowledge_remove_removes quiet_backend "docs-kb" two_kb_world);
    reflexivity.
Defined.

(** X5.  Removing a knowledge base removes the server directory its name
    maps to, whoever it was generated for: after [m-kb] is removed, the
    knowledge base [kb-m-kb-data] is still listed with the same metadata,
    but without its server. *)
Theorem remove_takes_colliding_server (B : Backend) (m : string) (w w' : World)
    (e : KbEntry) :
  handle_knowledge_remove B (m +:+ "-kb") w = (w', Removed) ->
  list_entry w ("kb-" +:+ m +:+ "-kb-data") = Some e ->
  list_entry w' ("kb-" +:+ m +:+ "-kb-data")
  = Some {| kb_name := kb_name e; kb_path := kb_path e;
            kb_documents := kb_documents e;
            kb_embedding_model := kb_embedding_model e;
            kb_created_at := kb_created_at e;
            kb_source_url := kb_source_url e;
            kb_has_server := false |}.
Proof.
  intros (_ & Hfs & Hs)%handle_knowledge_remove_removed.
  set (a := m +:+ "-kb") in *. set (b := "kb-" +:+ m +:+ "-kb-data").
  assert (Hab : a <> b).
  { intros H. apply (f_equal String.length) in H. unfold a, b in H.
    rewrite !string_app_length in H. simpl in H. lia. }
  assert (Hsame : server_display_name b = server_display_name a).
  { change server_display_name with get_server_name.
    unfold a, b. rewrite <- (string_app_assoc "kb-" m "-kb-data").
    rewrite get_server_name_suffixed, string_app_assoc.
    unfold get_server_name.
    destruct (Py.endswith (m +:+ "-kb") "-kb-data") eqn:He; [|done].
    apply endswith_chars in He. rewrite chars_app in He.
    destruct He as [k Hk]. apply (f_equal (@rev ascii)) in Hk.
    rewrite !rev_app_distr in Hk. simpl in Hk. discriminate Hk. }
  unfold list_entry, is_dir.
  rewrite !Hfs. rewrite !decide_False
    by (intros [k [= ? _]]%prefix_of_singleton; done).
  destruct (fs w !! [b]) as [[| |]|]; try done;
    destruct (fs w !! [b; "metadata.json"]) as [[|[]|]|]; try done;
    intros [= <-]; simpl; do 2 f_equal;
    apply bool_decide_eq_false; rewrite Hs, Hsame; tauto.
Qed.

Lemma remove_takes_colliding_server_witness :
  exists e w',
    list_entry two_kb_world "kb-docs-kb-data" = Some e /\
    kb_has_server e = true /\
    handle_knowledge_remove quiet_backend "docs-kb" two_kb_world = (w', Removed) /\
    list_entry w' "kb-docs-kb-data"
    = Some {| kb_name := kb_name e; kb_path := kb_path e;
              kb_documents := kb_documents e;
              kb_embedding_model := kb_embedding_model e;
              kb_created_at := kb_created_at e;
              kb_source_url := kb_source_url e;
              kb_has_server := false |}.
Proof.
  eexists _, _. split; [reflexivity|]. split; [reflexivity|].
  split; [reflexivity|].
  apply (remove_takes_colliding_server quiet_backend "docs" two_kb_world);
    reflexivity.
Defined.


(** ** File names for saved pages *)

Lemma chars_filter_chars (f : ascii -> bool) (s : string) :
  chars (filter_chars f s) = filter (fun a => f a = true) (chars s).
Proof.
  induction s as [|a s IH]; simpl; [done|].
  destruct (f a) eqn:Ha.
  - rewrite filter_cons_True by done. simpl. by rewrite IH.
  - rewrite filter_cons_False by (by rewrite Ha). done.
Qed.

Lemma chars_replace_char (c d : ascii) (s : string) :
  chars (replace_char c d s)
  = map (fun a => if Ascii.eqb a c then d else a) (chars s).
Proof. induction s as [|a s IH]; simpl; [done|]. by rewrite IH. Qed.

Lemma chars_substring_0 (n : nat) (s : string) :
  chars (String.substring 0 n s) = take n (chars s).
Proof.
  revert n. induction s as [|a s IH]; intros [|n]; simpl; try done.
  by rewrite IH.
Qed.

Lemma chars_str_slice_to (n : Z) (s : string) :
  exists k, chars (str_slice_to n s) = take k (chars s) /\
            (0 <= n -> k = Z.to_nat n).
Proof.
  unfold str_slice_to. destruct (0 <=? n) eqn:Hn.
  - eexists. split; [apply chars_substring_0|done].
  - eexists. split; [apply chars_substring_0|]. intros H%Z.leb_le. congruence.
Qed.

Lemma chars_lstrip_char (c : ascii) (s : string) :
  chars (lstrip_char c s) `suffix_of` chars s /\
  head (chars (lstrip_char c s)) <> Some c.
Proof.
  induction s as [|a s [IH1 IH2]]; simpl; [done|].
  destruct (Ascii.eqb_spec a c) as [->|Hne].
  - split; [by apply suffix_cons_r | done].
  - split; [done|]. simpl. congruence.
Qed.

Lemma chars_rstrip_char (c : ascii) (s : string) :
  chars (Py.rstrip_char c s) `prefix_of` chars s /\
  last (chars (Py.rstrip_char c s)) <> Some c /\
  (head (chars s) <> Some c -> head (chars (Py.rstrip_char c s)) = head (chars s)).
Proof.
  induction s as [|a s (IH1 & IH2 & IH3)]; simpl; [done|].
  destruct (String.eqb_spec (Py.rstrip_char c s) "") as [He|He].
  - rewrite He in *. simpl.
    destruct (Ascii.eqb_spec a c) as [->|Hne]; simpl.
    + split; [apply prefix_nil|]. split; [done|]. intros H. by destruct H.
    + split; [apply prefix_cons, prefix_nil|]. split; [congruence|done].
  - simpl. split; [by apply prefix_cons|]. split; [|done].
    destruct (Py.rstrip_char c s) as [|b r]; [done|]. exact IH2.
Qed.

Lemma filename_char_replaced (a : ascii) :
  filename_char a = true ->
  isalnum_char (if Ascii.eqb a " " then "_"%char else a) = true \/
  (if Ascii.eqb a " " then "_"%char else a) = "-"%char \/
  (if Ascii.eqb a " " then "_"%char else a) = "_"%char.
Proof.
  unfold filename_char. intros H.
  destruct (Ascii.eqb a " ") eqn:Hs; [auto|]. rewrite orb_false_r in H.
  apply orb_true_iff in H as [H|H%Ascii.eqb_eq]; [|auto].
  apply orb_true_iff in H as [H|H%Ascii.eqb_eq]; auto.
Qed.

(** X6.  On a name of ASCII characters, [safe_filename] never returns the
    empty string; what it returns is made of letters, digits, hyphens and
    underscores, neither starts nor ends with an underscore, and, for a
    length limit that is not negative, is no longer than the limit or,
    when it is the fallback [untitled], than eight characters. *)
Theorem safe_filename_safe (name : string) (max_length : Z) :
  is_ascii name = true ->
  let safe := safe_filename name max_length in
  safe <> "" /\
  Forall (fun c => isalnum_char c = true \/ c = "-"%char \/ c = "_"%char)
         (chars safe) /\
  head (chars safe) <> Some "_"%char /\
  last (chars safe) <> Some "_"%char /\
  (0 <= max_length ->
   Z.of_nat (String.length safe) <= max_length \/ safe = "untitled").
Proof.
  intros _. unfold safe_filename.
  set (filtered := replace_char " " "_" (filter_chars filename_char name)).
  assert (Hok : Forall (fun c => isalnum_char c = true \/ c = "-"%char \/ c = "_"%char)
                       (chars filtered)).
  { unfold filtered. rewrite chars_replace_char, chars_filter_chars.
    apply Forall_fmap, Forall_forall. intros a [Ha _]%list_elem_of_filter.
    by apply filename_char_replaced. }
  destruct (chars_str_slice_to max_length filtered) as (k & Hk & Hlen).
  set (cut := str_slice_to max_length filtered) in *.
  destruct (chars_lstrip_char "_" cut) as [Hl1 Hl2].
  destruct (chars_rstrip_char "_" (lstrip_char "_" cut)) as (Hr1 & Hr2 & Hr3).
  fold (strip_char "_" cut) in Hr1, Hr2, Hr3.
  destruct (Py.truthy (strip_char "_" cut)) eqn:Ht; simpl.
  2:{ split; [done|]. split; [|split; [done|split; [done|auto]]].
      repeat constructor; by left. }
  split; [by apply truthy_chars in Ht; destruct (strip_char "_" cut)|].
  split.
  { destruct Hr1 as [k1 Hk1]. destruct Hl1 as [k2 Hk2].
    rewrite Hk in Hk2. apply (Forall_take _ k) in Hok. rewrite Hk2, Hk1 in Hok.
    apply Forall_app in Hok as [_ Hok]. by apply Forall_app in Hok as [Hok _]. }
  split; [by rewrite Hr3|]. split; [done|].
  intros Hn. left. rewrite <- chars_length.
  apply prefix_length in Hr1. apply suffix_length in Hl1.
  rewrite Hk, length_take, (Hlen Hn) in Hl1. lia.
Qed.

Lemma safe_filename_safe_witness :
  let safe := safe_filename "_Getting started: part 2/3_" 16 in
  safe <> "" /\
  Forall (fun c => isalnum_char c = true \/ c = "-"%char \/ c = "_"%char)
         (chars safe) /\
  head (chars safe) <> Some "_"%char /\
  last (chars safe) <> Some "_"%char /\
  (0 <= 16 ->
   Z.of_nat (String.length safe) <= 16 \/ safe = "untitled").
Proof.
  apply (safe_filename_safe "_Getting started: part 2/3_" 16). reflexivity.
Defined.

Example safe_filename_ex :
  safe_filename "_Getting started: part 2/3_" 16 = "Getting_started" /\
  safe_filename "?!" 50 = "untitled".
Proof. split; reflexivity. Qed.


(** ** Saving pages *)

Lemma pretty_N_go_app (x : N) (s t : string) :
  pretty_N_go x s +:+ t = pretty_N_go x (s +:+ t).
Proof.
  revert s. induction (N.lt_wf_0 x) as [x _ IH]; intros s.
  destruct (decide (x = 0)%N) as [->|Hx]; [by rewrite !pretty_N_go_0|].
  rewrite (pretty_N_go_step x s), (pretty_N_go_step x (s +:+ t)) by lia.
  rewrite IH; [reflexivity|]. apply N.div_lt; lia.
Qed.

Lemma pretty_N_char_digit (d : N) :
  (d < 10)%N ->
  is_digit (pretty_N_char d) = true /\
  N.of_nat (nat_of_ascii (pretty_N_char d) - 48) = d.
Proof.
  intros Hd.
  assert (d = 0 \/ d = 1 \/ d = 2 \/ d = 3 \/ d = 4 \/ d = 5 \/ d = 6 \/ d = 7
          \/ d = 8 \/ d = 9)%N as H by lia.
  repeat (destruct H as [->|H]; [by vm_compute|]). subst. by vm_compute.
Qed.

Lemma leading_number_pretty_N_go (x : N) (s : string) :
  leading_number 0 (pretty_N_go x s) = leading_number x s.
Proof.
  revert s. induction (N.lt_wf_0 x) as [x _ IH]; intros s.
  destruct (decide (x = 0)%N) as [->|Hx]; [by rewrite pretty_N_go_0|].
  rewrite pretty_N_go_step by lia.
  rewrite IH by (apply N.div_lt; lia). simpl.
  destruct (pretty_N_char_digit (x `mod` 10)) as [-> ->];
    [apply N.mod_lt; lia|].
  f_equal. rewrite N.mul_comm. symmetry. apply N.div_mod. lia.
Qed.

Lemma leading_number_pretty (i : nat) (t : string) :
  leading_number 0 (pretty i +:+ t) = leading_number (N.of_nat i) t.
Proof.
  unfold pretty, pretty_nat, pretty, pretty_N.
  destruct (decide (N.of_nat i = 0)%N) as [->|Hi]; [done|].
  rewrite pretty_N_go_app. apply leading_number_pretty_N_go.
Qed.

Lemma leading_number_zeros (n : nat) (t : string) :
  leading_number 0 (zeros n +:+ t) = leading_number 0 t.
Proof. induction n as [|n IH]; [done|]. exact IH. Qed.

Lemma input_file_name_number (i : nat) (page : Page) :
  leading_number 0 (input_file_name i page) = N.of_nat i.
Proof.
  unfold input_file_name, format_04d.
  rewrite string_app_assoc, leading_number_zeros, leading_number_pretty.
  done.
Qed.

Lemma input_file_name_inj (i j : nat) (p q : Page) :
  input_file_name i p = input_file_name j q -> i = j.
Proof.
  intros H. apply (f_equal (leading_number 0)) in H.
  rewrite !input_file_name_number in H. lia.
Qed.

Lemma save_to_input_dir_snoc (pages : list Page) (page : Page)
    (dir : gmap string string) :
  save_to_input_dir (pages ++ [page]) dir
  = <[input_file_name (length pages) page := input_file_text page]>
      (save_to_input_dir pages dir).
Proof.
  unfold save_to_input_dir. rewrite imap_app, foldl_app. simpl.
  by rewrite Nat.add_0_r.
Qed.

Lemma save_to_input_dir_lookup (pages : list Page) (dir : gmap string string) :
  (forall i page, pages !! i = Some page ->
     save_to_input_dir pages dir !! input_file_name i page
     = Some (input_file_text page)) /\
  (forall name,
     (forall i page, pages !! i = Some page -> name <> input_file_name i page) ->
     save_to_input_dir pages dir !! name = dir !! name).
Proof.
  induction pages as [|last pages [IH1 IH2]] using rev_ind.
  - split; [by intros i page Hi|]. done.
  - rewrite save_to_input_dir_snoc. split.
    + intros i page Hi.
      destruct (decide (i = length pages)) as [->|Hne].
      * rewrite list_lookup_middle in Hi by done. injection Hi as <-.
        apply lookup_insert_eq.
      * rewrite lookup_insert_ne
          by (intros H; apply input_file_name_inj in H; congruence).
        apply IH1. apply lookup_lt_Some in Hi as Hlt.
        rewrite length_app in Hlt. simpl in Hlt.
        rewrite lookup_app_l in Hi by lia. done.
    + intros name Hname.
      rewrite lookup_insert_ne.
      * apply IH2. intros i page Hi. apply Hname.
        by apply lookup_app_l_Some.
      * intros H. apply (Hname (length pages) last); [|done].
        by apply list_lookup_middle.
Qed.

(** X7.  For pages whose titles are made of ASCII characters,
    [save_to_input_dir] writes one file per page and no page overwrites
    another: the file names, which start with the ordinal of the page, are
    pairwise different, each holds the text of its page when the function
    returns, and every other file of the directory is left as it was. *)
Theorem save_to_input_dir_files (pages : list Page) (dir : gmap string string) :
  Forall (fun page => is_ascii (page_title page) = true) pages ->
  let dir' := save_to_input_dir pages dir in
  NoDup (imap input_file_name pages) /\
  (forall i page, pages !! i = Some page ->
     dir' !! input_file_name i page = Some (input_file_text page)) /\
  (forall name, name ∉ imap input_file_name pages -> dir' !! name = dir !! name).
Proof.
  intros _. simpl. split; [|split].
  - apply NoDup_alt. intros i j name Hi Hj.
    rewrite list_lookup_imap in Hi, Hj.
    destruct (pages !! i) as [p|]; [|done].
    destruct (pages !! j) as [q|]; [|done].
    simpl in Hi, Hj. injection Hi as <-. injection Hj as Hj.
    symmetry. by apply input_file_name_inj in Hj.
  - apply save_to_input_dir_lookup.
  - intros name Hname. apply save_to_input_dir_lookup.
    intros i page Hi ->. apply Hname.
    apply list_elem_of_lookup. exists i.
    by rewrite list_lookup_imap, Hi.
Qed.

Lemma save_to_input_dir_files_witness :
  let pages :=
    [ {| page_url := "https://a.com"; page_title := "Home"; page_markdown := "home" |};
      {| page_url := "https://a.com/2"; page_title := "Home"; page_markdown := "two" |} ] in
  let dir' := save_to_input_dir pages ∅ in
  NoDup (imap input_file_name pages) /\
  (forall i page, pages !! i = Some page ->
     dir' !! input_file_name i page = Some (input_file_text page)) /\
  (forall name, name ∉ imap input_file_name pages ->
     dir' !! name = (∅ : gmap string string) !! name).
Proof.
  apply (save_to_input_dir_files
           [ {| page_url := "https://a.com"; page_title := "Home"; page_markdown := "home" |};
             {| page_url := "https://a.com/2"; page_title := "Home"; page_markdown := "two" |} ]
           ∅).
  repeat constructor.
Defined.

(** X8.  Saving through [WebsiteCrawler.save_to_input_dir] the pages
    that [WebsiteCrawler.crawl_website] has converted writes the files the
    module-level [save_to_input_dir] writes for the pages before
    conversion: the conversion of [markdown] into [content] is undone. *)
Theorem crawler_save_round_trip (pages : list Page) (dir : gmap string string) :
  map unconvert (map WebsiteCrawler.convert pages) = pages /\
  crawler_save_to_input_dir (map WebsiteCrawler.convert pages) dir
  = save_to_input_dir pages dir.
Proof.
  assert (H : map unconvert (map WebsiteCrawler.convert pages) = pages).
  { induction pages as [|[] pages IH]; simpl; [done|]. by rewrite IH. }
  split; [exact H|]. unfold crawler_save_to_input_dir. by rewrite H.
Qed.


(** ** Recursive crawl: the site and the edges of the budgets *)

Lemma next_level_on_site base_domain start_url depth r :
  0 <= depth ->
  Forall (on_site base_domain start_url) (next_level base_domain depth r).
Proof.
  intros Hd. unfold next_level. apply Forall_forall. intros [u d] Hin.
  apply list_elem_of_omap in Hin as (href & _ & Hhref).
  destruct href as [link|]; [|done].
  destruct (Py.truthy link); [|done]. simpl in Hhref.
  destruct (Py.startswith link base_domain) eqn:Hs; [|done].
  injection Hhref as <- <-. right. simpl. split; [done|lia].
Qed.

Lemma on_site_depth base_domain start_url e :
  on_site base_domain start_url e -> 0 <= e.2.
Proof. intros [->|[_ H]]; simpl; lia. Qed.

Lemma loop_body_site_inv W base_domain start_url max_depth st :
  site_inv base_domain start_url st ->
  site_inv base_domain start_url (loop_body W base_domain max_depth st).
Proof.
  intros Hinv. unfold loop_body.
  destruct (to_visit st) as [|[url depth] rest] eqn:Hto; [done|].
  destruct Hinv as [Hq Hl Hp]. rewrite Hto in Hq.
  apply Forall_cons in Hq as [He Hq].
  destruct (bool_decide (url ∈ visited st) || (max_depth <? depth)); [by split|].
  assert (Hl' : Forall (on_site base_domain start_url)
                  (fetch_log st ++ [(url, depth)])).
  { apply Forall_app. split; [done|]. constructor; [done|constructor]. }
  assert (Hp' : map page_url (pages st)
                  `sublist_of` (fetch_log st ++ [(url, depth)]).*1).
  { rewrite fmap_app. by apply sublist_inserts_r. }
  destruct (arun W (length (fetch_log st)) url) as [r|]; [|by split].
  destruct (page_of url r) as [p|] eqn:Hpage; [|by split].
  split; simpl; [|done|].
  - apply Forall_app. split; [done|].
    destruct (depth <? max_depth); [|constructor].
    apply next_level_on_site. by apply on_site_depth in He.
  - rewrite map_app, fmap_app. simpl. rewrite (page_of_url _ _ _ Hpage).
    by apply sublist_app.
Qed.

Lemma crawl_recursive_run_site_inv W start_url max_pages max_depth :
  site_inv (get_base_domain W start_url) start_url
    (crawl_recursive_run W start_url max_pages max_depth).
Proof.
  unfold crawl_recursive_run. apply crawl_loop_rule.
  - intros s _. apply loop_body_site_inv.
  - split; simpl; [|constructor|done].
    constructor; [by left|constructor].
Qed.

(** X9.  A recursive crawl never leaves the site of its seed: every URL
    it fetches is the seed, at depth 0, or a URL that starts with the
    scheme and host of the seed, at depth 1 or more; so every page of the
    result is the seed's or has such a URL. *)
Theorem crawl_recursive_stays_on_site (W : Web) (start_url : string)
    (max_pages max_depth : Z) :
  let st := crawl_recursive_run W start_url max_pages max_depth in
  let base_domain := get_base_domain W start_url in
  (forall url depth, (url, depth) ∈ fetch_log st ->
     (url = start_url /\ depth = 0) \/
     (Py.startswith url base_domain = true /\ 1 <= depth)) /\
  (forall p, p ∈ crawl_recursive W start_url max_pages max_depth ->
     page_url p = start_url \/ Py.startswith (page_url p) base_domain = true).
Proof.
  intros st base_domain.
  destruct (crawl_recursive_run_site_inv W start_url max_pages max_depth)
    as [_ Hl Hp].
  fold st in Hl, Hp. rewrite Forall_forall in Hl.
  assert (Hlog : forall url depth, (url, depth) ∈ fetch_log st ->
     (url = start_url /\ depth = 0) \/
     (Py.startswith url base_domain = true /\ 1 <= depth)).
  { intros url depth [H|H]%Hl; [left; by injection H | by right]. }
  split; [exact Hlog|].
  intros p Hin.
  assert (Hu : page_url p ∈ (fetch_log st).*1).
  { eapply elem_of_sublist; [|exact Hp]. by apply (list_elem_of_fmap_2 page_url). }
  apply list_elem_of_fmap in Hu as ([u depth] & Hu & Hin'). simpl in Hu. subst u.
  destruct (Hlog _ _ Hin') as [[-> _]|[-> _]]; auto.
Qed.


Lemma loop_cond_start start_url max_pages :
  loop_cond max_pages (crawl_start start_url) = (0 <? max_pages).
Proof. done. Qed.

(** The first iteration of the loop. *)
Lemma loop_body_start W base_domain start_url max_depth :
  0 <= max_depth ->
  let st := loop_body W base_domain max_depth (crawl_start start_url) in
  fetch_log st = [(start_url, 0)] /\
  pages st = match arun W 0 start_url with
             | Fetched r => option_list (page_of start_url r)
             | FetchRaises => []
             end /\
  (max_depth = 0 -> to_visit st = []).
Proof.
  intros Hd. unfold loop_body. simpl.
  rewrite bool_decide_eq_false_2 by apply not_elem_of_empty.
  assert ((max_depth <? 0) = false) as -> by (apply Z.ltb_ge; lia). simpl.
  destruct (arun W 0 start_url) as [r|]; [|done].
  destruct (page_of start_url r) as [p|]; [|done].
  simpl. split; [done|]. split; [done|]. by intros ->.
Qed.

Lemma loop_body_log W base_domain max_depth st :
  exists more, fetch_log (loop_body W base_domain max_depth st)
               = fetch_log st ++ more.
Proof.
  unfold loop_body.
  destruct (to_visit st) as [|[url depth] rest]; [exists []; by rewrite app_nil_r|].
  destruct (_ || _); [exists []; by rewrite app_nil_r|].
  destruct (arun W _ url) as [r|]; [|by eexists].
  destruct (page_of url r); by eexists.
Qed.

(** X10.  The edges of the budgets of a recursive crawl: with a page
    budget of 0 or less, or a negative depth limit, nothing is fetched and
    the result is empty; with a positive page budget and a depth limit of
    0 or more the seed is the first URL fetched; with a depth limit of 0
    it is the only one, and the result is the seed's page or empty. *)
Theorem crawl_recursive_budget_edges (W : Web) (start_url : string)
    (max_pages max_depth : Z) :
  let st := crawl_recursive_run W start_url max_pages max_depth in
  (max_pages <= 0 \/ max_depth < 0 ->
     fetch_log st = [] /\ crawl_recursive W start_url max_pages max_depth = []) /\
  (0 < max_pages -> 0 <= max_depth -> head (fetch_log st) = Some (start_url, 0)) /\
  (0 < max_pages -> max_depth = 0 ->
     fetch_log st = [(start_url, 0)] /\
     crawl_recursive W start_url max_pages max_depth
     = match arun W 0 start_url with
       | Fetched r => option_list (page_of start_url r)
       | FetchRaises => []
       end).
Proof.
  intros st. unfold crawl_recursive. fold st. subst st.
  unfold crawl_recursive_run. set (base := get_base_domain W start_url).
  split; [|split].
  - intros Hedge.
    destruct (crawl_loop_rule W base max_pages max_depth
                (fun s => fetch_log s = [] /\ pages s = [] /\
                          (0 < max_pages -> max_depth < 0 /\
                                            Forall (fun e => 0 <= e.2) (to_visit s)))
                (crawl_start start_url)) as [(Hl & Hp & _) _]; [| |done].
    + intros s [_ Hlt%Z.ltb_lt]%andb_true_iff (Hl & Hp & Hq).
      rewrite Hp in Hlt. simpl in Hlt.
      destruct (Hq Hlt) as [Hd Hall]. unfold loop_body.
      destruct (to_visit s) as [|[url depth] rest] eqn:Hto;
        [split; [done|split; [done|by rewrite Hto]]|].
      apply Forall_cons in Hall as [Hd0 Hall]. simpl in Hd0.
      assert ((max_depth <? depth) = true) as -> by (apply Z.ltb_lt; lia).
      rewrite orb_true_r. simpl. auto.
    + split; [done|]. split; [done|]. intros Hn.
      split; [lia|]. by repeat constructor.
  - intros Hn Hd.
    destruct (crawl_loop_rule W base max_pages max_depth (seed_first start_url)
                (crawl_start start_url)) as [[->|H] Hc]; [| by left | | done].
    + intros s Hcond [->|Hhead].
      * right. by rewrite (proj1 (loop_body_start W base start_url max_depth Hd)).
      * right. destruct (loop_body_log W base max_depth s) as [more ->].
        by destruct (fetch_log s).
    + rewrite loop_cond_start in Hc. apply Z.ltb_ge in Hc. lia.
  - intros Hn ->.
    destruct (crawl_loop_rule W base max_pages 0
                (fun s => s = crawl_start start_url \/
                          (to_visit s = [] /\ fetch_log s = [(start_url, 0)] /\
                           pages s = match arun W 0 start_url with
                                     | Fetched r => option_list (page_of start_url r)
                                     | FetchRaises => []
                                     end))
                (crawl_start start_url)) as [[->|(_ & Hl & Hp)] Hc];
      [| by left | | done].
    + intros s Hcond [->|(Hto & _)].
      * right.
        destruct (loop_body_start W base start_url 0) as (Hl & Hp & Hto); [done|].
        split; [by apply Hto|done].
      * unfold loop_cond in Hcond. rewrite Hto in Hcond. done.
    + rewrite loop_cond_start in Hc. apply Z.ltb_ge in Hc. lia.
Qed.


(** ** Sitemap crawl: the pages and the page budget *)

Lemma pages_pointwise_cons W i url urls :
  pages_pointwise W i (url :: urls)
  = option_list (outcome_page url (arun W i url)) ++ pages_pointwise W (S i) urls.
Proof.
  unfold pages_pointwise. rewrite imap_cons. simpl. rewrite Nat.add_0_r.
  assert (imap ((fun j u => outcome_page u (arun W (i + j) u)) ∘ S) urls
          = imap (fun j u => outcome_page u (arun W (S i + j) u)) urls) as ->.
  { apply imap_ext. intros j u _. simpl. by rewrite Nat.add_succ_r. }
  by destruct (outcome_page url (arun W i url)).
Qed.

Lemma outcome_page_url url outcome p :
  outcome_page url outcome = Some p -> page_url p = url.
Proof.
  destruct outcome as [r|]; [|done].
  rewrite <- page_of_outcome. apply page_of_url.
Qed.

Lemma pages_pointwise_sublist W i urls :
  map page_url (pages_pointwise W i urls) `sublist_of` urls.
Proof.
  revert i. induction urls as [|url urls IH]; intros i; [done|].
  rewrite pages_pointwise_cons.
  destruct (outcome_page url (arun W i url)) as [p|] eqn:Hp; simpl.
  - rewrite (outcome_page_url _ _ _ Hp). apply sublist_skip, IH.
  - apply sublist_cons, IH.
Qed.

Lemma slice_to_sublist {A} (n : Z) (l : list A) : Py.slice_to n l `sublist_of` l.
Proof. unfold Py.slice_to. destruct (0 <=? n); apply sublist_take. Qed.

Lemma slice_to_length {A} (n : Z) (l : list A) :
  0 <= n -> Z.of_nat (length (Py.slice_to n l)) <= n.
Proof.
  intros Hn. unfold Py.slice_to.
  assert ((0 <=? n) = true) as -> by (by apply Z.leb_le).
  rewrite length_take. lia.
Qed.

(** X11.  A sitemap crawl fetches the URLs of the resolved sitemap up to
    the page budget and returns at most one page per URL, in the order of
    the sitemap.  A budget of 0 or more bounds the number of pages; a
    negative budget [-k] does not make the crawl empty: it drops the last
    [k] URLs of the sitemap and crawls the others. *)
Theorem crawl_from_sitemap_pages (W : Web) (depth : nat) (sitemap_url : string)
    (max_pages : Z) (urls : list string) :
  extract_sitemap_urls W depth sitemap_url = Some urls ->
  exists pages,
    crawl_from_sitemap W depth sitemap_url max_pages = Some pages /\
    map page_url pages `sublist_of` urls /\
    (0 <= max_pages ->
       pages = crawl_urls W (take (Z.to_nat max_pages) urls) /\
       Z.of_nat (length pages) <= max_pages) /\
    (max_pages < 0 ->
       pages = crawl_urls W (take (length urls - Z.to_nat (- max_pages)) urls)).
Proof.
  intros Hurls. unfold crawl_from_sitemap. rewrite Hurls.
  eexists. split; [reflexivity|].
  assert (Hsub : map page_url (crawl_urls W (Py.slice_to max_pages urls))
                 `sublist_of` Py.slice_to max_pages urls).
  { rewrite crawl_urls_pointwise. apply pages_pointwise_sublist. }
  split; [|split].
  - etrans; [exact Hsub | apply slice_to_sublist].
  - intros Hn. split.
    + unfold Py.slice_to. by rewrite (proj2 (Z.leb_le 0 max_pages) Hn).
    + apply sublist_length in Hsub. rewrite length_map in Hsub.
      pose proof (slice_to_length max_pages urls Hn). lia.
  - intros Hn. unfold Py.slice_to.
    assert ((0 <=? max_pages) = false) as -> by (apply Z.leb_gt; lia). done.
Qed.

Lemma crawl_from_sitemap_pages_witness :
  exists pages,
    crawl_from_sitemap nested_web 2 "https://example.com/sitemap.xml" (-1)
    = Some pages /\
    map page_url pages
      `sublist_of` ["https://example.com/p1"; "https://example.com/p2";
                    "https://example.com/about"] /\
    (0 <= -1 ->
       pages = crawl_urls nested_web
                 (take (Z.to_nat (-1))
                    ["https://example.com/p1"; "https://example.com/p2";
                     "https://example.com/about"]) /\
       Z.of_nat (length pages) <= -1) /\
    (-1 < 0 ->
       pages = crawl_urls nested_web
                 (take (length ["https://example.com/p1"; "https://example.com/p2";
                                "https://example.com/about"] - Z.to_nat (- -1))
                    ["https://example.com/p1"; "https://example.com/p2";
                     "https://example.com/about"])).
Proof.
  apply (crawl_from_sitemap_pages nested_web 2 "https://example.com/sitemap.xml" (-1)).
  reflexivity.
Defined.

(** X12.  A crawl with a page budget of 0 or more returns at most that
    many pages, whichever strategy is detected; so with a budget of 0
    [knowledge_create] creates nothing: when it answers, the file system,
    the servers and the counters are as before and the answer is not a
    success. *)
Theorem crawl_website_budget (B : Backend) (W : Web) (depth : nat) (url : string)
    (max_pages : Z) :
  0 <= max_pages ->
  (forall pages, crawl_website W depth url max_pages = Some (Ok pages) ->
     Z.of_nat (length pages) <= max_pages) /\
  (forall max_depth pages,
     WebsiteCrawler.crawl_website
       (WebsiteCrawler.init (Some max_pages) max_depth) W depth url
     = Some (Ok pages) ->
     Z.of_nat (length pages) <= max_pages) /\
  (forall args w w' r,
     arg_max_pages args = max_pages -> arg_url args = url -> max_pages = 0 ->
     handle_knowledge_create B W depth args w = Some (w', r) ->
     w' = w /\ create_succeeded r = false).
Proof.
  intros Hn.
  assert (H1 : forall pages, crawl_website W depth url max_pages = Some (Ok pages) ->
                 Z.of_nat (length pages) <= max_pages).
  { intros pages. unfold crawl_website.
    destruct (detect_strategy W url) as [[[] discovered]|e]; [| |done].
    - destruct (extract_sitemap_urls W depth discovered) as [urls|] eqn:Hurls.
      + destruct (crawl_from_sitemap_pages W depth discovered max_pages urls Hurls)
          as (ps & -> & _ & Hlen & _).
        intros [= <-]. by apply Hlen.
      + unfold crawl_from_sitemap. by rewrite Hurls.
    - intros [= <-].
      apply (inv_budget _ _ _
               (crawl_recursive_run_inv W discovered max_pages default_max_depth Hn)). }
  assert (H2 : forall max_depth pages,
     WebsiteCrawler.crawl_website
       (WebsiteCrawler.init (Some max_pages) max_depth) W depth url
     = Some (Ok pages) ->
     Z.of_nat (length pages) <= max_pages).
  { intros max_depth pages. unfold WebsiteCrawler.crawl_website. simpl.
    destruct (crawl_website W depth url max_pages) as [[ps|e]|] eqn:Hc; [|done..].
    intros [= <-]. rewrite length_map. by apply H1. }
  split; [exact H1|]. split; [exact H2|].
  intros args w w' r Hmax Hurl Hzero. unfold handle_knowledge_create.
  destruct (negb (valid_kb_name (arg_kb_name args))); [by intros [= <- <-]|].
  destruct (path_exists w [arg_kb_name args]); [by intros [= <- <-]|].
  rewrite Hmax, Hurl.
  destruct (WebsiteCrawler.crawl_website _ W depth url) as [[pages|e]|] eqn:Hc;
    [| by intros [= <- <-] | done].
  apply H2 in Hc. destruct pages as [|p ps]; [|simpl in Hc; lia].
  by intros [= <- <-].
Qed.

Lemma crawl_website_budget_witness :
  (forall pages, crawl_website small_site_web 0 "a.com" 0 = Some (Ok pages) ->
     Z.of_nat (length pages) <= 0) /\
  (forall max_depth pages,
     WebsiteCrawler.crawl_website
       (WebsiteCrawler.init (Some 0) max_depth) small_site_web 0 "a.com"
     = Some (Ok pages) ->
     Z.of_nat (length pages) <= 0) /\
  (forall args w w' r,
     arg_max_pages args = 0 -> arg_url args = "a.com" -> 0 = 0 ->
     handle_knowledge_create quiet_backend small_site_web 0 args w = Some (w', r) ->
     w' = w /\ create_succeeded r = false).
Proof.
  apply (crawl_website_budget quiet_backend small_site_web 0 "a.com" 0). lia.
Defined.


(** ** Sitemap resolution on graphs without cycles *)

Lemma splice_sitemaps_concat resolve urls subs all_urls :
  Forall2 (fun url sub => if is_sub_sitemap url then resolve url = Some sub
                          else sub = [url]) urls subs ->
  splice_sitemaps resolve urls all_urls = Some (all_urls ++ concat subs).
Proof.
  intros H. revert all_urls.
  induction H as [|url sub urls subs Hsub _ IH]; intros all_urls; simpl.
  - by rewrite app_nil_r.
  - destruct (is_sub_sitemap url).
    + rewrite Hsub, IH. by rewrite app_assoc.
    + subst sub. rewrite IH. by rewrite <- app_assoc.
Qed.

(** X13.  On a sitemap graph without infinite paths, given by a rank that
    decreases from every sitemap to the nested sitemaps it lists, sitemap
    resolution returns, and what it returns for a sitemap does not depend
    on the bound on the nesting depth once the bound exceeds the rank. *)
Theorem sitemap_resolution_returns (W : Web) (rank : string -> nat) :
  (forall a b, sub_sitemap_of W a b -> (rank b < rank a)%nat) ->
  forall sitemap_url, exists urls,
    forall depth, (rank sitemap_url < depth)%nat ->
      extract_sitemap_urls W depth sitemap_url = Some urls.
Proof.
  intros Hrank sitemap_url.
  destruct (extract_sitemap_urls_ranked W rank Hrank (S (rank sitemap_url))
              sitemap_url) as [urls Hurls]; [lia|].
  exists urls. intros depth Hd. rewrite <- Hurls.
  apply (extract_sitemap_urls_above_rank W rank Hrank); lia.
Qed.

Lemma nested_rank_decreases a b :
  sub_sitemap_of nested_web a b -> (nested_rank b < nested_rank a)%nat.
Proof.
  intros (code & text & Hget & Hst & Hin & Hsub). simpl in Hget.
  unfold nested_rank.
  destruct (String.eqb a "https://example.com/sitemap.xml").
  - injection Hget as <- <-. vm_compute in Hin.
    apply elem_of_cons in Hin as [->|Hin]; [vm_compute; lia|].
    apply elem_of_cons in Hin as [->|Hin]; [discriminate Hsub|].
    apply elem_of_cons in Hin as [->|Hin]; [vm_compute; lia|].
    by apply elem_of_nil in Hin.
  - exfalso. destruct (String.eqb a "https://example.com/sitemap-posts.xml").
    + injection Hget as <- <-. vm_compute in Hin.
      apply elem_of_cons in Hin as [->|Hin]; [discriminate Hsub|].
      apply elem_of_cons in Hin as [->|Hin]; [discriminate Hsub|].
      by apply elem_of_nil in Hin.
    + destruct (String.eqb a "https://example.com/sitemap-gone.xml");
        [|discriminate Hget].
      injection Hget as <- <-. discriminate Hst.
Qed.

Lemma sitemap_resolution_returns_witness :
  exists urls,
    forall depth, (nested_rank "https://example.com/sitemap.xml" < depth)%nat ->
      extract_sitemap_urls nested_web depth "https://example.com/sitemap.xml"
      = Some urls.
Proof.
  apply (sitemap_resolution_returns nested_web nested_rank nested_rank_decreases).
Defined.

(** X14.  What [extract_sitemap_urls] returns for a sitemap that
    answers without an error status is the concatenation, in the order of
    its [<loc>] entries, of what each entry contributes: the entry itself
    for a page URL, the URLs resolved from it for a nested sitemap.  A
    sitemap that cannot be fetched, or answers with status 400 to 599,
    contributes nothing and raises nothing. *)
Theorem extract_sitemap_urls_flattens (W : Web) (d : nat) (sitemap_url : string) :
  (forall e, requests_get W sitemap_url = HttpRaises e ->
     extract_sitemap_urls W (S d) sitemap_url = Some []) /\
  (forall code text,
     requests_get W sitemap_url = Response code text -> 400 <= code < 600 ->
     extract_sitemap_urls W (S d) sitemap_url = Some []) /\
  (forall code text subs,
     requests_get W sitemap_url = Response code text ->
     ~ 400 <= code < 600 ->
     Forall2 (contributes W d) (Py.findall_between "<loc>" "</loc>" 0 text) subs ->
     extract_sitemap_urls W (S d) sitemap_url = Some (concat subs)).
Proof.
  split; [|split].
  - intros e He. simpl. by rewrite He.
  - intros code text Hget Hcode. simpl. rewrite Hget.
    unfold raises_for_status.
    assert ((400 <=? code) = true) as -> by (apply Z.leb_le; lia).
    assert ((code <? 600) = true) as -> by (apply Z.ltb_lt; lia). done.
  - intros code text subs Hget Hcode Hsubs. simpl. rewrite Hget.
    assert (raises_for_status code = false) as ->.
    { unfold raises_for_status. apply andb_false_iff.
      destruct (Z.leb_spec 400 code); [right; apply Z.ltb_ge; lia | by left]. }
    by rewrite (splice_sitemaps_concat _ _ subs).
Qed.


(** ** The file system after each operation *)

Lemma make_dirs_lookup dirs f f' q :
  make_dirs dirs f = Some f' ->
  f' !! q = if decide (q ∈ dirs)
            then match f !! q with None => Some Dir | node => node end
            else f !! q.
Proof.
  revert f. induction dirs as [|d rest IH]; intros f Hm; simpl in Hm.
  - injection Hm as <-. by rewrite decide_False by apply not_elem_of_nil.
  - destruct (f !! d) as [node|] eqn:Hd.
    + assert (Hrest : make_dirs rest f = Some f') by (by destruct node).
      rewrite (IH _ Hrest).
      destruct (decide (q = d)) as [->|Hne].
      * rewrite (decide_True (P := d ∈ d :: rest)) by apply list_elem_of_here.
        rewrite Hd. by destruct (decide (d ∈ rest)).
      * destruct (decide (q ∈ rest)) as [Hin|Hin].
        -- by rewrite decide_True by (by apply list_elem_of_further).
        -- rewrite decide_False; [done|].
           intros [?|?]%elem_of_cons; done.
    + rewrite (IH _ Hm).
      destruct (decide (q = d)) as [->|Hne].
      * rewrite (decide_True (P := d ∈ d :: rest)) by apply list_elem_of_here.
        rewrite lookup_insert_eq, Hd. by destruct (decide (d ∈ rest)).
      * rewrite lookup_insert_ne by done.
        destruct (decide (q ∈ rest)) as [Hin|Hin].
        -- by rewrite decide_True by (by apply list_elem_of_further).
        -- rewrite decide_False; [done|].
           intros [?|?]%elem_of_cons; done.
Qed.

Lemma mkdir_ok B p w w' r :
  mkdir B p w = (w', Ok r) ->
  (forall q, fs w' !! q
             = if decide (q ∈ ancestors_and_self p)
               then match fs w !! q with None => Some Dir | node => node end
               else fs w !! q) /\
  servers w' = servers w /\ uuid_count w' = uuid_count w /\
  embed_log w' = embed_log w.
Proof.
  unfold mkdir. destruct (fails _ _); [done|].
  destruct (make_dirs _ _) as [f|] eqn:Hm; [|done].
  intros [= <- _]. simpl. split; [|done].
  intros q. by apply make_dirs_lookup.
Qed.

Lemma connect_ok B p w w' r :
  connect B p w = (w', Ok r) ->
  fs w' = <[p := Database (tables_at w p)]> (fs w) /\
  servers w' = servers w /\ uuid_count w' = uuid_count w /\
  embed_log w' = embed_log w.
Proof.
  unfold connect, tables_at. destruct (fails _ _); [done|].
  destruct (fs w !! p) as [[| |tables]|] eqn:Hp; try done.
  - by intros [= <- _].
  - intros [= <- _]. by rewrite insert_id.
  - destruct (is_dir _ _); [|done]. by intros [= <- _].
Qed.

Lemma write_file_ok B p c w w' r :
  write_file B p c w = (w', Ok r) ->
  fs w' = <[p := File c]> (fs w) /\
  is_dir w (removelast p) = true /\
  servers w' = servers w /\ uuid_count w' = uuid_count w /\
  embed_log w' = embed_log w.
Proof.
  unfold write_file. destruct (is_dir w (removelast p)); [|done]. simpl.
  destruct (fs w !! p) as [[| |]|]; try done;
    destruct (write_outcome B p); try done; by intros [= <- _].
Qed.

Lemma store_rows_ok B db_path table_data w w' r :
  LanceDBManager.store_rows B db_path table_data w = (w', Ok r) ->
  fs w' = <[db_path :=
              Database (<["documents" :=
                           default [] (tables_at w db_path !! "documents")
                           ++ table_data]> (tables_at w db_path))]> (fs w) /\
  servers w' = servers w /\ uuid_count w' = uuid_count w /\
  embed_log w' = embed_log w.
Proof.
  unfold LanceDBManager.store_rows.
  destruct (tables_at w db_path !! "documents") as [rows|];
    destruct (fails _ _); try done; by intros [= <- _].
Qed.

Lemma build_rows_rest B self documents table_data w :
  let w' := (LanceDBManager.build_rows B self documents table_data w).1 in
  fs w' = fs w /\ servers w' = servers w.
Proof.
  revert table_data w. induction documents as [|doc rest IH]; intros table_data w; [done|].
  simpl. destruct (default _ (doc !! "content")) as [content|]; [|done].
  destruct (negb _); [apply IH|].
  unfold LanceDBManager.embed.
  destruct (encode_text B _ content); [|done].
  destruct (default _ (doc !! "metadata")); [done|].
  match goal with |- context [LanceDBManager.build_rows B self rest ?t ?w1] =>
    destruct (IH t w1) as [H1 H2] end.
  by rewrite H1, H2.
Qed.


Lemma mkdir_fresh B p w w' r :
  mkdir B p w = (w', Ok r) ->
  p ∈ ancestors_and_self p ->
  fs w !! p = None ->
  (forall q, q ∈ ancestors_and_self p -> q <> p -> is_Some (fs w !! q)) ->
  fs w' = <[p := Dir]> (fs w).
Proof.
  intros (Hfs & _)%mkdir_ok Hp Hnone Hanc. apply map_eq. intros q.
  rewrite Hfs. destruct (decide (q = p)) as [->|Hne].
  - by rewrite decide_True, Hnone, lookup_insert_eq.
  - rewrite lookup_insert_ne by done.
    destruct (decide (q ∈ ancestors_and_self p)) as [Hin|Hin]; [|done].
    by destruct (Hanc q Hin Hne) as [node ->].
Qed.

Lemma init_kb_ok B self p w w' self' :
  LanceDBManager.init_kb B self p w = (w', self', Ok true) ->
  exists wa wb,
    mkdir B p w = (wa, Ok tt) /\
    connect B (p ++ ["lancedb"]) wa = (wb, Ok tt) /\
    write_file B (p ++ ["metadata.json"]) (JsonObject (init_kb_metadata B self)) wb
    = (w', Ok tt) /\
    self' = LanceDBManager.with_db self (p ++ ["lancedb"]).
Proof.
  unfold LanceDBManager.init_kb.
  destruct (mkdir B p w) as [wa [[]|e]] eqn:Hm; [|done].
  destruct (connect B (p ++ ["lancedb"]) wa) as [wb [[]|e]] eqn:Hc; [|done].
  fold (init_kb_metadata B self).
  destruct (write_file B _ _ wb) as [wc [[]|e]] eqn:Hw; [|done].
  intros [= <- <-]. by exists wa, wb.
Qed.

Lemma elem_of_ancestors_and_self (p q : path) :
  q ∈ ancestors_and_self p <-> q <> [] /\ q `prefix_of` p.
Proof.
  unfold ancestors_and_self. rewrite list_elem_of_fmap. split.
  - intros (n & -> & Hn%elem_of_seq). split.
    + intros H. apply (f_equal length) in H. rewrite length_take in H.
      simpl in H. lia.
    + exists (drop n p). by rewrite take_drop.
  - intros [Hne [k ->]]. exists (length q). split.
    + by rewrite take_app_length.
    + apply elem_of_seq. rewrite length_app.
      destruct q; [done|]. simpl. lia.
Qed.

Lemma removelast_prefix (q : path) : removelast q `prefix_of` q.
Proof.
  destruct (decide (q = [])) as [->|Hne]; [done|].
  exists [List.last q ""]. by apply app_removelast_last.
Qed.

Lemma is_dir_node w q :
  is_dir w q = true <->
  fs w !! q = Some Dir \/ exists tables, fs w !! q = Some (Database tables).
Proof.
  unfold is_dir. destruct (fs w !! q) as [[| |tables]|]; split;
    try done; eauto; intros [H|[t H]]; done.
Qed.

Lemma make_dirs_dirs dirs f f' d :
  make_dirs dirs f = Some f' -> d ∈ dirs ->
  f' !! d = Some Dir \/ exists tables, f' !! d = Some (Database tables).
Proof.
  intros Hm Hd. rewrite (make_dirs_lookup _ _ _ _ Hm), decide_True by done.
  revert f Hm. induction dirs as [|x rest IH]; intros f Hm;
    [by apply elem_of_nil in Hd|].
  simpl in Hm. destruct (decide (d = x)) as [->|Hne].
  - destruct (f !! x) as [[| |tables]|]; eauto. done.
  - apply elem_of_cons in Hd as [?|Hd]; [done|].
    destruct (f !! x) as [[| |tables]|] eqn:Hx; try done;
      try (by apply (IH Hd f)).
    specialize (IH Hd _ Hm). by rewrite lookup_insert_ne in IH.
Qed.

Lemma set_fs_same w : set_fs w (fs w) = w.
Proof. by destruct w. Qed.

Lemma make_dirs_again dirs f :
  (forall d, d ∈ dirs ->
     f !! d = Some Dir \/ exists tables, f !! d = Some (Database tables)) ->
  make_dirs dirs f = Some f.
Proof.
  induction dirs as [|d rest IH]; intros H; simpl; [done|].
  assert (Hrest : make_dirs rest f = Some f).
  { apply IH. intros x Hx. apply H. by apply list_elem_of_further. }
  by destruct (H d (list_elem_of_here _ _)) as [->|[tables ->]].
Qed.

Lemma child_not_ancestor (p : path) (x : string) :
  p ++ [x] ∉ ancestors_and_self p.
Proof.
  intros [_ Hpre%prefix_length]%elem_of_ancestors_and_self.
  rewrite length_app in Hpre. simpl in Hpre. lia.
Qed.

(** [init_kb] run a second time at the same path, as [add_documents] does
    on a database without tables, succeeds and changes nothing. *)
Lemma init_kb_again B self p w w' self' :
  LanceDBManager.init_kb B self p w = (w', self', Ok true) ->
  LanceDBManager.init_kb B self' p w' = (w', self', Ok true).
Proof.
  intros (wa & wb & Hm & Hc & Hw & ->)%init_kb_ok.
  set (db := p ++ ["lancedb"]) in *. set (m := p ++ ["metadata.json"]) in *.
  assert (Hne : m <> db).
  { unfold m, db. intros H%app_inv_head. done. }
  assert (Hfm : fails B (OpMkdir p) = false).
  { unfold mkdir in Hm. by destruct (fails _ _). }
  assert (Hdirs : forall d, d ∈ ancestors_and_self p ->
            fs wa !! d = Some Dir \/ exists tables, fs wa !! d = Some (Database tables)).
  { intros d Hd. unfold mkdir in Hm. rewrite Hfm in Hm.
    destruct (make_dirs _ _) as [f|] eqn:Hmk; [|done]. injection Hm as <-.
    simpl. by eapply make_dirs_dirs. }
  assert (Hfc : fails B (OpConnect db) = false).
  { unfold connect in Hc. by destruct (fails _ _). }
  pose proof (connect_ok _ _ _ _ _ Hc) as (Hwb & _).
  assert (Hwr : write_outcome B m = Written /\
                is_dir wb (removelast m) = true /\
                w' = set_fs wb (<[m := File (JsonObject (init_kb_metadata B self))]> (fs wb))).
  { unfold write_file in Hw. destruct (is_dir wb (removelast m)); [|done].
    simpl in Hw.
    destruct (fs wb !! m) as [[| |]|]; try done;
      destruct (write_outcome B m); try done; by injection Hw as <-. }
  destruct Hwr as (Hwo & Hdir & ->).
  set (c := File (JsonObject (init_kb_metadata B self))) in *.
  set (w' := set_fs wb (<[m := c]> (fs wb))).
  assert (Hanc : forall d, d ∈ ancestors_and_self p -> fs w' !! d = fs wa !! d).
  { intros d Hd. unfold w'. simpl.
    rewrite lookup_insert_ne
      by (intros <-; by apply (child_not_ancestor p "metadata.json")).
    rewrite Hwb. rewrite lookup_insert_ne
      by (intros <-; by apply (child_not_ancestor p "lancedb")).
    done. }
  assert (H1 : mkdir B p w' = (w', Ok tt)).
  { unfold mkdir. rewrite Hfm, make_dirs_again, set_fs_same; [done|].
    intros d Hd. rewrite (Hanc d Hd). by apply Hdirs. }
  assert (H2 : connect B db w' = (w', Ok tt)).
  { unfold connect. rewrite Hfc. unfold w'. simpl.
    rewrite lookup_insert_ne, Hwb, lookup_insert_eq by done. done. }
  assert (H3 : write_file B m (JsonObject (init_kb_metadata B self)) w' = (w', Ok tt)).
  { unfold write_file.
    assert (is_dir w' (removelast m) = true) as ->.
    { unfold is_dir, w'. simpl. rewrite lookup_insert_ne; [exact Hdir|].
      unfold m. rewrite removelast_last. intros H.
      apply (f_equal length) in H. rewrite length_app in H. simpl in H. lia. }
    simpl. unfold w' at 1. simpl. rewrite lookup_insert_eq. fold c.
    rewrite Hwo. f_equal. unfold w'. simpl.
    rewrite insert_insert_eq. done. }
  unfold LanceDBManager.init_kb. fold db m. rewrite H1, H2.
  change (JsonObject _) with (JsonObject (init_kb_metadata B self)).
  rewrite H3. done.
Qed.

(** So in the creation of a knowledge base [add_documents], called after
    [init_kb] at the same path, goes on with its [try] block in the state
    [init_kb] has left. *)
Lemma add_documents_after_init B self p documents w w' self' :
  LanceDBManager.init_kb B self p w = (w', self', Ok true) ->
  LanceDBManager.add_documents B self' p documents w'
  = LanceDBManager.add_rows B self' documents w'.
Proof.
  intros Hkb. unfold LanceDBManager.add_documents.
  destruct (LanceDBManager.truthy_db self' w'); [done|].
  by rewrite (init_kb_again _ _ _ _ _ _ Hkb).
Qed.

Lemma add_rows_ok B self documents db_path w w' self' :
  LanceDBManager.db self = Some db_path ->
  LanceDBManager.add_rows B self documents w = (w', self', Ok true) ->
  exists w1 rows,
    LanceDBManager.build_rows B self documents [] w = (w1, Ok rows) /\
    rows <> [] /\
    LanceDBManager.store_rows B db_path rows w1 = (w', Ok tt) /\
    self' = self.
Proof.
  intros Hdb. unfold LanceDBManager.add_rows.
  destruct (LanceDBManager.build_rows B self documents [] w) as [w1 [rows|e]]
    eqn:Hb; [|done].
  destruct rows as [|row rows]; [done|]. rewrite Hdb.
  destruct (LanceDBManager.store_rows B db_path (row :: rows) w1)
    as [w2 [[]|e]] eqn:Hs; [|done].
  intros [= <- <-]. by exists w1, (row :: rows).
Qed.

Lemma commit_kb_ok B args documents w w' n display :
  commit_kb B args documents w = (w', Created n display) ->
  n = documents /\ display = server_display_name (arg_kb_name args) /\
  fs w' = <[[arg_kb_name args; "metadata.json"] :=
              File (JsonObject (kb_metadata args B documents))]> (fs w) /\
  servers w' = (generate_kb_mcp B (arg_kb_name args) (servers w)).2 /\
  uuid_count w' = uuid_count w /\ embed_log w' = embed_log w.
Proof.
  unfold commit_kb.
  destruct (write_file B _ _ w) as [w1 [[]|e]] eqn:Hw; [|done].
  apply write_file_ok in Hw as (Hfs & _ & Hs & Hu & He).
  destruct (generate_kb_mcp B _ (servers w1)) as [ok servers'] eqn:Hg.
  intros [= <- <- <-]. simpl. rewrite <- Hs, Hg. done.
Qed.

(** What a successful creation leaves. *)
Lemma create_from_pages_created B args pages w w' n display :
  fs_wf w ->
  fs w !! [arg_kb_name args] = None ->
  create_from_pages B args pages w = (w', Created n display) ->
  let name := arg_kb_name args in
  let documents := assemble_documents name pages in
  exists manager tables,
    LanceDBManager.init B (arg_embedding_model args)
      (arg_use_openai_embeddings args) None LanceDBManager.default_openai_model
    = Ok manager /\
    n = length documents /\ display = server_display_name name /\
    fs w' = kb_layout name tables (init_kb_metadata B manager)
              (kb_metadata args B n) (fs w) /\
    servers w' = (generate_kb_mcp B name (servers w)).2 /\
    match documents with
    | [] => tables = ∅
    | _ :: _ =>
        exists rows, tables = <["documents" := rows]> ∅ /\ rows <> [] /\
          Forall2 (built_row B manager)
                  (filter (fun doc => has_text doc = true) documents) rows
    end.
Proof.
  intros Hwf Hex Hrun name documents. fold name in Hex.
  pose proof (wf_absent_below w name ["lancedb"] Hwf Hex) as Hb1.
  pose proof (wf_absent_below w name ["lancedb"; "lancedb"] Hwf Hex) as Hb2.
  simpl in Hb1, Hb2.
  unfold create_from_pages in Hrun. fold name documents in Hrun.
  destruct pages as [|page pages]; [done|].
  destruct (mkdir B [name] w) as [w1 [[]|e]] eqn:Hm1; [|done].
  pose proof (mkdir_ok _ _ _ _ _ Hm1) as (_ & Hs1 & _).
  apply mkdir_fresh in Hm1;
    [| unfold ancestors_and_self; simpl; apply list_elem_of_here | done |].
  2:{ unfold ancestors_and_self. simpl. intros q Hq%list_elem_of_singleton. done. }
  destruct (LanceDBManager.init B _ _ _ _) as [mgr|e] eqn:Hinit; [|done].
  simpl app in Hrun.
  destruct (LanceDBManager.init_kb B mgr [name; "lancedb"] w1)
    as [[w2 mgr2] [[]|e]] eqn:Hkb; try done.
  pose proof (add_documents_after_init B mgr [name; "lancedb"] documents
                w1 w2 mgr2 Hkb) as Hagain.
  apply init_kb_ok in Hkb as (wa & wb & Hm2 & Hc & Hw & ->). simpl app in *.
  pose proof (mkdir_ok _ _ _ _ _ Hm2) as (_ & Hs2 & _).
  apply mkdir_fresh in Hm2.
  2:{ unfold ancestors_and_self. simpl. apply list_elem_of_further, list_elem_of_here. }
  2:{ rewrite Hm1, lookup_insert_ne by done. done. }
  2:{ unfold ancestors_and_self. simpl. intros q Hq Hne.
      apply elem_of_cons in Hq as [->|Hq].
      - rewrite Hm1, lookup_insert_eq. eauto.
      - apply list_elem_of_singleton in Hq. done. }
  apply connect_ok in Hc as (Hc & Hs3 & _).
  assert (Htab : tables_at wa [name; "lancedb"; "lancedb"] = ∅).
  { unfold tables_at. rewrite Hm2, Hm1, !lookup_insert_ne, Hb2 by done. done. }
  rewrite Htab in Hc.
  apply write_file_ok in Hw as (Hw & _ & Hs4 & _).
  exists mgr.
  destruct documents as [|doc docs] eqn:Hdocs.
  - apply commit_kb_ok in Hrun as (-> & -> & Hfs & Hs & _). fold name in Hfs, Hs.
    exists ∅. split; [done|]. split; [done|]. split; [done|].
    split; [|split; [congruence|done]].
    rewrite Hfs, Hw, Hc, Hm2, Hm1. done.
  - rewrite Hagain in Hrun.
    destruct (LanceDBManager.add_rows B _ (doc :: docs) w2)
      as [[w3 mgr3] [[]|e]] eqn:Hadd; try done.
    apply (add_rows_ok B _ _ [name; "lancedb"; "lancedb"]) in Hadd
      as (w2' & rows & Hb & Hne & Hst & ->); [|done].
    pose proof (build_rows_rest B
                  (LanceDBManager.with_db mgr [name; "lancedb"; "lancedb"])
                  (doc :: docs) [] w2) as Hrest.
    rewrite Hb in Hrest. simpl in Hrest. destruct Hrest as [Hf5 Hs5].
    apply build_rows_spec in Hb as (new & -> & Hnew). simpl in Hne, Hst.
    apply store_rows_ok in Hst as (Hst & Hs6 & _).
    assert (Htab2 : tables_at w2' [name; "lancedb"; "lancedb"] = ∅).
    { unfold tables_at. rewrite Hf5, Hw, Hc, lookup_insert_ne by done.
      by rewrite lookup_insert_eq. }
    rewrite Htab2, lookup_empty in Hst. simpl in Hst.
    apply commit_kb_ok in Hrun as (-> & -> & Hfs & Hs & _). fold name in Hfs, Hs.
    exists (<["documents" := new]> ∅).
    split; [done|]. split; [done|]. split; [done|].
    split; [|split; [congruence|]].
    + rewrite Hfs, Hst, Hf5, Hw, Hc, Hm2, Hm1. unfold kb_layout. f_equal.
      rewrite (insert_insert_ne _ [name; "lancedb"; "lancedb"]
                 [name; "lancedb"; "metadata.json"]) by done.
      by rewrite insert_insert_eq.
    + exists new. split; [done|]. split; [done|]. exact Hnew.
Qed.


Lemma kb_layout_lookup name tables m0 m f q :
  kb_layout name tables m0 m f !! q
  = if decide (q = [name; "metadata.json"]) then Some (File (JsonObject m))
    else if decide (q = [name; "lancedb"; "metadata.json"])
         then Some (File (JsonObject m0))
    else if decide (q = [name; "lancedb"; "lancedb"]) then Some (Database tables)
    else if decide (q = [name; "lancedb"]) then Some Dir
    else if decide (q = [name]) then Some Dir
    else f !! q.
Proof.
  unfold kb_layout.
  destruct (decide (q = [name; "metadata.json"])) as [->|H1];
    [by rewrite lookup_insert_eq|].
  rewrite lookup_insert_ne by done.
  destruct (decide (q = [name; "lancedb"; "metadata.json"])) as [->|H2];
    [by rewrite lookup_insert_eq|].
  rewrite lookup_insert_ne by done.
  destruct (decide (q = [name; "lancedb"; "lancedb"])) as [->|H3];
    [by rewrite lookup_insert_eq|].
  rewrite lookup_insert_ne by done.
  destruct (decide (q = [name; "lancedb"])) as [->|H4];
    [by rewrite lookup_insert_eq|].
  rewrite lookup_insert_ne by done.
  destruct (decide (q = [name])) as [->|H5]; [by rewrite lookup_insert_eq|].
  by rewrite lookup_insert_ne by done.
Qed.

Lemma kb_layout_wf name tables m0 m w w' :
  fs_wf w -> fs w !! [name] = None ->
  fs w' = kb_layout name tables m0 m (fs w) -> fs_wf w'.
Proof.
  intros Hwf Hex Hfs p [node Hp] Hne Hparent.
  assert (Hbelow : forall rest, fs w !! (name :: rest) = None).
  { intros rest. apply (wf_absent_below w name rest Hwf Hex). }
  assert (Hdir : forall q, is_dir w q = true -> is_dir w' q = true).
  { intros q. unfold is_dir. rewrite Hfs, kb_layout_lookup.
    destruct (decide (q = [name; "metadata.json"])) as [->|?];
      [by rewrite Hbelow|].
    destruct (decide (q = [name; "lancedb"; "metadata.json"])) as [->|?];
      [by rewrite Hbelow|].
    destruct (decide (q = [name; "lancedb"; "lancedb"])) as [->|?]; [done|].
    destruct (decide (q = [name; "lancedb"])) as [->|?]; [done|].
    destruct (decide (q = [name])) as [->|?]; done. }
  assert (Hname : is_dir w' [name] = true).
  { unfold is_dir. rewrite Hfs, kb_layout_lookup. simpl.
    by rewrite !decide_False, decide_True by done. }
  assert (Hlance : is_dir w' [name; "lancedb"] = true).
  { unfold is_dir. rewrite Hfs, kb_layout_lookup. simpl.
    by rewrite !decide_False, decide_True by done. }
  rewrite Hfs, kb_layout_lookup in Hp.
  destruct (decide (p = [name; "metadata.json"])) as [->|?]; [done|].
  destruct (decide (p = [name; "lancedb"; "metadata.json"])) as [->|?]; [done|].
  destruct (decide (p = [name; "lancedb"; "lancedb"])) as [->|?]; [done|].
  destruct (decide (p = [name; "lancedb"])) as [->|?]; [done|].
  destruct (decide (p = [name])) as [->|?]; [done|].
  apply Hdir, Hwf; eauto.
Qed.

(** X15.  A successful [knowledge_create] leaves, below the directory of
    the knowledge base, the directory [lancedb], in it the database
    directory [lancedb] and the metadata file [init_kb] writes, and beside
    it the metadata file of the knowledge base with the document count of
    the answer; nothing else on the file system changes, and every entry
    still lies below a directory. *)
Theorem knowledge_create_layout (B : Backend) (args : CreateArgs)
    (pages : list ContentPage) (w w' : World) (n : nat) (display : string) :
  fs_wf w ->
  path_exists w [arg_kb_name args] = false ->
  create_from_pages B args pages w = (w', Created n display) ->
  let name := arg_kb_name args in
  fs w' !! [name] = Some Dir /\
  fs w' !! [name; "lancedb"] = Some Dir /\
  (exists tables, fs w' !! [name; "lancedb"; "lancedb"] = Some (Database tables)) /\
  (exists manager,
     LanceDBManager.init B (arg_embedding_model args)
       (arg_use_openai_embeddings args) None LanceDBManager.default_openai_model
     = Ok manager /\
     fs w' !! [name; "lancedb"; "metadata.json"]
     = Some (File (JsonObject (init_kb_metadata B manager)))) /\
  fs w' !! [name; "metadata.json"]
  = Some (File (JsonObject (kb_metadata args B n))) /\
  (forall q, q ∉ [[name]; [name; "lancedb"]; [name; "lancedb"; "lancedb"];
                  [name; "lancedb"; "metadata.json"]; [name; "metadata.json"]] ->
             fs w' !! q = fs w !! q) /\
  fs_wf w'.
Proof.
  intros Hwf Hex%path_exists_false Hrun name.
  destruct (create_from_pages_created B args pages w w' n display Hwf Hex Hrun)
    as (mgr & tables & Hinit & _ & _ & Hfs & _).
  fold name in Hfs.
  split_and!.
  - rewrite Hfs, kb_layout_lookup. by repeat case_decide.
  - rewrite Hfs, kb_layout_lookup. by repeat case_decide.
  - exists tables. rewrite Hfs, kb_layout_lookup. by repeat case_decide.
  - exists mgr. split; [done|].
    rewrite Hfs, kb_layout_lookup. by repeat case_decide.
  - rewrite Hfs, kb_layout_lookup. by repeat case_decide.
  - intros q Hq. rewrite Hfs, kb_layout_lookup.
    rewrite !not_elem_of_cons in Hq. destruct Hq as (?&?&?&?&?&_).
    by repeat case_decide.
  - by eapply kb_layout_wf.
Qed.


Lemma knowledge_create_layout_witness :
  fs docs_world !! ["docs"] = Some Dir /\
  fs docs_world !! ["docs"; "lancedb"] = Some Dir /\
  (exists tables,
     fs docs_world !! ["docs"; "lancedb"; "lancedb"] = Some (Database tables)) /\
  (exists manager,
     LanceDBManager.init quiet_backend "paraphrase-MiniLM-L3-v2" false None
       LanceDBManager.default_openai_model
     = Ok manager /\
     fs docs_world !! ["docs"; "lancedb"; "metadata.json"]
     = Some (File (JsonObject (init_kb_metadata quiet_backend manager)))) /\
  fs docs_world !! ["docs"; "metadata.json"]
  = Some (File (JsonObject (kb_metadata docs_args quiet_backend 3))) /\
  (forall q, q ∉ [["docs"]; ["docs"; "lancedb"]; ["docs"; "lancedb"; "lancedb"];
                  ["docs"; "lancedb"; "metadata.json"]; ["docs"; "metadata.json"]] ->
             fs docs_world !! q = fs empty_world !! q) /\
  fs_wf docs_world.
Proof.
  apply (knowledge_create_layout quiet_backend docs_args docs_pages empty_world
           docs_world 3 "kb-docs").
  - intros p [node Hp]. simpl in Hp. by rewrite lookup_empty in Hp.
  - reflexivity.
  - vm_compute. reflexivity.
Defined.

(** ** A created knowledge base in the listing *)

Lemma assemble_documents_length name pages :
  length (assemble_documents name pages)
  = length (filter (fun page => Py.truthy (cpage_content page) = true) pages).
Proof.
  unfold assemble_documents.
  change (fun (i : nat) (page : ContentPage) => (i, page))
    with (fun (i : nat) (page : ContentPage) => (id i, page)).
  generalize (@id nat) as g.
  induction pages as [|page pages IH]; intros g; [done|].
  rewrite imap_cons, filter_cons. simpl.
  destruct (Py.truthy (cpage_content page)) eqn:Ht.
  - rewrite decide_True by done. simpl. f_equal. apply (IH (g ∘ S)).
  - rewrite decide_False by (simpl; congruence). apply (IH (g ∘ S)).
Qed.


(** X16.  After a successful [knowledge_create], the loop of
    [knowledge_list] appends an entry for the knowledge base, so the
    listing is not empty and, when it does not fail, shows it.  The entry
    gives as the number of documents the number of crawled pages with a
    non-empty content, the embedding model and the source URL of the
    request, and as creation time the working directory of the server. *)
Theorem created_kb_is_listed (B : Backend) (args : CreateArgs)
    (pages : list ContentPage) (w w' : World) (n : nat) (display : string) :
  fs_wf w ->
  path_exists w [arg_kb_name args] = false ->
  create_from_pages B args pages w = (w', Created n display) ->
  let name := arg_kb_name args in
  let entry :=
    {| kb_name := name; kb_path := [name];
       kb_documents := JNum (Z.of_nat n);
       kb_embedding_model := JStr (arg_embedding_model args);
       kb_created_at := JStr (cwd_absolute B);
       kb_source_url := JStr (arg_url args);
       kb_has_server := bool_decide (display ∈ servers w') |} in
  n = length (filter (fun page => Py.truthy (cpage_content page) = true) pages) /\
  list_entry w' name = Some entry /\
  entry ∈ list_entries w' /\
  handle_knowledge_list w' <> NoKnowledgeBases /\
  (forall kbs, handle_knowledge_list w' = Listing kbs -> entry ∈ kbs).
Proof.
  intros Hwf Hex%path_exists_false Hrun name entry.
  destruct (create_from_pages_created B args pages w w' n display Hwf Hex Hrun)
    as (mgr & tables & _ & Hn & Hd & Hfs & _).
  fold name in Hfs, Hd.
  assert (H1 : fs w' !! [name] = Some Dir).
  { rewrite Hfs, kb_layout_lookup.
    rewrite !decide_False by done. by rewrite decide_True. }
  assert (H2 : fs w' !! [name; "metadata.json"]
               = Some (File (JsonObject (kb_metadata args B n)))).
  { rewrite Hfs, kb_layout_lookup. by rewrite decide_True. }
  assert (Hentry : list_entry w' name = Some entry).
  { unfold list_entry, is_dir. rewrite H1, H2.
    unfold entry, kb_metadata. rewrite Hd. do 2 f_equal;
      by simplify_map_eq. }
  assert (Hin : entry ∈ list_entries w').
  { apply list_elem_of_omap. exists name. split; [|done].
    by apply (iterdir_elem w' name Dir). }
  split; [by rewrite Hn, assemble_documents_length|].
  split; [done|]. split; [done|].
  unfold handle_knowledge_list.
  destruct (list_entries w') as [|e0 es] eqn:Hes; [by apply elem_of_nil in Hin|].
  destruct (sort_by_created_desc (e0 :: es)) as [sorted|] eqn:Hs.
  - split; [done|]. intros kbs [= <-].
    apply sort_by_created_desc_perm in Hs. by rewrite Hs.
  - split; [done|]. by intros kbs.
Qed.

Lemma created_kb_is_listed_witness :
  let entry :=
    {| kb_name := "docs"; kb_path := ["docs"];
       kb_documents := JNum (Z.of_nat 3);
       kb_embedding_model := JStr "paraphrase-MiniLM-L3-v2";
       kb_created_at := JStr (cwd_absolute quiet_backend);
       kb_source_url := JStr "a.com";
       kb_has_server := bool_decide ("kb-docs" ∈ servers docs_world) |} in
  3%nat = length (filter (fun page => Py.truthy (cpage_content page) = true)
                         docs_pages) /\
  list_entry docs_world "docs" = Some entry /\
  entry ∈ list_entries docs_world /\
  handle_knowledge_list docs_world <> NoKnowledgeBases /\
  (forall kbs, handle_knowledge_list docs_world = Listing kbs -> entry ∈ kbs).
Proof.
  apply (created_kb_is_listed quiet_backend docs_args docs_pages empty_world
           docs_world 3 "kb-docs").
  - intros p [node Hp]. simpl in Hp. by rewrite lookup_empty in Hp.
  - reflexivity.
  - vm_compute. reflexivity.
Defined.

(** ** The name of a knowledge base after a creation attempt *)

Lemma mkdir_keeps B p w q :
  is_Some (fs w !! q) -> is_Some (fs (mkdir B p w).1 !! q).
Proof.
  intros [node Hq]. destruct (mkdir B p w) as [w1 [[]|e]] eqn:Hm.
  - apply mkdir_ok in Hm as [Hfs _]. simpl. rewrite Hfs, Hq.
    destruct (decide _); eauto.
  - revert Hm. unfold mkdir. destruct (fails _ _); [by intros [= <- _]; eauto|].
    destruct (make_dirs _ _); [done|]. intros [= <- _]. simpl. eauto.
Qed.

Lemma mkdir_creates B p w w' r :
  mkdir B p w = (w', Ok r) -> p ∈ ancestors_and_self p -> is_Some (fs w' !! p).
Proof.
  intros [Hfs _]%mkdir_ok Hp. rewrite Hfs, decide_True by done.
  destruct (fs w !! p); eauto.
Qed.

(** X17.  [knowledge_create] does not clean up: once the directory of
    the knowledge base has been made, whether the creation then succeeds,
    or aborts because the storage could not be initialised or the
    documents could not be added, the name is taken, and a further
    [knowledge_create] for it answers that the knowledge base already
    exists, without crawling and without changing anything. *)
Theorem creation_attempt_takes_name (B : Backend) (args : CreateArgs)
    (pages : list ContentPage) (w w' : World) (r : CreateResponse) :
  create_from_pages B args pages w = (w', r) ->
  (r = InitFailed \/ r = AddDocumentsFailed \/ create_succeeded r = true) ->
  path_exists w' [arg_kb_name args] = true /\
  forall (B' : Backend) (W' : Web) (depth : nat) (args' : CreateArgs),
    arg_kb_name args' = arg_kb_name args ->
    valid_kb_name (arg_kb_name args) = true ->
    handle_knowledge_create B' W' depth args' w' = Some (w', AlreadyExists).
Proof.
  intros Hrun Hr. set (name := arg_kb_name args) in *.
  assert (Hex : path_exists w' [name] = true).
  { apply bool_decide_eq_true. revert Hrun. unfold create_from_pages.
    fold name. destruct pages as [|page pages].
    { intros [= _ <-]. by destruct Hr as [?|[?|?]]. }
    destruct (mkdir B [name] w) as [w1 [[]|e]] eqn:Hm.
    2:{ intros [= _ <-]. by destruct Hr as [?|[?|?]]. }
    apply mkdir_creates in Hm as H1;
      [|unfold ancestors_and_self; simpl; apply list_elem_of_here].
    destruct (LanceDBManager.init B _ _ _ _) as [mgr|e].
    2:{ intros [= _ <-]. by destruct Hr as [?|[?|?]]. }
    simpl app.
    assert (H2 : is_Some (fs (LanceDBManager.init_kb B mgr [name; "lancedb"] w1).1.1
                            !! [name])).
    { unfold LanceDBManager.init_kb.
      pose proof (mkdir_keeps B [name; "lancedb"] w1 [name] H1) as Hk.
      destruct (mkdir B [name; "lancedb"] w1) as [wa [[]|e]]; simpl in Hk; [|done].
      pose proof (connect_frame B [name; "lancedb"; "lancedb"] wa [name]) as Hc.
      simpl app.
      destruct (connect B [name; "lancedb"; "lancedb"] wa) as [wb [[]|e]];
        simpl in Hc |- *; [|by rewrite Hc].
      match goal with |- context [write_file B ?f ?c wb] =>
        pose proof (write_file_frame B f c wb [name]) as Hw;
        destruct (write_file B f c wb) as [wc [[]|e]] end;
        simpl in Hw |- *; rewrite Hw, Hc by done; done. }
    pose proof (init_kb_db B mgr [name; "lancedb"] w1) as Hdb.
    destruct (LanceDBManager.init_kb B mgr [name; "lancedb"] w1)
      as [[w2 mgr2] [[]|e]] eqn:Hkb; simpl in H2, Hdb.
    - specialize (Hdb eq_refl).
      assert (Hcommit : forall k wk, is_Some (fs wk !! [name]) ->
                is_Some (fs (commit_kb B args k wk).1 !! [name])).
      { intros k wk Hk. by rewrite commit_kb_frame by done. }
      destruct (assemble_documents name (page :: pages)) as [|doc docs].
      + intros Hc. specialize (Hcommit 0%nat w2 H2). by rewrite Hc in Hcommit.
      + rewrite (add_documents_after_init B mgr _ (doc :: docs) _ _ _ Hkb).
        pose proof (add_rows_frame B mgr2 (doc :: docs) _ w2 [name] Hdb) as Ha.
        destruct (LanceDBManager.add_rows B mgr2 (doc :: docs) w2)
          as [[w3 mgr3] [[]|e]]; simpl in Ha.
        * intros Hc.
          assert (H3 : is_Some (fs w3 !! [name])) by (by rewrite Ha).
          specialize (Hcommit (length (doc :: docs)) w3 H3).
          by rewrite Hc in Hcommit.
        * intros [= <- _]. by rewrite Ha.
        * intros [= _ <-]. by destruct Hr as [?|[?|?]].
    - intros [= <- _]. done.
    - intros [= _ <-]. by destruct Hr as [?|[?|?]]. }
  split; [done|].
  intros B' W' depth args' Hname Hvalid. unfold handle_knowledge_create.
  rewrite Hname. fold name. by rewrite Hvalid, Hex.
Qed.

Lemma creation_attempt_takes_name_witness :
  path_exists failed_docs_world [arg_kb_name docs_args] = true /\
  forall (B' : Backend) (W' : Web) (depth : nat) (args' : CreateArgs),
    arg_kb_name args' = arg_kb_name docs_args ->
    valid_kb_name (arg_kb_name docs_args) = true ->
    handle_knowledge_create B' W' depth args' failed_docs_world
    = Some (failed_docs_world, AlreadyExists).
Proof.
  apply (creation_attempt_takes_name no_embedding_backend docs_args docs_pages
           empty_world failed_docs_world AddDocumentsFailed).
  - vm_compute. reflexivity.
  - right. left. reflexivity.
Defined.


(** ** Searching a created knowledge base *)

(** X18.  [knowledge_create] keeps the database of a knowledge base in
    [lancedb/lancedb]; [search] opens the directory [lancedb] of the path
    it is given.  Hence a search called with the directory of the
    knowledge base, as the generated server calls it, on a manager without
    a connection finds no documents table: it returns [None] and asks for
    no embedding.  Called with the directory [lancedb] of the knowledge
    base it reaches the stored rows: it asks for the embedding of the
    query and hands the rows to the search of the table, and it returns
    [None] when the embedding or that search fails, else the formatted
    results. *)
Theorem created_kb_search_paths (B : Backend) (args : CreateArgs)
    (pages : list ContentPage) (w w' : World) (n : nat) (display : string)
    (self : LanceDBManager.t) (query : string) (limit : Z) :
  fs_wf w ->
  path_exists w [arg_kb_name args] = false ->
  create_from_pages B args pages w = (w', Created n display) ->
  LanceDBManager.db self = None ->
  let name := arg_kb_name args in
  let r1 := LanceDBManager.search B self [name] query limit w' in
  let r2 := LanceDBManager.search B self [name; "lancedb"] query limit w' in
  (r1.2 = None /\ embed_log r1.1.1 = embed_log w') /\
  (assemble_documents name pages <> [] ->
   fails B (OpConnect [name; "lancedb"; "lancedb"]) = false ->
   fails B (OpOpenTable [name; "lancedb"; "lancedb"]) = false ->
   exists rows,
     tables_at w' [name; "lancedb"; "lancedb"] !! "documents" = Some rows /\
     rows <> [] /\
     embed_log r2.1.1 = embed_log w' ++ [(LanceDBManager.embedder self, query)] /\
     r2.2 = match encode_text B (LanceDBManager.embedder self) query with
            | Some query_embedding =>
                match vector_search B query_embedding rows limit with
                | Some results =>
                    Some {| LanceDBManager.out_query := query;
                            LanceDBManager.out_results :=
                              map LanceDBManager.format_result results;
                            LanceDBManager.out_total := length results |}
                | None => None
                end
            | None => None
            end).
Proof.
  intros Hwf Hex%path_exists_false Hrun Hdb name.
  destruct (create_from_pages_created B args pages w w' n display Hwf Hex Hrun)
    as (mgr & tables & _ & _ & _ & Hfs & _ & Htables).
  fold name in Hfs, Htables.
  assert (H1 : fs w' !! [name; "lancedb"] = Some Dir).
  { rewrite Hfs, kb_layout_lookup.
    rewrite !decide_False by done. by rewrite decide_True. }
  assert (H2 : fs w' !! [name; "lancedb"; "lancedb"] = Some (Database tables)).
  { rewrite Hfs, kb_layout_lookup.
    rewrite !decide_False by done. by rewrite decide_True. }
  assert (Htruthy : LanceDBManager.truthy_db self w' = None).
  { unfold LanceDBManager.truthy_db. by rewrite Hdb. }
  simpl. split.
  - unfold LanceDBManager.search. rewrite Htruthy. simpl app.
    unfold path_exists. rewrite H1.
    rewrite bool_decide_eq_true_2 by eauto. simpl.
    destruct (connect B [name; "lancedb"] w') as [w1 [[]|e]] eqn:Hc; [|done].
    apply connect_ok in Hc as (Hc & _ & _ & Hlog).
    unfold tables_at in Hc. rewrite H1 in Hc.
    unfold tables_at. rewrite Hc, lookup_insert_eq, lookup_empty. done.
  - intros Hdocs Hfails Hopen.
    destruct (assemble_documents name pages) as [|doc docs]; [done|].
    destruct Htables as (rows & -> & Hne & _).
    exists rows. unfold tables_at at 1. rewrite H2, lookup_insert_eq.
    split; [done|]. split; [done|].
    unfold LanceDBManager.search. rewrite Htruthy. simpl app.
    unfold path_exists. rewrite H2.
    rewrite bool_decide_eq_true_2 by eauto. simpl.
    unfold connect. rewrite Hfails, H2.
    unfold tables_at. rewrite H2, lookup_insert_eq, Hopen.
    unfold LanceDBManager.embed.
    assert (LanceDBManager.embedder
              (LanceDBManager.with_db self [name; "lancedb"; "lancedb"])
            = LanceDBManager.embedder self) as -> by done.
    destruct (encode_text B (LanceDBManager.embedder self) query) as [v|];
      [|done].
    by destruct (vector_search B v rows limit).
Qed.

Lemma created_kb_search_paths_witness :
  exists manager,
    LanceDBManager.init_default quiet_backend = Ok manager /\
    let r1 := LanceDBManager.search quiet_backend manager ["docs"]
                "how to install" 5 docs_world in
    let r2 := LanceDBManager.search quiet_backend manager ["docs"; "lancedb"]
                "how to install" 5 docs_world in
    (r1.2 = None /\ embed_log r1.1.1 = embed_log docs_world) /\
    (assemble_documents "docs" docs_pages <> [] ->
     fails quiet_backend (OpConnect ["docs"; "lancedb"; "lancedb"]) = false ->
     fails quiet_backend (OpOpenTable ["docs"; "lancedb"; "lancedb"]) = false ->
     exists rows,
       tables_at docs_world ["docs"; "lancedb"; "lancedb"] !! "documents"
       = Some rows /\
       rows <> [] /\
       embed_log r2.1.1
       = embed_log docs_world
         ++ [(LanceDBManager.embedder manager, "how to install")] /\
       r2.2 = match encode_text quiet_backend (LanceDBManager.embedder manager)
                      "how to install" with
              | Some query_embedding =>
                  match vector_search quiet_backend query_embedding rows 5 with
                  | Some results =>
                      Some {| LanceDBManager.out_query := "how to install";
                              LanceDBManager.out_results :=
                                map LanceDBManager.format_result results;
                              LanceDBManager.out_total := length results |}
                  | None => None
                  end
              | None => None
              end).
Proof.
  eexists. split; [reflexivity|].
  apply (created_kb_search_paths quiet_backend docs_args docs_pages empty_world
           docs_world 3 "kb-docs").
  - intros p [node Hp]. simpl in Hp. by rewrite lookup_empty in Hp.
  - reflexivity.
  - vm_compute. reflexivity.
  - reflexivity.
Defined.


(** ** Rows and search results *)

Lemma make_row_lookup doc_id content embedding metadata key :
  LanceDBManager.make_row doc_id content embedding metadata !! key
  = if decide (key = "vector")
    then Some (default (CVec embedding) (CStr <$> metadata !! "embedding"))
    else if decide (key = "embedding") then None
    else if decide (key = "id")
         then Some (CStr (default doc_id (metadata !! "id")))
    else if decide (key = "content")
         then Some (CStr (default content (metadata !! "content")))
    else CStr <$> metadata !! key.
Proof.
  unfold LanceDBManager.make_row.
  set (base := <["id" := CStr doc_id]> (<["content" := CStr content]>
                 (<["embedding" := CVec embedding]> (∅ : Row)))).
  assert (Hrow : forall k, ((CStr <$> metadata) ∪ base) !! k
                 = match metadata !! k with
                   | Some s => Some (CStr s)
                   | None => base !! k
                   end).
  { intros k. rewrite lookup_union, lookup_fmap.
    destruct (metadata !! k); simpl; [by destruct (base !! k)|].
    by rewrite (left_id_L None _). }
  rewrite (Hrow "embedding").
  assert (Hb : base !! "embedding" = Some (CVec embedding)).
  { unfold base. rewrite !lookup_insert_ne by done. apply lookup_insert_eq. }
  assert (Hcell : exists cell,
            match metadata !! "embedding" with
            | Some s => Some (CStr s)
            | None => base !! "embedding"
            end = Some cell /\
            cell = default (CVec embedding) (CStr <$> metadata !! "embedding")).
  { rewrite Hb. destruct (metadata !! "embedding"); eauto. }
  destruct Hcell as (cell & -> & ->).
  destruct (decide (key = "vector")) as [->|Hv]; [by rewrite lookup_insert_eq|].
  rewrite lookup_insert_ne by done.
  destruct (decide (key = "embedding")) as [->|He]; [by rewrite lookup_delete_eq|].
  rewrite lookup_delete_ne by done. rewrite Hrow.
  destruct (decide (key = "id")) as [->|Hi].
  { destruct (metadata !! "id"); [done|]. unfold base. apply lookup_insert_eq. }
  destruct (decide (key = "content")) as [->|Hc].
  { destruct (metadata !! "content"); [done|]. unfold base.
    rewrite lookup_insert_ne by done. apply lookup_insert_eq. }
  destruct (metadata !! key); [done|].
  unfold base. by rewrite !lookup_insert_ne, lookup_empty by done.
Qed.

(** X19.  The rows [add_documents] builds have no column [embedding]:
    the embedding is stored under [vector], and a metadata key of a
    document replaces the generated [id], the [content] or the embedding
    of the same name.  [search] drops the columns [id], [content],
    [embedding] and [_distance] from the metadata of a result, not
    [vector]: the metadata of every result carries the whole vector. *)
Theorem stored_row_columns (doc_id content : string) (embedding : Vector)
    (metadata : gmap string string) (distance : Z) :
  let row := LanceDBManager.make_row doc_id content embedding metadata in
  let result :=
    LanceDBManager.format_result (<["_distance" := CNum distance]> row) in
  row !! "embedding" = None /\
  row !! "vector"
  = Some (default (CVec embedding) (CStr <$> metadata !! "embedding")) /\
  row !! "id" = Some (CStr (default doc_id (metadata !! "id"))) /\
  row !! "content" = Some (CStr (default content (metadata !! "content"))) /\
  (forall key, key ∉ ["vector"; "embedding"; "id"; "content"] ->
               row !! key = CStr <$> metadata !! key) /\
  LanceDBManager.result_id result = CStr (default doc_id (metadata !! "id")) /\
  LanceDBManager.result_content result
  = CStr (default content (metadata !! "content")) /\
  LanceDBManager.result_score result = CNum distance /\
  LanceDBManager.result_metadata result
  = delete "id" (delete "content" (delete "_distance" row)) /\
  LanceDBManager.result_metadata result !! "vector" = row !! "vector".
Proof.
  intros row result.
  assert (Hl := make_row_lookup doc_id content embedding metadata).
  fold row in Hl.
  assert (He : row !! "embedding" = None) by (by rewrite Hl).
  assert (Hmeta : LanceDBManager.result_metadata result
                  = delete "id" (delete "content" (delete "_distance" row))).
  { unfold result, LanceDBManager.format_result. simpl.
    rewrite delete_insert_eq. rewrite (delete_id _ "embedding"); [done|].
    rewrite lookup_delete_ne by done. exact He. }
  split_and!; try (by rewrite Hl).
  - intros key Hkey. rewrite !not_elem_of_cons in Hkey.
    destruct Hkey as (?&?&?&?&_). rewrite Hl. by rewrite !decide_False.
  - unfold result, LanceDBManager.format_result. simpl.
    by rewrite lookup_insert_ne, Hl.
  - unfold result, LanceDBManager.format_result. simpl.
    by rewrite lookup_insert_ne, Hl.
  - unfold result, LanceDBManager.format_result. simpl.
    by rewrite lookup_insert_eq.
  - exact Hmeta.
  - rewrite Hmeta. by rewrite !lookup_delete_ne.
Qed.


(** ** Adding documents through a connected manager *)

Lemma build_rows_blank B self documents table_data w :
  Forall (fun doc => has_text doc = false) documents ->
  LanceDBManager.build_rows B self documents table_data w = (w, Ok table_data).
Proof.
  induction 1 as [|doc rest Hdoc _ IH]; [done|]. simpl.
  unfold has_text in Hdoc.
  destruct (default (DStr "") (doc !! "content")) as [content|]; [|done].
  by rewrite Hdoc.
Qed.

(** X20.  On a manager connected to a database that holds a table,
    [add_documents] works on the connected database whatever path it is
    given, and never raises.  It stores all the rows or none: when it
    returns [False], in particular when no document has text, the file
    system is as before; when it returns [True], the table [documents]
    holds the rows it held before followed by one new row for each
    document with text, so adding the same documents again stores them
    again.  (On a connection to a database without tables the call starts
    with [init_kb] at the path it is given.) *)
Theorem add_documents_connected (B : Backend) (self : LanceDBManager.t)
    (db_path kb_path : path) (documents : list Document) (w : World) :
  LanceDBManager.truthy_db self w = Some db_path ->
  let r := LanceDBManager.add_documents B self kb_path documents w in
  let tables := tables_at w db_path in
  (forall kb_path',
     LanceDBManager.add_documents B self kb_path' documents w = r) /\
  r.1.2 = self /\
  match r.2 with
  | Raise _ => False
  | Ok false => fs r.1.1 = fs w
  | Ok true =>
      exists rows,
        rows <> [] /\
        Forall2 (built_row B self)
                (filter (fun doc => has_text doc = true) documents) rows /\
        fs r.1.1
        = <[db_path := Database (<["documents" :=
                                    default [] (tables !! "documents") ++ rows]>
                                   tables)]> (fs w)
  end /\
  (Forall (fun doc => has_text doc = false) documents -> r.2 = Ok false).
Proof.
  intros Htruthy r tables.
  pose proof (truthy_db_db _ _ _ Htruthy) as Hdb.
  split.
  { intros kb_path'. unfold r, LanceDBManager.add_documents. by rewrite Htruthy. }
  assert (Hblank : Forall (fun doc => has_text doc = false) documents ->
                   r.2 = Ok false).
  { intros Hb. unfold r, LanceDBManager.add_documents, LanceDBManager.add_rows.
    rewrite Htruthy.
    by rewrite (build_rows_blank B self documents [] w Hb). }
  cut (r.1.2 = self /\
       match r.2 with
       | Raise _ => False
       | Ok false => fs r.1.1 = fs w
       | Ok true =>
           exists rows,
             rows <> [] /\
             Forall2 (built_row B self)
                     (filter (fun doc => has_text doc = true) documents) rows /\
             fs r.1.1
             = <[db_path := Database (<["documents" :=
                                         default [] (tables !! "documents") ++ rows]>
                                        tables)]> (fs w)
       end).
  { intros [H1 H2]. by split_and!. }
  unfold r, LanceDBManager.add_documents, LanceDBManager.add_rows.
  rewrite Htruthy.
  pose proof (build_rows_rest B self documents [] w) as [Hfs _].
  destruct (LanceDBManager.build_rows B self documents [] w) as [w2 [rows|e]]
    eqn:Hb; simpl in Hfs; [|by split].
  apply build_rows_spec in Hb as (new & -> & Hnew). simpl.
  destruct new as [|row new]; [by split|].
  rewrite Hdb.
  destruct (LanceDBManager.store_rows B db_path (row :: new) w2)
    as [w3 [[]|e]] eqn:Hs.
  - apply store_rows_ok in Hs as [Hs _].
    assert (Ht : tables_at w2 db_path = tables).
    { unfold tables, tables_at. by rewrite Hfs. }
    rewrite Ht, Hfs in Hs.
    split; [done|]. simpl.
    exists (row :: new). split; [done|]. split; [done|]. exact Hs.
  - split; [done|]. simpl.
    revert Hs. unfold LanceDBManager.store_rows.
    destruct (tables_at w2 db_path !! "documents");
      destruct (fails _ _); intros [= <- _]; done.
Qed.

Lemma add_documents_connected_witness :
  let r := LanceDBManager.add_documents quiet_backend docs_manager ["elsewhere"]
             two_documents docs_world in
  let tables := tables_at docs_world ["docs"; "lancedb"; "lancedb"] in
  (forall kb_path',
     LanceDBManager.add_documents quiet_backend docs_manager kb_path'
       two_documents docs_world = r) /\
  r.1.2 = docs_manager /\
  match r.2 with
  | Raise _ => False
  | Ok false => fs r.1.1 = fs docs_world
  | Ok true =>
      exists rows,
        rows <> [] /\
        Forall2 (built_row quiet_backend docs_manager)
                (filter (fun doc => has_text doc = true) two_documents) rows /\
        fs r.1.1
        = <[["docs"; "lancedb"; "lancedb"] :=
              Database (<["documents" :=
                          default [] (tables !! "documents") ++ rows]>
                         tables)]> (fs docs_world)
  end /\
  (Forall (fun doc => has_text doc = false) two_documents -> r.2 = Ok false).
Proof.
  apply (add_documents_connected quiet_backend docs_manager
           ["docs"; "lancedb"; "lancedb"] ["elsewhere"] two_documents docs_world).
  reflexivity.
Defined.

Example add_documents_appends :
  let r := LanceDBManager.add_documents quiet_backend docs_manager ["elsewhere"]
             two_documents docs_world in
  r.2 = Ok true /\
  length <$> tables_at docs_world ["docs"; "lancedb"; "lancedb"] !! "documents"
  = Some 3%nat /\
  length <$> tables_at r.1.1 ["docs"; "lancedb"; "lancedb"] !! "documents"
  = Some 4%nat /\
  fs r.1.1 !! ["elsewhere"] = None.
Proof. repeat split; vm_compute; reflexivity. Qed.

(** On a connection to a database without tables, here the one a creation
    from pages without text leaves, [add_documents] starts with [init_kb]
    at the path it is given: the rows go to a new database there, and the
    connected one stays empty. *)
Example add_documents_empty_connection :
  let w := (create_from_pages quiet_backend docs_args blank_pages empty_world).1 in
  let r := LanceDBManager.add_documents quiet_backend docs_manager ["elsewhere"]
             two_documents w in
  LanceDBManager.truthy_db docs_manager w = None /\
  r.2 = Ok true /\
  LanceDBManager.db r.1.2 = Some ["elsewhere"; "lancedb"] /\
  tables_at r.1.1 ["docs"; "lancedb"; "lancedb"] = ∅ /\
  length <$> tables_at r.1.1 ["elsewhere"; "lancedb"] !! "documents" = Some 1%nat /\
  path_exists r.1.1 ["elsewhere"; "metadata.json"] = true.
Proof. repeat split; vm_compute; reflexivity. Qed.


(** ** The constructor of the manager *)

(** X21.  The constructor of [LanceDBManager] with OpenAI embeddings
    succeeds exactly when a non-empty API key is given or, the given key
    being absent or empty, the environment holds a non-empty one; otherwise
    it raises.  The manager keeps the key as it was given, also when the
    key of the environment is used, and has no connection.  With local
    embeddings the key and the environment play no part: the constructor
    succeeds exactly when the model loads. *)
Theorem manager_init_result (B : Backend) (embedding_model : string)
    (use_openai_embeddings : bool) (openai_api_key : option string)
    (openai_model : string) :
  let r := LanceDBManager.init B embedding_model use_openai_embeddings
             openai_api_key openai_model in
  let usable (k : option string) := exists s, k = Some s /\ s <> "" in
  ((exists self, r = Ok self) <->
     if use_openai_embeddings
     then usable openai_api_key \/
          (~ usable openai_api_key /\ usable (env_openai_api_key B))
     else load_model B embedding_model = true) /\
  (forall self, r = Ok self ->
     LanceDBManager.use_openai_embeddings self = use_openai_embeddings /\
     LanceDBManager.openai_api_key self = openai_api_key /\
     LanceDBManager.openai_model self = openai_model /\
     LanceDBManager.db self = None /\
     LanceDBManager.embedder self
     = (if use_openai_embeddings then OpenAIModel openai_model
        else SentenceTransformer embedding_model)) /\
  (forall e, r = Raise e -> exists what, e = Exception what).
Proof.
  intros r usable.
  assert (Husable : forall k, usable k <->
            match k with Some s => Py.truthy s = true | None => False end).
  { intros [s|]; unfold usable.
    - split.
      + intros (s' & [= <-] & Hs). by destruct s.
      + intros Hs. exists s. split; [done|]. by intros ->.
    - split; [by intros (s & ? & _)|done]. }
  unfold r, LanceDBManager.init.
  destruct use_openai_embeddings.
  - rewrite !Husable.
    destruct openai_api_key as [k|].
    + destruct (Py.truthy k) eqn:Hk.
      * rewrite Hk. split_and!; [split; eauto| |done].
        by intros self [= <-].
      * destruct (env_openai_api_key B) as [k'|].
        -- destruct (Py.truthy k') eqn:Hk'.
           ++ split_and!; [split; [|eauto]| |done].
              ** intros _. right. split; [done|done].
              ** by intros self [= <-].
           ++ split_and!; [split| |intros e [= <-]; eauto].
              ** by intros [self ?].
              ** intros [?|[_ ?]]; done.
              ** done.
        -- split_and!; [split| |intros e [= <-]; eauto].
           ++ by intros [self ?].
           ++ intros [?|[_ ?]]; done.
           ++ done.
    + destruct (env_openai_api_key B) as [k'|].
      * destruct (Py.truthy k') eqn:Hk'.
        -- split_and!; [split; [|eauto]| |done].
           ++ intros _. right. split; [tauto|done].
           ++ by intros self [= <-].
        -- split_and!; [split| |intros e [= <-]; eauto].
           ++ by intros [self ?].
           ++ intros [?|[_ ?]]; done.
           ++ done.
      * split_and!; [split| |intros e [= <-]; eauto].
        -- by intros [self ?].
        -- intros [?|[_ ?]]; done.
        -- done.
  - destruct (load_model B embedding_model).
    + split_and!; [split; eauto| |done]. by intros self [= <-].
    + split_and!; [split| |intros e [= <-]; eauto]; [by intros [self ?]|done|done].
Qed.


(** ** The listing *)

Lemma jval_lt_asym a b :
  jval_lt a b = Some true -> jval_lt b a = Some false.
Proof.
  destruct a as [x|x|x], b as [y|y|y]; simpl; try done; intros [= H]; f_equal.
  - unfold String.ltb in *. rewrite String.compare_antisym.
    by destruct (String.compare x y).
  - apply Z.ltb_ge. apply Z.ltb_lt in H. lia.
  - apply Z.ltb_ge. apply Z.ltb_lt in H. lia.
  - apply Z.ltb_ge. apply Z.ltb_lt in H. lia.
  - apply Z.ltb_ge. apply Z.ltb_lt in H. lia.
Qed.

Lemma same_kind_comparable k a b :
  same_kind k a = true -> same_kind k b = true -> is_Some (jval_lt a b).
Proof.
  unfold same_kind. destruct k, a, b; simpl; try done; eauto.
Qed.

Lemma same_kind_refl_l k a : same_kind k a = true -> same_kind k k = true.
Proof. unfold same_kind. by destruct k, a. Qed.

Lemma insert_desc_descending x l :
  Forall (fun y => is_Some (jval_lt (kb_created_at x) (kb_created_at y))) l ->
  descending l -> descending (insert_desc x l).
Proof.
  induction l as [|y r IH]; intros Hcmp Hdesc; [done|].
  apply Forall_cons in Hcmp as [[c Hc] Hcmp]. simpl. rewrite Hc.
  destruct c.
  - assert (Hr : descending r) by (destruct r; [done|apply Hdesc]).
    specialize (IH Hcmp Hr). apply jval_lt_asym in Hc.
    destruct r as [|z r']; [by split|].
    simpl in IH |- *.
    destruct (jval_lt (kb_created_at x) (kb_created_at z)) as [[]|];
      (split; [|exact IH]); first [exact Hc | apply Hdesc].
  - by split.
Qed.

Lemma foldr_insert_desc_descending (j : JVal) (l : list KbEntry) :
  Forall (fun e => same_kind j (kb_created_at e) = true) l ->
  descending (foldr insert_desc [] l).
Proof.
  induction 1 as [|x l Hx Hl IH]; [done|].
  simpl. apply insert_desc_descending; [|exact IH].
  rewrite foldr_insert_desc_perm.
  eapply Forall_impl; [exact Hl|]. intros y Hy. simpl in Hy.
  by eapply same_kind_comparable.
Qed.

Lemma sort_by_created_desc_kinds k rest :
  forallb (fun k' => same_kind (kb_created_at k) (kb_created_at k')) rest = true ->
  rest <> [] \/ same_kind (kb_created_at k) (kb_created_at k) = true ->
  Forall (fun e => same_kind (kb_created_at k) (kb_created_at e) = true)
         (k :: rest).
Proof.
  intros Hall Hk. rewrite forallb_forall in Hall.
  assert (Hrest : Forall (fun e => same_kind (kb_created_at k) (kb_created_at e) = true)
                         rest).
  { apply Forall_forall. intros e He. apply Hall. by apply list_elem_of_In. }
  constructor; [|done].
  destruct Hk as [Hne|Hk]; [|done].
  destruct rest as [|e rest]; [done|].
  apply Forall_cons in Hrest as [He _]. by eapply same_kind_refl_l.
Qed.

Lemma same_kind_refl k : same_kind k k = true.
Proof. by destruct k. Qed.

Lemma sort_by_created_desc_descending kbs sorted :
  sort_by_created_desc kbs = Some sorted -> descending sorted.
Proof.
  destruct kbs as [|k rest]; [by intros [= <-]|].
  unfold sort_by_created_desc.
  destruct (forallb _ rest) eqn:Hall; [|done]. intros [= <-].
  apply (foldr_insert_desc_descending (kb_created_at k) (k :: rest)).
  apply sort_by_created_desc_kinds; [done|]. right. apply same_kind_refl.
Qed.

Lemma sort_by_created_desc_fails kbs :
  sort_by_created_desc kbs = None <->
  exists a b, a ∈ kbs /\ b ∈ kbs /\
              jval_lt (kb_created_at a) (kb_created_at b) = None.
Proof.
  destruct kbs as [|k rest].
  { split; [done|]. by intros (a & b & Ha%elem_of_nil & _). }
  unfold sort_by_created_desc.
  destruct (forallb _ rest) eqn:Hall.
  - split; [done|]. intros (a & b & Ha & Hb & Hlt). exfalso.
    pose proof (sort_by_created_desc_kinds k rest Hall
                  (or_intror (same_kind_refl _))) as Hkind.
    rewrite Forall_forall in Hkind.
    destruct (same_kind_comparable _ _ _ (Hkind a Ha) (Hkind b Hb)) as [c Hc].
    congruence.
  - split; [|done]. intros _.
    assert (Hex : exists e, e ∈ rest /\
                    same_kind (kb_created_at k) (kb_created_at e) = false).
    { clear -Hall. induction rest as [|e rest IH]; [done|].
      simpl in Hall. apply andb_false_iff in Hall as [He|Hrest].
      - exists e. split; [apply list_elem_of_here|done].
      - destruct (IH Hrest) as (e' & He' & Hk).
        exists e'. split; [by apply list_elem_of_further|done]. }
    destruct Hex as (e & He & Hk). exists k, e.
    split; [apply list_elem_of_here|]. split; [by apply list_elem_of_further|].
    unfold same_kind in Hk. by destruct (jval_lt _ _).
Qed.

(** X22.  [knowledge_list] answers that there is no knowledge base
    exactly when no directory has a metadata file that loads; otherwise it
    shows every such directory once, newest first by the recorded creation
    time, or, when two recorded creation times cannot be compared (a
    string and a number), fails as a whole. *)
Theorem knowledge_list_result (w : World) :
  match handle_knowledge_list w with
  | NoKnowledgeBases => list_entries w = []
  | Listing kbs => kbs ≡ₚ list_entries w /\ kbs <> [] /\ descending kbs
  | ListFailed =>
      exists a b, a ∈ list_entries w /\ b ∈ list_entries w /\
                  jval_lt (kb_created_at a) (kb_created_at b) = None
  end /\
  ((exists a b, a ∈ list_entries w /\ b ∈ list_entries w /\
                jval_lt (kb_created_at a) (kb_created_at b) = None) ->
   handle_knowledge_list w = ListFailed).
Proof.
  unfold handle_knowledge_list.
  destruct (list_entries w) as [|e es] eqn:Hes.
  { split; [done|]. by intros (a & b & Ha%elem_of_nil & _). }
  destruct (sort_by_created_desc (e :: es)) as [sorted|] eqn:Hs.
  - split.
    + split; [by apply sort_by_created_desc_perm|].
      split; [|by eapply sort_by_created_desc_descending].
      intros ->. apply sort_by_created_desc_perm in Hs.
      by apply Permutation_nil_l in Hs.
    + intros Hex. apply sort_by_created_desc_fails in Hex. congruence.
  - split; [|done]. by apply sort_by_created_desc_fails.
Qed.

Example knowledge_list_mixed_times :
  handle_knowledge_list mixed_world = ListFailed /\
  map kb_name (list_entries mixed_world) = ["b"; "a"] /\
  map kb_name
    (match handle_knowledge_list two_kb_world with Listing kbs => kbs | _ => [] end)
  = ["docs-kb"; "kb-docs-kb-data"].
Proof. repeat split; vm_compute; reflexivity. Qed.


(** ** Well-formedness of the file system is kept *)

Lemma mkdir_wf B p w : fs_wf w -> fs_wf (mkdir B p w).1.
Proof.
  intros Hwf.
  destruct (mkdir B p w) as [w' [[]|e]] eqn:Hm.
  2:{ revert Hm. unfold mkdir. destruct (fails _ _); [by intros [= <- _]|].
      destruct (make_dirs _ _); [done|]. by intros [= <- _]. }
  simpl. pose proof (mkdir_ok _ _ _ _ _ Hm) as [Hfs _].
  assert (Hdirs : forall d, d ∈ ancestors_and_self p -> is_dir w' d = true).
  { intros d Hd. apply is_dir_node. revert Hm. unfold mkdir.
    destruct (fails _ _); [done|].
    destruct (make_dirs _ _) as [f|] eqn:Hmk; [|done]. intros [= <-]. simpl.
    by eapply make_dirs_dirs. }
  intros q [node Hq] Hne Hparent.
  destruct (decide (removelast q ∈ ancestors_and_self p)) as [Hin|Hin];
    [by apply Hdirs|].
  rewrite Hfs in Hq.
  destruct (decide (q ∈ ancestors_and_self p)) as [Hqin|Hqin].
  - exfalso. apply Hin. apply elem_of_ancestors_and_self.
    apply elem_of_ancestors_and_self in Hqin as [_ Hpre].
    split; [done|]. etrans; [apply removelast_prefix|done].
  - unfold is_dir. rewrite Hfs, decide_False by done.
    apply (Hwf q); eauto.
Qed.

Lemma wf_no_child w p q :
  fs_wf w -> is_dir w p = false -> p <> [] -> removelast q = p ->
  fs w !! q = None.
Proof.
  intros Hwf Hp Hne Hq. destruct (fs w !! q) as [node|] eqn:Hnode; [|done].
  exfalso. assert (is_dir w (removelast q) = true); [|congruence].
  apply Hwf; [eauto| |congruence]. intros ->. simpl in Hq. congruence.
Qed.

Lemma insert_wf w w' p node :
  fs_wf w ->
  fs w' = <[p := node]> (fs w) ->
  (removelast p <> [] -> p <> [] -> is_dir w (removelast p) = true) ->
  (is_dir w p = true -> node = Dir \/ exists tables, node = Database tables) ->
  fs_wf w'.
Proof.
  intros Hwf Hfs Hparent Hkeep.
  assert (Hdir : forall q, is_dir w q = true -> is_dir w' q = true).
  { intros q Hq. unfold is_dir. rewrite Hfs.
    destruct (decide (q = p)) as [->|Hne].
    - rewrite lookup_insert_eq. by destruct (Hkeep Hq) as [->|[tables ->]].
    - by rewrite lookup_insert_ne. }
  intros q [n Hq] Hne Hrl. rewrite Hfs in Hq.
  destruct (decide (q = p)) as [->|Hqp].
  - apply Hdir. by apply Hparent.
  - rewrite lookup_insert_ne in Hq by done. apply Hdir, Hwf; eauto.
Qed.

Lemma connect_wf B p w : fs_wf w -> fs_wf (connect B p w).1.
Proof.
  intros Hwf. unfold connect. destruct (fails _ _); [done|].
  destruct (fs w !! p) as [[| |tables]|] eqn:Hp; try done; simpl.
  - eapply (insert_wf w _ p (Database ∅)); [done|done| |eauto].
    intros. apply Hwf; eauto.
  - destruct (is_dir w (removelast p)) eqn:Hd; [|done]. simpl.
    eapply (insert_wf w _ p (Database ∅)); [done|done|done|eauto].
Qed.

Lemma write_file_wf B p c w : fs_wf w -> fs_wf (write_file B p c w).1.
Proof.
  intros Hwf. unfold write_file.
  destruct (is_dir w (removelast p)) eqn:Hd; [|done]. simpl.
  destruct (fs w !! p) as [[| |tables]|] eqn:Hp; try done;
    destruct (write_outcome B p); try done; simpl;
    (eapply (insert_wf w _ p); [done|done|done|]);
    unfold is_dir; by rewrite Hp.
Qed.

Lemma store_rows_wf B db_path table_data w :
  fs_wf w -> is_dir w db_path = true ->
  fs_wf (LanceDBManager.store_rows B db_path table_data w).1.
Proof.
  intros Hwf Hd. unfold LanceDBManager.store_rows.
  destruct (tables_at w db_path !! "documents");
    destruct (fails _ _); try done; simpl;
    (eapply (insert_wf w _ db_path); [done|done| |eauto]);
    intros; apply Hwf; eauto; apply is_dir_node in Hd as [Hd|[t Hd]]; eauto.
Qed.

Lemma build_rows_wf B self documents table_data w :
  fs_wf w -> fs_wf (LanceDBManager.build_rows B self documents table_data w).1.
Proof.
  intros Hwf p. unfold is_dir.
  rewrite (proj1 (build_rows_rest B self documents table_data w)). apply Hwf.
Qed.

Lemma init_kb_wf B self p w :
  fs_wf w ->
  let r := LanceDBManager.init_kb B self p w in
  fs_wf r.1.1 /\
  (r.2 = Ok true -> exists db_path,
     LanceDBManager.db r.1.2 = Some db_path /\ is_dir r.1.1 db_path = true).
Proof.
  intros Hwf. unfold LanceDBManager.init_kb.
  pose proof (mkdir_wf B p w Hwf) as H1.
  destruct (mkdir B p w) as [w1 [[]|e]]; simpl in H1; [|done].
  pose proof (connect_wf B (p ++ ["lancedb"]) w1 H1) as H2.
  destruct (connect B (p ++ ["lancedb"]) w1) as [w2 [[]|e]] eqn:Hc;
    simpl in H2; [|done].
  match goal with |- context [write_file B ?f ?c w2] =>
    pose proof (write_file_wf B f c w2 H2) as H3;
    pose proof (write_file_frame B f c w2 (p ++ ["lancedb"])) as Hw;
    destruct (write_file B f c w2) as [w3 [[]|e]] end; simpl in *; [|done].
  split; [done|]. intros _. exists (p ++ ["lancedb"]). split; [done|].
  apply connect_ok in Hc as [Hc _].
  unfold is_dir. rewrite Hw, Hc, lookup_insert_eq; [done|].
  intros H%app_inv_head. discriminate H.
Qed.

Lemma add_rows_wf B self documents db_path w :
  fs_wf w -> LanceDBManager.db self = Some db_path -> is_dir w db_path = true ->
  fs_wf (LanceDBManager.add_rows B self documents w).1.1.
Proof.
  intros Hwf Hdb Hd. unfold LanceDBManager.add_rows.
  pose proof (build_rows_wf B self documents [] w Hwf) as H1.
  pose proof (build_rows_rest B self documents [] w) as [Hfs _].
  destruct (LanceDBManager.build_rows B self documents [] w) as [w2 [rows|e]];
    simpl in *; [|done].
  destruct rows as [|row rows]; [done|]. rewrite Hdb.
  assert (Hd2 : is_dir w2 db_path = true) by (unfold is_dir; by rewrite Hfs).
  pose proof (store_rows_wf B db_path (row :: rows) w2 H1 Hd2) as H2.
  by destruct (LanceDBManager.store_rows B db_path (row :: rows) w2)
    as [w3 [[]|e]].
Qed.

Lemma commit_kb_wf B args documents w :
  fs_wf w -> fs_wf (commit_kb B args documents w).1.
Proof.
  intros Hwf. unfold commit_kb.
  match goal with |- context [write_file B ?f ?c w] =>
    pose proof (write_file_wf B f c w Hwf) as H1;
    destruct (write_file B f c w) as [w1 [[]|e]] end; simpl in *; [|done].
  by destruct (generate_kb_mcp B _ _).
Qed.

Lemma create_from_pages_wf B args pages w :
  fs_wf w -> fs_wf (create_from_pages B args pages w).1.
Proof.
  intros Hwf. unfold create_from_pages.
  destruct pages as [|page pages]; [done|].
  pose proof (mkdir_wf B [arg_kb_name args] w Hwf) as H1.
  destruct (mkdir B _ w) as [w1 [[]|e]]; simpl in H1; [|done].
  destruct (LanceDBManager.init B _ _ _ _) as [mgr|e]; [|done].
  destruct (init_kb_wf B mgr ([arg_kb_name args] ++ ["lancedb"]) w1 H1)
    as [H2 Hdb].
  destruct (LanceDBManager.init_kb B mgr _ w1) as [[w2 mgr2] [[]|e]] eqn:Hkb;
    simpl in H2, Hdb; try done.
  destruct (Hdb eq_refl) as (db_path & Hdbp & Hdir).
  destruct (assemble_documents _ _) as [|doc docs]; [by apply commit_kb_wf|].
  rewrite (add_documents_after_init B mgr _ (doc :: docs) _ _ _ Hkb).
  pose proof (add_rows_wf B mgr2 (doc :: docs) db_path w2 H2 Hdbp Hdir) as H3.
  destruct (LanceDBManager.add_rows B mgr2 (doc :: docs) w2)
    as [[w3 mgr3] [[]|e]]; simpl in H3; try done.
  by apply commit_kb_wf.
Qed.

Lemma rmtree_wf B p w : fs_wf w -> fs_wf (rmtree B p w).1.
Proof.
  intros Hwf. destruct (rmtree B p w) as [w' [[]|e]] eqn:Hrm.
  2:{ revert Hrm. unfold rmtree. destruct (fails _ _); by intros [= <- _]. }
  simpl. intros q [node Hq] Hne Hparent.
  rewrite (rmtree_lookup _ _ _ _ _ q Hrm) in Hq.
  destruct (decide (p `prefix_of` q)) as [|Hpre]; [done|].
  unfold is_dir. rewrite (rmtree_lookup _ _ _ _ _ (removelast q) Hrm).
  rewrite decide_False.
  - apply (Hwf q); eauto.
  - intros H. apply Hpre. etrans; [exact H|apply removelast_prefix].
Qed.

(** X23.  The handlers keep the file system well formed: when every
    entry lies below a directory before a call of [knowledge_create] or of
    [knowledge_remove], the same holds after it, whatever its answer; so
    it holds in every state the handlers reach from the empty knowledge
    bases directory. *)
Theorem handlers_keep_fs_wf (B : Backend) (W : Web) (depth : nat)
    (args : CreateArgs) (name : string) (w : World) :
  fs_wf w ->
  (forall w' r, handle_knowledge_create B W depth args w = Some (w', r) ->
                fs_wf w') /\
  fs_wf (handle_knowledge_remove B name w).1.
Proof.
  intros Hwf. split.
  - intros w' r. unfold handle_knowledge_create.
    destruct (negb _); [by intros [= <- _]|].
    destruct (path_exists _ _); [by intros [= <- _]|].
    destruct (WebsiteCrawler.crawl_website _ W depth _) as [[pages|e]|];
      [|by intros [= <- _]|done].
    intros [= H]. pose proof (create_from_pages_wf B args pages w Hwf) as Hc.
    by rewrite H in Hc.
  - unfold handle_knowledge_remove.
    destruct (negb _); [done|].
    pose proof (rmtree_wf B [name] w Hwf) as Hr.
    destruct (rmtree B [name] w) as [w1 [[]|e]]; simpl in Hr; [|done].
    case_bool_decide; [|done]. by destruct (fails _ _).
Qed.

Lemma handlers_keep_fs_wf_witness :
  (forall w' r,
     handle_knowledge_create quiet_backend small_site_web 0 docs_args empty_world
     = Some (w', r) -> fs_wf w') /\
  fs_wf (handle_knowledge_remove quiet_backend "docs" empty_world).1.
Proof.
  apply (handlers_keep_fs_wf quiet_backend small_site_web 0 docs_args "docs"
           empty_world).
  intros p [node Hp]. simpl in Hp. by rewrite lookup_empty in Hp.
Defined.


(** ** Where a detected sitemap comes from *)

Lemma probe_common_first W base_url paths u :
  probe_common W base_url paths = Ok (Some u) ->
  exists before path after,
    paths = before ++ path :: after /\
    u = urljoin W base_url path /\ answers_200 W u /\
    Forall (fun p => ~ answers_200 W (urljoin W base_url p)) before.
Proof.
  induction paths as [|p rest IH]; [done|]. simpl.
  destruct (urljoin_raises W base_url p); [done|].
  destruct (requests_head W (urljoin W base_url p)) as [code text|e] eqn:Hh.
  - destruct (code =? 200) eqn:Hc.
    + apply Z.eqb_eq in Hc. subst. intros [= <-].
      exists [], p, rest. split; [done|]. split; [done|].
      split; [by exists text|constructor].
    + intros (before & path & after & -> & -> & Ha & Hb)%IH.
      exists (p :: before), path, after. split; [done|]. split; [done|].
      split; [done|]. constructor; [|done].
      intros [t Ht]. rewrite Hh in Ht. injection Ht as -> _. done.
  - destruct e; [|done].
    intros (before & path & after & -> & -> & Ha & Hb)%IH.
    exists (p :: before), path, after. split; [done|]. split; [done|].
    split; [done|]. constructor; [|done].
    intros [t Ht]. rewrite Hh in Ht. done.
Qed.

Lemma probe_common_none W base_url paths :
  probe_common W base_url paths = Ok None ->
  Forall (fun p => ~ answers_200 W (urljoin W base_url p)) paths.
Proof.
  induction paths as [|p rest IH]; [constructor|]. simpl.
  destruct (urljoin_raises W base_url p); [done|].
  destruct (requests_head W (urljoin W base_url p)) as [code text|e] eqn:Hh.
  - destruct (code =? 200) eqn:Hc; [done|].
    intros H%IH. constructor; [|done].
    intros [t Ht]. rewrite Hh in Ht. injection Ht as -> _. done.
  - destruct e; [|done]. intros H%IH. constructor; [|done].
    intros [t Ht]. rewrite Hh in Ht. done.
Qed.

Lemma scan_robots_first W lines u :
  scan_robots W lines = Ok (Some u) ->
  exists before line after,
    lines = before ++ line :: after /\
    robots_sitemap line = Some u /\ answers_200 W u /\
    Forall (fun l => forall v, robots_sitemap l = Some v -> ~ answers_200 W v)
           before.
Proof.
  induction lines as [|l rest IH]; [done|]. simpl.
  assert (Hskip : (forall v, robots_sitemap l = Some v -> ~ answers_200 W v) ->
            scan_robots W rest = Ok (Some u) ->
            exists before line after,
              l :: rest = before ++ line :: after /\
              robots_sitemap line = Some u /\ answers_200 W u /\
              Forall (fun l => forall v, robots_sitemap l = Some v ->
                                         ~ answers_200 W v) before).
  { intros Hl (before & line & after & -> & Hline & Ha & Hb)%IH.
    exists (l :: before), line, after. split; [done|]. split; [done|].
    split; [done|]. by constructor. }
  unfold robots_sitemap in Hskip |- *.
  destruct (Py.startswith (Py.lower l) "sitemap:") eqn:Hs; [|by apply Hskip].
  destruct (Py.after_first ":" l) as [value|] eqn:Hv; [|done]. simpl in Hskip.
  destruct (requests_head W (Py.strip value)) as [code text|e] eqn:Hh.
  - destruct (code =? 200) eqn:Hc.
    + apply Z.eqb_eq in Hc. subst. intros [= <-].
      exists [], l, rest. split; [done|]. rewrite Hs, Hv. simpl.
      split; [done|]. split; [by exists text|constructor].
    + apply Hskip. intros v [= <-] [t Ht]. rewrite Hh in Ht.
      injection Ht as -> _. done.
  - destruct e; [|done]. apply Hskip. intros v [= <-] [t Ht].
    rewrite Hh in Ht. done.
Qed.

(** X24.  A sitemap URL that [check_sitemap] reports answered a HEAD
    request with status 200 and is the first such candidate in the order
    of the search: the first of the three common paths, joined to the base
    URL, that answers 200; or, when none of them does, the first
    [Sitemap:] line of a robots.txt served with status 200 whose URL (the
    text after the first colon, stripped) answers 200.  When it reports
    that there is none, no common path answers 200 and the URL is empty. *)
Theorem check_sitemap_provenance (W : Web) (base_url : string) :
  (forall u, check_sitemap W base_url = Ok (true, u) ->
     (exists before path after,
        common_paths = before ++ path :: after /\
        u = urljoin W base_url path /\ answers_200 W u /\
        Forall (fun p => ~ answers_200 W (urljoin W base_url p)) before) \/
     (Forall (fun p => ~ answers_200 W (urljoin W base_url p)) common_paths /\
      exists text before line after,
        requests_get W (urljoin W base_url "/robots.txt") = Response 200 text /\
        Py.split_on "010" text = before ++ line :: after /\
        robots_sitemap line = Some u /\ answers_200 W u /\
        Forall (fun l => forall v, robots_sitemap l = Some v -> ~ answers_200 W v)
               before)) /\
  (forall u, check_sitemap W base_url = Ok (false, u) ->
     u = "" /\
     Forall (fun p => ~ answers_200 W (urljoin W base_url p)) common_paths).
Proof.
  unfold check_sitemap.
  destruct (probe_common W base_url common_paths) as [[found|]|e] eqn:Hp.
  - split; [|done]. intros u [= <-]. left. by apply probe_common_first.
  - apply probe_common_none in Hp.
    destruct (urljoin_raises W base_url "/robots.txt"); [done|].
    destruct (requests_get W (urljoin W base_url "/robots.txt"))
      as [code text|e] eqn:Hg.
    + destruct (code =? 200) eqn:Hc.
      * apply Z.eqb_eq in Hc. subst.
        destruct (scan_robots W (Py.split_on "010" text)) as [[found|]|e] eqn:Hr.
        -- split; [|done]. intros u [= <-]. right. split; [done|].
           apply scan_robots_first in Hr
             as (before & line & after & Hl & Hline & Ha & Hb).
           by exists text, before, line, after.
        -- split; [done|]. by intros u [= <-].
        -- destruct e; [|done]. split; [done|]. by intros u [= <-].
      * split; [done|]. by intros u [= <-].
    + destruct e; [|done]. split; [done|]. by intros u [= <-].
  - done.
Qed.

Example check_sitemap_robots :
  check_sitemap robots_web "https://r.org" = Ok (true, "https://cdn.r.org/map.xml") /\
  map robots_sitemap
    ["User-agent: *"; "Sitemap: https://r.org/old.xml";
     "SITEMAP:  https://cdn.r.org/map.xml "]
  = [None; Some "https://r.org/old.xml"; Some "https://cdn.r.org/map.xml"].
Proof. split; vm_compute; reflexivity. Qed.


(** ** Search through a connected manager *)

(** X25.  On a manager connected to a database that holds a table,
    [search] reads the connected database whatever path it is given and
    writes nothing: the file system and the connection of the manager are
    as before.  It
    returns [None] exactly when the database has no table [documents],
    the table cannot be opened, the embedding of the query fails or the
    search of the table fails; otherwise it returns the query, the rows
    the search of the table gives for the limit, formatted in that order,
    and their number as total. *)
Theorem search_connected (B : Backend) (self : LanceDBManager.t)
    (db_path kb_path : path) (query : string) (limit : Z) (w : World) :
  LanceDBManager.truthy_db self w = Some db_path ->
  let r := LanceDBManager.search B self kb_path query limit w in
  (forall kb_path', LanceDBManager.search B self kb_path' query limit w = r) /\
  fs r.1.1 = fs w /\ r.1.2 = self /\
  match tables_at w db_path !! "documents" with
  | None => r.2 = None
  | Some rows =>
      if fails B (OpOpenTable db_path) then r.2 = None
      else
        match encode_text B (LanceDBManager.embedder self) query with
        | None => r.2 = None
        | Some query_embedding =>
            match vector_search B query_embedding rows limit with
            | None => r.2 = None
            | Some results =>
                r.2 = Some {| LanceDBManager.out_query := query;
                              LanceDBManager.out_results :=
                                map LanceDBManager.format_result results;
                              LanceDBManager.out_total := length results |}
            end
        end
  end.
Proof.
  intros Hdb r. split.
  { intros kb_path'. unfold r, LanceDBManager.search. by rewrite Hdb. }
  unfold r, LanceDBManager.search. rewrite Hdb.
  destruct (tables_at w db_path !! "documents") as [rows|]; [|done].
  destruct (fails B (OpOpenTable db_path)); [done|].
  unfold LanceDBManager.embed.
  destruct (encode_text B (LanceDBManager.embedder self) query) as [v|]; [|done].
  by destruct (vector_search B v rows limit).
Qed.

Lemma search_connected_witness :
  let r := LanceDBManager.search quiet_backend docs_manager ["elsewhere"]
             "how to install" 2 docs_world in
  (forall kb_path',
     LanceDBManager.search quiet_backend docs_manager kb_path' "how to install" 2
       docs_world = r) /\
  fs r.1.1 = fs docs_world /\ r.1.2 = docs_manager /\
  match tables_at docs_world ["docs"; "lancedb"; "lancedb"] !! "documents" with
  | None => r.2 = None
  | Some rows =>
      if fails quiet_backend (OpOpenTable ["docs"; "lancedb"; "lancedb"])
      then r.2 = None
      else
        match encode_text quiet_backend (LanceDBManager.embedder docs_manager)
                "how to install" with
        | None => r.2 = None
        | Some query_embedding =>
            match vector_search quiet_backend query_embedding rows 2 with
            | None => r.2 = None
            | Some results =>
                r.2 = Some {| LanceDBManager.out_query := "how to install";
                              LanceDBManager.out_results :=
                                map LanceDBManager.format_result results;
                              LanceDBManager.out_total := length results |}
            end
        end
  end.
Proof.
  apply (search_connected quiet_backend docs_manager
           ["docs"; "lancedb"; "lancedb"] ["elsewhere"] "how to install" 2
           docs_world).
  reflexivity.
Defined.

Example search_connected_total :
  LanceDBManager.out_total
  <$> (LanceDBManager.search quiet_backend docs_manager ["elsewhere"]
         "how to install" 2 docs_world).2
  = Some 2%nat.
Proof. vm_compute. reflexivity. Qed.

(** ** Creation is confined to the directory of the knowledge base *)

Lemma not_below_ancestors (name : string) (p q : path) :
  [name] `prefix_of` p -> ~ [name] `prefix_of` q -> q ∉ ancestors_and_self p.
Proof.
  intros Hp Hq [Hne [k Hk]]%elem_of_ancestors_and_self. apply Hq.
  destruct Hp as [k' ->]. destruct q as [|x q]; [done|].
  injection Hk as -> _. by exists q.
Qed.

Lemma create_from_pages_frame B args pages w q :
  ~ [arg_kb_name args] `prefix_of` q ->
  fs (create_from_pages B args pages w).1 !! q = fs w !! q.
Proof.
  intros Hq. set (name := arg_kb_name args) in *.
  assert (Hne : forall p, [name] `prefix_of` p -> q <> p) by (by intros p Hp ->).
  assert (Hp1 : [name] `prefix_of` [name]) by done.
  assert (Hp2 : [name] `prefix_of` [name; "lancedb"]) by (by exists ["lancedb"]).
  assert (Hp3 : [name] `prefix_of` [name; "lancedb"; "lancedb"])
    by (by exists ["lancedb"; "lancedb"]).
  assert (Hp4 : [name] `prefix_of` [name; "lancedb"; "metadata.json"])
    by (by exists ["lancedb"; "metadata.json"]).
  assert (Hp5 : [name] `prefix_of` [name; "metadata.json"])
    by (by exists ["metadata.json"]).
  unfold create_from_pages. fold name.
  destruct pages as [|page pages]; [done|].
  pose proof (mkdir_frame B [name] w q (not_below_ancestors name _ q Hp1 Hq)) as H1.
  destruct (mkdir B [name] w) as [w1 [[]|e]]; simpl in H1; [|done].
  destruct (LanceDBManager.init B _ _ _ _) as [mgr|e]; [|done].
  simpl app.
  pose proof (init_kb_frame B mgr [name; "lancedb"] w1 q
                (not_below_ancestors name _ q Hp2 Hq) (Hne _ Hp3) (Hne _ Hp4))
    as H2.
  pose proof (init_kb_db B mgr [name; "lancedb"] w1) as Hdb.
  destruct (LanceDBManager.init_kb B mgr [name; "lancedb"] w1)
    as [[w2 mgr2] [[]|e]]; simpl in H2, Hdb |- *; try congruence.
  specialize (Hdb eq_refl).
  assert (Hc : forall k wk, fs (commit_kb B args k wk).1 !! q = fs wk !! q).
  { intros k wk. apply commit_kb_frame. by apply Hne. }
  destruct (assemble_documents name (page :: pages)) as [|doc docs].
  - rewrite Hc. congruence.
  - assert (H5 : forall p, LanceDBManager.db mgr2 = Some p -> q <> p).
    { intros p Hp. rewrite Hdb in Hp. injection Hp as <-. by apply Hne. }
    pose proof (add_documents_frame B mgr2 [name; "lancedb"] (doc :: docs) w2 q
                  (not_below_ancestors name _ q Hp2 Hq) (Hne _ Hp3) (Hne _ Hp4) H5)
      as H3.
    destruct (LanceDBManager.add_documents B mgr2 _ (doc :: docs) w2)
      as [[w3 mgr3] [[]|e]]; simpl in H3 |- *; rewrite ?Hc; congruence.
Qed.

(** X26.  [knowledge_create] is confined to the directory of the
    knowledge base it is asked for: whatever its answer, every path that
    does not lie in that directory is as it was before the call, so the
    directories, databases and metadata files of the other knowledge bases
    are untouched. *)
Theorem knowledge_create_confined (B : Backend) (W : Web) (depth : nat)
    (args : CreateArgs) (w w' : World) (r : CreateResponse) :
  handle_knowledge_create B W depth args w = Some (w', r) ->
  (forall other rest, other <> arg_kb_name args ->
     fs w' !! (other :: rest) = fs w !! (other :: rest)) /\
  (forall other, other <> arg_kb_name args ->
     is_dir w' [other] = is_dir w [other] /\
     recorded w' other = recorded w other).
Proof.
  intros Hrun.
  assert (Hframe : forall other rest, other <> arg_kb_name args ->
            fs w' !! (other :: rest) = fs w !! (other :: rest)).
  { intros other rest Hne. revert Hrun. unfold handle_knowledge_create.
    destruct (negb _); [by intros [= <- _]|].
    destruct (path_exists _ _); [by intros [= <- _]|].
    destruct (WebsiteCrawler.crawl_website _ W depth _) as [[pages|e]|];
      [|by intros [= <- _]|done].
    intros [= H].
    pose proof (create_from_pages_frame B args pages w (other :: rest)) as Hf.
    rewrite H in Hf. apply Hf.
    intros [k [= ? _]]%prefix_of_singleton. done. }
  split; [exact Hframe|].
  intros other Hne. split.
  - unfold is_dir. by rewrite Hframe.
  - unfold recorded. by rewrite Hframe.
Qed.

Lemma knowledge_create_confined_witness :
  (forall other rest, other <> arg_kb_name docs_args ->
     fs docs_world !! (other :: rest) = fs empty_world !! (other :: rest)) /\
  (forall other, other <> arg_kb_name docs_args ->
     is_dir docs_world [other] = is_dir empty_world [other] /\
     recorded docs_world other = recorded empty_world other).
Proof.
  apply (knowledge_create_confined quiet_backend small_site_web 0 docs_args
           empty_world docs_world (Created 3 "kb-docs")).
  vm_compute. reflexivity.
Defined.

